(** * IoTaWatt RTC: the DateTime value type and the two-chip RTC driver

    A shallow embedding of [Firmware/IotaWatt/RTC.cpp].  Fixed-width C
    integers are integers in [Z] with the wrap-around written out
    ([u8], [u16], [u32]); the target is the ESP8266, so [int] and
    [size_t] are 32 bits wide.  Character buffers are lists of bytes
    that hold the terminating NUL and fault on an access outside the
    list; the driver runs in a state monad over an interface of the
    two-wire bus ([TwoWire]), with a bus that records its calls and a
    bus with a register-backed chip as implementations. *)

From Stdlib Require Import Ascii String ZArith List Bool Lia.
From stdpp Require Import base list.
Import ListNotations.

Local Open Scope Z_scope.
Local Open Scope bool_scope.

(** ** Fixed-width unsigned integers *)

Definition u8 (x : Z) : Z := x mod 256.
Definition u16 (x : Z) : Z := x mod 65536.
Definition u32 (x : Z) : Z := x mod 4294967296.

(** ** Ranges of integers, for the properties settled by evaluation *)

Fixpoint zrange (lo : Z) (n : nat) : list Z :=
  match n with
  | O => []
  | S n' => lo :: zrange (lo + 1) n'
  end.

Definition zall (lo : Z) (n : nat) (p : Z -> bool) : bool :=
  forallb p (zrange lo n).

(** ** Tables in program memory *)

(** The three constant tables the file keeps in program memory.  A C
    read past a table returns whatever byte the flash holds there; the
    embedding takes that byte from [stray]. *)
Inductive table : Type := DaysInMonthTab | DayNamesTab | MonthNamesTab.

(** Modelled from the spec: [SECONDS_FROM_1970_TO_2000] is a macro of
    the header [RTC.h], which is not part of the sources; the spec gives
    "the fixed offset between 1970-01-01 and 2000-01-01 (946,684,800
    seconds)". *)
Definition SECONDS_FROM_1970_TO_2000 : Z := 946684800.

(** [const uint8_t daysInMonth[] PROGMEM], January to November. *)
Definition daysInMonth : list Z := [31; 28; 31; 30; 31; 30; 31; 31; 30; 31; 30].

(** [day_names[]] and [month_names[]] of [toString], with the NUL that
    ends each string literal. *)
Definition day_names : list Z :=
  [83;117;110; 77;111;110; 84;117;101; 87;101;100; 84;104;117;
   70;114;105; 83;97;116; 0].

Definition month_names : list Z :=
  [74;97;110; 70;101;98; 77;97;114; 65;112;114; 77;97;121; 74;117;110;
   74;117;108; 65;117;103; 83;101;112; 79;99;116; 78;111;118; 68;101;99; 0].

Definition table_bytes (t : table) : list Z :=
  match t with
  | DaysInMonthTab => daysInMonth
  | DayNamesTab => day_names
  | MonthNamesTab => month_names
  end.

(** ** The DateTime value *)

Record DateTime : Type := mkDateTime {
  yOff : Z;  (* year offset from 2000 *)
  m : Z;     (* month *)
  d : Z;     (* day *)
  hh : Z;    (* hours *)
  mm : Z;    (* minutes *)
  ss : Z     (* seconds *)
}.

(** Modelled from the spec: the accessors [year()], [month()], [day()],
    [hour()], [minute()] and [second()] are defined in the header
    [RTC.h], which is not part of the sources.  The year offset
    represents the year 2000 + yOff (as [operator<] and [timestamp] of
    the source also take it); the others return the stored field. *)
Definition year (dt : DateTime) : Z := 2000 + yOff dt.
Definition month (dt : DateTime) : Z := m dt.
Definition day (dt : DateTime) : Z := d dt.
Definition hour (dt : DateTime) : Z := hh dt.
Definition minute (dt : DateTime) : Z := mm dt.
Definition second (dt : DateTime) : Z := ss dt.

Definition DateTime_eqb (a b : DateTime) : bool :=
  (yOff a =? yOff b) && (m a =? m b) && (d a =? d b) &&
  (hh a =? hh b) && (mm a =? mm b) && (ss a =? ss b).

(** [DateTime::DateTime(uint16_t year, uint8_t month, ...)]: the fields
    are stored as given, a full year is brought to an offset. *)
Definition DateTime_of_fields (year month day hour min sec : Z) : DateTime :=
  let year := if 2000 <=? year then u16 (year - 2000) else year in
  mkDateTime (u8 year) month day hour min sec.

Section Calendar.

(** The byte found at offset [k] of table [t] when [k] is outside it. *)
Variable stray : table -> Z -> Z.

Definition pgm_read_byte (t : table) (k : Z) : Z :=
  if k <? 0 then u8 (stray t k)
  else match nth_error (table_bytes t) (Z.to_nat k) with
       | Some b => b
       | None => u8 (stray t k)
       end.

(** The loop [for (uint8_t i = 1; i < m; ++i) days += daysInMonth[i - 1]]
    of [date2days]; [n] counts the iterations left, [m - i]. *)
Fixpoint add_months (n : nat) (i days : Z) : Z :=
  match n with
  | O => days
  | S n' =>
      add_months n' (i + 1) (u16 (days + pgm_read_byte DaysInMonthTab (i - 1)))
  end.

(** [static uint16_t date2days(uint16_t y, uint8_t m, uint8_t d)] *)
Definition date2days (y m d : Z) : Z :=
  let y := if 2000 <=? y then u16 (y - 2000) else y in
  let days := d in
  let days := add_months (Z.to_nat (m - 1)) 1 days in
  let days := if (2 <? m) && (y mod 4 =? 0) then u16 (days + 1) else days in
  u16 (days + 365 * y + (y + 3) / 4 - 1).

(** [static uint32_t time2ulong(uint16_t days, uint8_t h, uint8_t m,
    uint8_t s)], in [unsigned long] arithmetic. *)
Definition time2ulong (days h m s : Z) : Z :=
  u32 (u32 (u32 (u32 (days * 24) + h) * 60 + m) * 60 + s).

(** The loop [for (yOff = 0;; ++yOff)] of [DateTime(uint32_t)].  It
    leaves through its [break]; [fuel] bounds the iterations and
    [None] is the exhausted bound, which [year_loop_breaks] shows
    unreachable from the constructor. *)
Fixpoint year_loop (fuel : nat) (yOff days : Z) : option (Z * Z * Z) :=
  match fuel with
  | O => None
  | S fuel' =>
      let leap := if yOff mod 4 =? 0 then 1 else 0 in
      if days <? 365 + leap then Some (yOff, leap, days)
      else year_loop fuel' (u8 (yOff + 1)) (u16 (days - (365 + leap)))
  end.

(** The loop [for (m = 1; m < 12; ++m)] of [DateTime(uint32_t)]; [n]
    counts the iterations left, [12 - m]. *)
Fixpoint month_loop (n : nat) (m leap days : Z) : Z * Z :=
  match n with
  | O => (m, days)
  | S n' =>
      let daysPerMonth := pgm_read_byte DaysInMonthTab (m - 1) in
      let daysPerMonth :=
        if negb (leap =? 0) && (m =? 2) then u8 (daysPerMonth + 1)
        else daysPerMonth in
      if days <? daysPerMonth then (m, days)
      else month_loop n' (u8 (m + 1)) leap (u16 (days - daysPerMonth))
  end.

(** The calendar half of [DateTime(uint32_t)]: whole days to
    [(yOff, m, d)].  The year loop does not give [None] here
    ([year_loop_breaks]). *)
Definition days2date (days : Z) : Z * Z * Z :=
  match year_loop 256 0 days with
  | Some (yOff, leap, days) =>
      let '(m, days) := month_loop 11 1 leap days in
      (yOff, m, u8 (days + 1))
  | None => (0, 0, 0)
  end.

(** [DateTime::DateTime(uint32_t t)] *)
Definition DateTime_of_uint32 (t : Z) : DateTime :=
  let t := u32 (t - SECONDS_FROM_1970_TO_2000) in
  let ss := u8 (t mod 60) in
  let t := t / 60 in
  let mm := u8 (t mod 60) in
  let t := t / 60 in
  let hh := u8 (t mod 24) in
  let days := u16 (t / 24) in
  let '(yOff, m, d) := days2date days in
  mkDateTime yOff m d hh mm ss.

(** [uint32_t DateTime::unixtime(void) const] *)
Definition unixtime (dt : DateTime) : Z :=
  let days := date2days (yOff dt) (m dt) (d dt) in
  let t := time2ulong days (hh dt) (mm dt) (ss dt) in
  u32 (t + SECONDS_FROM_1970_TO_2000).

(** [uint32_t DateTime::secondstime(void) const] *)
Definition secondstime (dt : DateTime) : Z :=
  time2ulong (date2days (yOff dt) (m dt) (d dt)) (hh dt) (mm dt) (ss dt).

(** [bool DateTime::isValid() const] *)
Definition isValid (dt : DateTime) : bool :=
  if 100 <=? yOff dt then false
  else DateTime_eqb dt (DateTime_of_uint32 (unixtime dt)).

(** [uint8_t DateTime::dayOfTheWeek() const] *)
Definition dayOfTheWeek (dt : DateTime) : Z :=
  let day := date2days (yOff dt) (m dt) (d dt) in
  u8 ((day + 6) mod 7).

End Calendar.

(** ** Calendar validity, as the specification words it *)

(** A year of the Gregorian calendar is a leap year when it is divisible
    by 4 and, if it is divisible by 100, also by 400. *)
Definition gregorian_leap (year : Z) : bool :=
  (year mod 4 =? 0) && (negb (year mod 100 =? 0) || (year mod 400 =? 0)).

Definition gregorian_month_length (year month : Z) : Z :=
  if month =? 2 then (if gregorian_leap year then 29 else 28)
  else if (month =? 4) || (month =? 6) || (month =? 9) || (month =? 11) then 30
  else 31.

(** The valid field tuples: year in 2000..2099, month in 1..12, a day
    that exists in that month of that year, hour in 0..23, minute and
    second in 0..59. *)
Definition valid_tuple (year month day hour min sec : Z) : bool :=
  (2000 <=? year) && (year <=? 2099) &&
  (1 <=? month) && (month <=? 12) &&
  (1 <=? day) && (day <=? gregorian_month_length year month) &&
  (0 <=? hour) && (hour <=? 23) &&
  (0 <=? min) && (min <=? 59) &&
  (0 <=? sec) && (sec <=? 59).

Definition valid_DateTime (dt : DateTime) : bool :=
  valid_tuple (year dt) (month dt) (day dt) (hour dt) (minute dt) (second dt).

(** ** C strings *)

(** The code of a character literal, and the bytes of a string literal
    with its terminating NUL. *)
Definition chr (c : ascii) : Z := Z.of_N (N_of_ascii c).

Fixpoint chars (s : string) : list Z :=
  match s with
  | EmptyString => []
  | String c s' => chr c :: chars s'
  end.

Definition cstr (s : string) : list Z := chars s ++ [0].

(** [strlen]: the number of bytes before the first NUL.  On a list
    without a NUL the count is the length of the list; the callers that
    index an array check for that case ([strlen_checked]). *)
Fixpoint strlen (s : list Z) : Z :=
  match s with
  | [] => 0
  | c :: s' => if c =? 0 then 0 else 1 + strlen s'
  end.

(** [memcpy(dst, src, n)] on arrays that hold at least [n] bytes. *)
Fixpoint memcpy (dst src : list Z) (n : nat) : list Z :=
  match n, dst, src with
  | S n', _ :: dst', c :: src' => c :: memcpy dst' src' n'
  | _, _, _ => dst
  end.

(** [static uint8_t conv2d(const char *p)]; [p] is the array from the
    pointed byte on. *)
Definition conv2d (p : list Z) : Z :=
  let p0 := nth 0 p 0 in
  let p1 := nth 1 p 0 in
  let v := 0 in
  let v := if (chr "0" <=? p0) && (p0 <=? chr "9")
           then u8 (p0 - chr "0") else v in
  let v := if (chr "0" <=? p1) && (p1 <=? chr "9")
           then u8 (10 * v + p1 - chr "0") else v in
  v.

(** [DateTime::DateTime(const char *iso8601dateTime)] *)
Definition iso8601_ref (iso8601dateTime : list Z) : list Z :=
  let ref := cstr "2000-01-01T00:00:00" in
  memcpy ref iso8601dateTime
         (Z.to_nat (Z.min (strlen ref) (strlen iso8601dateTime))).

Definition DateTime_of_iso8601 (iso8601dateTime : list Z) : DateTime :=
  let ref := iso8601_ref iso8601dateTime in
  mkDateTime (conv2d (skipn 2 ref)) (conv2d (skipn 5 ref))
             (conv2d (skipn 8 ref)) (conv2d (skipn 11 ref))
             (conv2d (skipn 14 ref)) (conv2d (skipn 17 ref)).

(** ** Faulting computations and stateful computations *)

(** Accesses to a character array either succeed or leave the array. *)
Inductive fault : Type := OutOfBounds | OutOfFuel.

Inductive result (A : Type) : Type :=
  | Ok (a : A)
  | Fault (f : fault).
Arguments Ok {A} a.
Arguments Fault {A} f.

Definition result_bind {A B : Type} (c : result A) (k : A -> result B)
    : result B :=
  match c with
  | Ok a => k a
  | Fault f => Fault f
  end.

Notation "'let*' x ':=' c 'in' k" := (result_bind c (fun x => k))
  (at level 10, x name, c at level 200, k at level 200).

(** State passing over a state [S]. *)
Definition State (S A : Type) : Type := S -> A * S.

Definition ret {S A : Type} (a : A) : State S A := fun s => (a, s).

Definition bind {S A B : Type} (c : State S A) (k : A -> State S B)
    : State S B :=
  fun s => let (a, s') := c s in k a s'.

Notation "x '<-' c ';;' k" := (bind c (fun x => k))
  (at level 100, c at next level, k at level 200, right associativity).
Notation "c ';;' k" := (bind c (fun _ => k))
  (at level 100, k at level 200, right associativity).

(** ** DateTime::toString *)

(** [buffer[k]] as a read and [buffer[k] = v] as a write, both inside
    the array or a fault. *)
Definition rd (buffer : list Z) (k : Z) : result Z :=
  match buffer !! Z.to_nat k with
  | Some b => Ok b
  | None => Fault OutOfBounds
  end.

Definition wr (buffer : list Z) (k v : Z) : result (list Z) :=
  if k <? Z.of_nat (length buffer) then Ok (<[Z.to_nat k := u8 v]> buffer)
  else Fault OutOfBounds.

(** [strlen(buffer)] on an array: a scan that finds no NUL inside the
    array has left it. *)
Definition strlen_checked (buffer : list Z) : result Z :=
  if strlen buffer <? Z.of_nat (length buffer) then Ok (strlen buffer)
  else Fault OutOfBounds.

(** [strstr(buffer, needle) != nullptr] *)
Fixpoint starts_with (needle s : list Z) : bool :=
  match needle, s with
  | [], _ => true
  | n :: needle', c :: s' => (n =? c) && starts_with needle' s'
  | _ :: _, [] => false
  end.

Fixpoint strstr (s needle : list Z) : bool :=
  starts_with needle s ||
  match s with
  | [] => false
  | c :: s' => if c =? 0 then false else strstr s' needle
  end.

(** [buffer[i] == c0 && buffer[i + 1] == c1], the second byte read only
    when the first one matches. *)
Definition tok2 (buffer : list Z) (i c0 c1 : Z) : result bool :=
  let* b0 := rd buffer i in
  if b0 =? c0 then (let* b1 := rd buffer (i + 1) in Ok (b1 =? c1))
  else Ok false.

Definition put2 (buffer : list Z) (i v0 v1 : Z) : result (list Z) :=
  let* buffer := wr buffer i v0 in
  wr buffer (i + 1) v1.

Definition put3 (buffer : list Z) (i v0 v1 v2 : Z) : result (list Z) :=
  let* buffer := wr buffer i v0 in
  let* buffer := wr buffer (i + 1) v1 in
  wr buffer (i + 2) v2.

(** ['0' + v / 10] and ['0' + v % 10] into [buffer[i]], [buffer[i + 1]] *)
Definition digits2 (buffer : list Z) (i v : Z) : result (list Z) :=
  put2 buffer i (chr "0" + v / 10) (chr "0" + v mod 10).

Section ToString.

Variable stray : table -> Z -> Z.

(** One iteration of the scan loop of [toString], at index [i]. *)
Definition toString_step (dt : DateTime) (hourReformatted : Z) (isPM : bool)
    (i : Z) (buffer : list Z) : result (list Z) :=
  let* t := tok2 buffer i (chr "h") (chr "h") in
  let* buffer := (if t then digits2 buffer i hourReformatted else Ok buffer) in
  let* t := tok2 buffer i (chr "m") (chr "m") in
  let* buffer := (if t then digits2 buffer i (mm dt) else Ok buffer) in
  let* t := tok2 buffer i (chr "s") (chr "s") in
  let* buffer := (if t then digits2 buffer i (ss dt) else Ok buffer) in
  let* t := tok2 buffer i (chr "D") (chr "D") in
  let* buffer :=
    (if t then
       let* b2 := rd buffer (i + 2) in
       if b2 =? chr "D" then
         let p := 3 * dayOfTheWeek stray dt in
         put3 buffer i (pgm_read_byte stray DayNamesTab p)
              (pgm_read_byte stray DayNamesTab (p + 1))
              (pgm_read_byte stray DayNamesTab (p + 2))
       else digits2 buffer i (d dt)
     else Ok buffer) in
  let* t := tok2 buffer i (chr "M") (chr "M") in
  let* buffer :=
    (if t then
       let* b2 := rd buffer (i + 2) in
       if b2 =? chr "M" then
         let p := 3 * (m dt - 1) in
         put3 buffer i (pgm_read_byte stray MonthNamesTab p)
              (pgm_read_byte stray MonthNamesTab (p + 1))
              (pgm_read_byte stray MonthNamesTab (p + 2))
       else digits2 buffer i (m dt)
     else Ok buffer) in
  let* t := tok2 buffer i (chr "Y") (chr "Y") in
  let* buffer :=
    (if t then
       let* t4 := tok2 buffer (i + 2) (chr "Y") (chr "Y") in
       if t4 then
         let* buffer := put2 buffer i (chr "2") (chr "0") in
         put2 buffer (i + 2) (chr "0" + (yOff dt / 10) mod 10)
              (chr "0" + yOff dt mod 10)
       else put2 buffer i (chr "0" + (yOff dt / 10) mod 10)
                 (chr "0" + yOff dt mod 10)
     else Ok buffer) in
  let* t := tok2 buffer i (chr "A") (chr "P") in
  if t then
    (if isPM then put2 buffer i (chr "P") (chr "M")
     else put2 buffer i (chr "A") (chr "M"))
  else
    let* t := tok2 buffer i (chr "a") (chr "p") in
    if t then
      (if isPM then put2 buffer i (chr "p") (chr "m")
       else put2 buffer i (chr "a") (chr "m"))
    else Ok buffer.

(** [for (size_t i = 0; i < strlen(buffer) - 1; i++)]: the bound is
    taken again at every iteration, in [size_t] arithmetic. *)
Fixpoint toString_loop (fuel : nat) (dt : DateTime) (hourReformatted : Z)
    (isPM : bool) (i : Z) (buffer : list Z) : result (list Z) :=
  match fuel with
  | O => Fault OutOfFuel
  | S fuel' =>
      let* n := strlen_checked buffer in
      if i <? u32 (n - 1) then
        let* buffer := toString_step dt hourReformatted isPM i buffer in
        toString_loop fuel' dt hourReformatted isPM (u32 (i + 1)) buffer
      else Ok buffer
  end.

(** [char *DateTime::toString(char *buffer)].  Every iteration reads
    [buffer[i]] first, so the loop cannot run more than
    [length buffer + 1] times without a fault. *)
Definition toString (dt : DateTime) (buffer : list Z) : result (list Z) :=
  let apTag := strstr buffer (chars "ap") || strstr buffer (chars "AP") in
  let hourReformatted := hh dt in
  let isPM := false in
  let '(hourReformatted, isPM) :=
    if apTag then
      if hh dt =? 0 then (12, isPM)
      else if hh dt =? 12 then (hourReformatted, true)
      else if 12 <? hh dt then (u8 (hourReformatted - 12), true)
      else (hourReformatted, isPM)
    else (hourReformatted, isPM) in
  toString_loop (S (length buffer)) dt hourReformatted isPM 0 buffer.

End ToString.

(** ** Binary-coded decimal *)

(** [static uint8_t bcd2bin(uint8_t val) { return val - 6 * (val >> 4); }] *)
Definition bcd2bin (val : Z) : Z := u8 (val - 6 * Z.shiftr val 4).

(** [static uint8_t bin2bcd(uint8_t val) { return val + 6 * (val / 10); }] *)
Definition bin2bcd (val : Z) : Z := u8 (val + 6 * (val / 10)).

(** ** The two-wire bus *)

(** Modelled from the spec: the transport is an external collaborator,
    "begin-transaction(address), write(byte), end-transaction()->status,
    request-read(address, length), read()->byte".  These are the five
    calls the driver makes on a [TwoWire] object, over the state [B]
    of that object; [endTransmission] returns the status (0 is an
    acknowledged transfer) and [read] an [int]. *)
Class TwoWire (B : Type) : Type := {
  beginTransmission : Z -> B -> B;
  write : Z -> B -> B;
  endTransmission : B -> Z * B;
  requestFrom : Z -> Z -> B -> B;
  read : B -> Z * B
}.

(** *** A bus that records its calls and answers from its history *)

Inductive event : Type :=
  | EvBegin (address : Z)
  | EvWrite (byte : Z)
  | EvEnd
  | EvRequest (address len : Z)
  | EvRead.

Section TraceBus.

(** The status [endTransmission] returns and the value [read] returns,
    each as a function of all the calls made so far. *)
Variable ack : list event -> Z.
Variable rx : list event -> Z.

Definition trace_bus : TwoWire (list event) := {|
  beginTransmission := fun a log => log ++ [EvBegin a];
  write := fun v log => log ++ [EvWrite (u8 v)];
  endTransmission := fun log => (ack (log ++ [EvEnd]), log ++ [EvEnd]);
  requestFrom := fun a n log => log ++ [EvRequest a n];
  read := fun log => (rx (log ++ [EvRead]), log ++ [EvRead])
|}.

End TraceBus.

(** *** A bus with one register-backed chip *)

(** Modelled from the spec: the "simulated register-backed bus".  One
    chip answers at [chip_addr]; it has a register array and a register
    pointer.  An acknowledged write transfer sets the pointer
    from its first byte and stores the following bytes at consecutive
    registers; a read transfer returns consecutive registers from the
    pointer on. *)
Record regbus : Type := mkRegbus {
  chip_addr : Z;
  regs : Z -> Z;
  ptr : Z;
  tx_addr : Z;
  tx_buf : list Z;
  rx_buf : list Z
}.

Definition reg_set (regs : Z -> Z) (k v : Z) : Z -> Z :=
  fun j => if j =? k then v else regs j.

Fixpoint store_bytes (regs : Z -> Z) (ptr : Z) (data : list Z) : (Z -> Z) * Z :=
  match data with
  | [] => (regs, ptr)
  | v :: data' => store_bytes (reg_set regs ptr v) (u8 (ptr + 1)) data'
  end.

Fixpoint load_bytes (regs : Z -> Z) (ptr : Z) (n : nat) : list Z * Z :=
  match n with
  | O => ([], ptr)
  | S n' =>
      let (rest, ptr') := load_bytes regs (u8 (ptr + 1)) n' in
      (regs ptr :: rest, ptr')
  end.

Definition reg_bus : TwoWire regbus := {|
  beginTransmission := fun a b =>
    mkRegbus (chip_addr b) (regs b) (ptr b) a [] (rx_buf b);
  write := fun v b =>
    mkRegbus (chip_addr b) (regs b) (ptr b) (tx_addr b) (tx_buf b ++ [u8 v])
             (rx_buf b);
  endTransmission := fun b =>
    if tx_addr b =? chip_addr b then
      match tx_buf b with
      | [] => (0, b)
      | r :: data =>
          let (regs', ptr') := store_bytes (regs b) r data in
          (0, mkRegbus (chip_addr b) regs' ptr' (tx_addr b) [] (rx_buf b))
      end
    else (2, mkRegbus (chip_addr b) (regs b) (ptr b) (tx_addr b) [] (rx_buf b));
  requestFrom := fun a n b =>
    if a =? chip_addr b then
      let (bytes, ptr') := load_bytes (regs b) (ptr b) (Z.to_nat n) in
      mkRegbus (chip_addr b) (regs b) ptr' (tx_addr b) (tx_buf b) bytes
    else mkRegbus (chip_addr b) (regs b) (ptr b) (tx_addr b) (tx_buf b) [];
  read := fun b =>
    match rx_buf b with
    | [] => (-1, b)
    | v :: rest =>
        (v, mkRegbus (chip_addr b) (regs b) (ptr b) (tx_addr b) (tx_buf b) rest)
    end
|}.

(** ** The RTC driver *)

(** [enum RTCmodel] of [RTC.h]. *)
Inductive RTCmodel : Type := unknown | PCF8523 | M41T81.

Definition RTCmodel_eqb (a b : RTCmodel) : bool :=
  match a, b with
  | unknown, unknown | PCF8523, PCF8523 | M41T81, M41T81 => true
  | _, _ => false
  end.

(** The members of [class RTC]: the bus the driver points to, the
    detected model and the address in use. *)
Record RTC (B : Type) : Type := mkRTC {
  RTCWireBus : B;
  _model : RTCmodel;
  _RTCaddr : Z
}.
Arguments mkRTC {B} _ _ _.
Arguments RTCWireBus {B} _.
Arguments _model {B} _.
Arguments _RTCaddr {B} _.

Section Driver.

Context {B : Type} {wire : TwoWire B}.

(** The bus addresses and the register number that [RTC.h] defines;
    the header is not part of the sources, so the three constants are
    parameters of the driver. *)
Variable M41T81_ADDR : Z.
Variable PCF8523_ADDR : Z.
Variable PCF8523_CONTROL_3 : Z.

(** A call on the bus object that returns nothing, and one that
    returns a value. *)
Definition call (f : B -> B) : State (RTC B) unit :=
  fun r => (tt, mkRTC (f (RTCWireBus r)) (_model r) (_RTCaddr r)).

Definition call_get (f : B -> Z * B) : State (RTC B) Z :=
  fun r =>
    let (v, b) := f (RTCWireBus r) in (v, mkRTC b (_model r) (_RTCaddr r)).

Definition get_model : State (RTC B) RTCmodel := fun r => (_model r, r).
Definition get_RTCaddr : State (RTC B) Z := fun r => (_RTCaddr r, r).
Definition set_model (v : RTCmodel) : State (RTC B) unit :=
  fun r => (tt, mkRTC (RTCWireBus r) v (_RTCaddr r)).
Definition set_RTCaddr (v : Z) : State (RTC B) unit :=
  fun r => (tt, mkRTC (RTCWireBus r) (_model r) v).
Definition set_RTCWireBus (v : B) : State (RTC B) unit :=
  fun r => (tt, mkRTC v (_model r) (_RTCaddr r)).

(** [void RTC::readBytes(uint8_t memoryAddress, uint8_t len)].  The
    source also calls it with one argument; the default of [len] is
    declared in [RTC.h] and taken to be 1, one status byte being read
    after each such call. *)
Definition readBytes (memoryAddress len : Z) : State (RTC B) unit :=
  a <- get_RTCaddr ;;
  call (beginTransmission a) ;;
  call (write memoryAddress) ;;
  call_get endTransmission ;;
  call (requestFrom a len).

(** [boolean RTC::begin(TwoWire *wireInstance)] *)
Definition begin (wireInstance : B) : State (RTC B) bool :=
  set_RTCWireBus wireInstance ;;
  call (beginTransmission M41T81_ADDR) ;;
  st <- call_get endTransmission ;;
  if st =? 0 then
    set_model M41T81 ;;
    set_RTCaddr M41T81_ADDR ;;
    ret true
  else
    call (beginTransmission PCF8523_ADDR) ;;
    st <- call_get endTransmission ;;
    if st =? 0 then
      set_RTCaddr PCF8523_ADDR ;;
      a <- get_RTCaddr ;;
      call (beginTransmission a) ;;
      call (write 0x10) ;;
      call (write 0xff) ;;
      call_get endTransmission ;;
      readBytes 0x10 1 ;;
      v <- call_get read ;;
      let byte10 := u8 v in
      (if byte10 =? 0x07 then set_model PCF8523 else set_model M41T81) ;;
      ret true
    else
      set_model unknown ;;
      ret false.

(** [boolean RTC::isRunning()] *)
Definition isRunning : State (RTC B) bool :=
  mdl <- get_model ;;
  if RTCmodel_eqb mdl unknown then ret false
  else if RTCmodel_eqb mdl PCF8523 then
    readBytes PCF8523_CONTROL_3 1 ;;
    v <- call_get read ;;
    let ss := u8 v in
    ret (negb (Z.land ss 0xE0 =? 0xE0))
  else if RTCmodel_eqb mdl M41T81 then
    readBytes 0x01 1 ;;
    v <- call_get read ;;
    ret (Z.shiftr (Z.land v 0x80) 7 =? 0)
  else ret false.

(** [boolean RTC::lostPower(void)] *)
Definition lostPower : State (RTC B) bool :=
  mdl <- get_model ;;
  if RTCmodel_eqb mdl unknown then ret false
  else if RTCmodel_eqb mdl PCF8523 then
    readBytes PCF8523_CONTROL_3 1 ;;
    v <- call_get read ;;
    ret (negb (Z.shiftr (Z.land v 0x08) 3 =? 0))
  else if RTCmodel_eqb mdl M41T81 then
    readBytes 12 1 ;;
    v <- call_get read ;;
    ret (negb (Z.shiftr (Z.land v 0x40) 6 =? 0))
  else ret false.

(** [void RTC::resetLostPower()] *)
Definition resetLostPower : State (RTC B) unit :=
  a <- get_RTCaddr ;;
  call (beginTransmission a) ;;
  mdl <- get_model ;;
  (if RTCmodel_eqb mdl PCF8523 then call (write PCF8523_CONTROL_3)
   else if RTCmodel_eqb mdl M41T81 then call (write 0x0C)
   else ret tt) ;;
  call (write 0) ;;
  call_get endTransmission ;;
  ret tt.

(** [void RTC::adjust(const DateTime &dt)] *)
Definition adjust (dt : DateTime) : State (RTC B) unit :=
  mdl <- get_model ;;
  if RTCmodel_eqb mdl unknown then ret tt
  else
    a <- get_RTCaddr ;;
    call (beginTransmission a) ;;
    (if RTCmodel_eqb mdl PCF8523 then
       call (write PCF8523_CONTROL_3) ;;
       call (write 0x00) ;;
       call (write (bin2bcd (second dt))) ;;
       call (write (bin2bcd (minute dt))) ;;
       call (write (bin2bcd (hour dt))) ;;
       call (write (bin2bcd (day dt))) ;;
       call (write (bin2bcd 0)) ;;
       call (write (bin2bcd (month dt))) ;;
       call (write (bin2bcd (u8 (u32 (year dt - 2000)))))
     else if RTCmodel_eqb mdl M41T81 then
       call (write 0x01) ;;
       call (write (bin2bcd (second dt))) ;;
       call (write (bin2bcd (minute dt))) ;;
       call (write (bin2bcd (hour dt))) ;;
       call (write 0x00) ;;
       call (write (bin2bcd (day dt))) ;;
       call (write (bin2bcd (month dt))) ;;
       call (write (bin2bcd (u8 (u32 (year dt - 2000))))) ;;
       call (write 0x80) ;;
       call (write 0x80) ;;
       call (write 0x00) ;;
       call (write 0x00) ;;
       call (write 0x00) ;;
       call (write 0x00) ;;
       call (write 0x00) ;;
       call (write 0x00)
     else ret tt) ;;
    call_get endTransmission ;;
    ret tt.

(** [bcd2bin(RTCWireBus->read() & mask)], the decoding [now] applies to
    a time register. *)
Definition read_field (mask : Z) : State (RTC B) Z :=
  v <- call_get read ;;
  ret (bcd2bin (u8 (Z.land v mask))).

(** [DateTime RTC::now()] *)
Definition now : State (RTC B) DateTime :=
  mdl <- get_model ;;
  if RTCmodel_eqb mdl PCF8523 then
    readBytes 0x03 7 ;;
    ss <- read_field 0x7F ;;
    mm <- read_field 0x7F ;;
    hh <- read_field 0x3F ;;
    d <- read_field 0x3F ;;
    call_get read ;;
    m <- read_field 0x1F ;;
    v <- call_get read ;;
    let y := u16 (bcd2bin (u8 v) + 2000) in
    ret (DateTime_of_fields y m d hh mm ss)
  else if RTCmodel_eqb mdl M41T81 then
    readBytes 0x01 7 ;;
    ss <- read_field 0x7F ;;
    mm <- read_field 0x7F ;;
    hh <- read_field 0x3F ;;
    call_get read ;;
    d <- read_field 0x3F ;;
    m <- read_field 0x1F ;;
    v <- call_get read ;;
    let y := u16 (bcd2bin (u8 v) + 2000) in
    ret (DateTime_of_fields y m d hh mm ss)
  else ret (DateTime_of_fields 0 1 1 0 0 0).

(** [boolean RTC::lowBattery()] *)
Definition lowBattery : State (RTC B) bool :=
  mdl <- get_model ;;
  if RTCmodel_eqb mdl PCF8523 then
    readBytes PCF8523_CONTROL_3 1 ;;
    v <- call_get read ;;
    ret (negb (Z.shiftr (Z.land v 0x04) 2 =? 0))
  else if RTCmodel_eqb mdl M41T81 then
    readBytes 0x0f 1 ;;
    v <- call_get read ;;
    ret (negb (Z.shiftr (Z.land v 0x01) 4 =? 0))
  else ret false.

(** [void RTC::stop()] *)
Definition stop : State (RTC B) unit :=
  a <- get_RTCaddr ;;
  call (beginTransmission a) ;;
  mdl <- get_model ;;
  (if RTCmodel_eqb mdl PCF8523 then
     call (write PCF8523_CONTROL_3) ;;
     call (write 0xE0)
   else if RTCmodel_eqb mdl M41T81 then
     call (write 0x01) ;;
     call (write 0x80)
   else ret tt) ;;
  call_get endTransmission ;;
  ret tt.

End Driver.

(** ** Comparison and arithmetic of DateTime *)

(** A 32-bit signed integer: the value of an [int32_t] after a
    conversion from a wider or an unsigned type. *)
Definition s32 (x : Z) : Z := (x + 2147483648) mod 4294967296 - 2147483648.

(** [class TimeSpan]: the seconds of the span, an [int32_t]. *)
Record TimeSpan : Type := mkTimeSpan { _seconds : Z }.

(** Modelled from the spec: [totalseconds()] is defined in the header
    [RTC.h], which is not part of the sources; a TimeSpan is "stored as
    total seconds (32-bit signed)", which the accessor returns. *)
Definition totalseconds (span : TimeSpan) : Z := _seconds span.

(** [TimeSpan::TimeSpan(int32_t seconds)] *)
Definition TimeSpan_of_seconds (seconds : Z) : TimeSpan :=
  mkTimeSpan (s32 seconds).

(** [TimeSpan::TimeSpan(int16_t days, int8_t hours, int8_t minutes,
    int8_t seconds)].  A signed overflow of the sum is undefined in C;
    the embedding wraps, and the properties are stated where the sum
    fits. *)
Definition TimeSpan_of_dhms (days hours minutes seconds : Z) : TimeSpan :=
  mkTimeSpan (s32 (days * 86400 + hours * 3600 + minutes * 60 + seconds)).

(** [TimeSpan TimeSpan::operator+(const TimeSpan &right)] and
    [operator-], with the same reading of an overflow. *)
Definition TimeSpan_add (left right : TimeSpan) : TimeSpan :=
  TimeSpan_of_seconds (_seconds left + _seconds right).

Definition TimeSpan_sub (left right : TimeSpan) : TimeSpan :=
  TimeSpan_of_seconds (_seconds left - _seconds right).

(** [uint8_t DateTime::twelveHour() const] *)
Definition twelveHour (dt : DateTime) : Z :=
  if (hh dt =? 0) || (hh dt =? 12) then 12
  else if 12 <? hh dt then u8 (hh dt - 12)
  else hh dt.

(** [bool DateTime::operator<(const DateTime &right) const] *)
Definition DateTime_lt (left right : DateTime) : bool :=
  (u32 (yOff left + 2000) <? year right) ||
  ((u32 (yOff left + 2000) =? year right) &&
   ((m left <? month right) ||
    ((m left =? month right) &&
     ((d left <? day right) ||
      ((d left =? day right) &&
       ((hh left <? hour right) ||
        ((hh left =? hour right) &&
         ((mm left <? minute right) ||
          ((mm left =? minute right) && (ss left <? second right)))))))))).

(** [bool DateTime::operator==(const DateTime &right) const] *)
Definition DateTime_equal (left right : DateTime) : bool :=
  (year right =? u32 (yOff left + 2000)) && (month right =? m left) &&
  (day right =? d left) && (hour right =? hh left) &&
  (minute right =? mm left) && (second right =? ss left).

Section Arithmetic.

Variable stray : table -> Z -> Z.

(** [DateTime DateTime::operator+(const TimeSpan &span)]: the sum of
    a [uint32_t] and an [int32_t] is taken in [uint32_t]. *)
Definition DateTime_add (dt : DateTime) (span : TimeSpan) : DateTime :=
  DateTime_of_uint32 stray (u32 (unixtime stray dt + u32 (totalseconds span))).

(** [DateTime DateTime::operator-(const TimeSpan &span)] *)
Definition DateTime_sub (dt : DateTime) (span : TimeSpan) : DateTime :=
  DateTime_of_uint32 stray (u32 (unixtime stray dt - u32 (totalseconds span))).

(** [TimeSpan DateTime::operator-(const DateTime &right)] *)
Definition DateTime_diff (left right : DateTime) : TimeSpan :=
  TimeSpan_of_seconds (u32 (unixtime stray left - unixtime stray right)).

End Arithmetic.

(** ** The build-time constructor *)

(** [static uint8_t decodeMonth(const char *date)]; [date] is the array
    from the pointed byte on. *)
Definition decodeMonth (date : list Z) : Z :=
  let date0 := nth 0 date 0 in
  let date1 := nth 1 date 0 in
  let date2 := nth 2 date 0 in
  let m :=
    if date0 =? chr "J" then
      (if date1 =? chr "a" then 1 else if date2 =? chr "n" then 6 else 7)
    else if date0 =? chr "F" then 2
    else if date0 =? chr "A" then (if date2 =? chr "r" then 4 else 8)
    else if date0 =? chr "M" then (if date2 =? chr "r" then 3 else 5)
    else if date0 =? chr "S" then 9
    else if date0 =? chr "O" then 10
    else if date0 =? chr "N" then 11
    else if date0 =? chr "D" then 12
    else 0 in
  u8 m.

(** [DateTime::DateTime(const char *date, const char *time)], on a date
    of 11 characters and a time of 8 characters as [__DATE__] and
    [__TIME__] give them. *)
Definition DateTime_of_date_time (date time : list Z) : DateTime :=
  mkDateTime (conv2d (skipn 9 date)) (decodeMonth date) (conv2d (skipn 4 date))
             (conv2d time) (conv2d (skipn 3 time)) (conv2d (skipn 6 time)).

(** ** DateTime::timestamp *)

(** The digits [sprintf] prints for a [%u] or [%d] of a value that is
    not negative, most significant first; ten digits hold every 32-bit
    value. *)
Fixpoint decimal_digits (fuel : nat) (n : Z) (acc : list Z) : list Z :=
  match fuel with
  | O => acc
  | S fuel' =>
      let acc := (chr "0" + n mod 10) :: acc in
      if n <? 10 then acc else decimal_digits fuel' (n / 10) acc
  end.

Definition fmt_u (n : Z) : list Z := decimal_digits 10 n [].

(** [%02d] of a value that is not negative: at least two digits, filled
    with a zero on the left. *)
Definition fmt_02d (n : Z) : list Z :=
  if n <? 10 then chr "0" :: fmt_u n else fmt_u n.

(** [enum timestampOpt] of [RTC.h]. *)
Inductive timestampOpt : Type :=
  TIMESTAMP_FULL | TIMESTAMP_TIME | TIMESTAMP_DATE.

(** [String DateTime::timestamp(timestampOpt opt)]: the characters
    [sprintf] stores in [buffer], before the NUL it adds. *)
Definition timestamp (opt : timestampOpt) (dt : DateTime) : list Z :=
  match opt with
  | TIMESTAMP_TIME =>
      fmt_02d (hh dt) ++ chars ":" ++ fmt_02d (mm dt) ++ chars ":" ++
      fmt_02d (ss dt)
  | TIMESTAMP_DATE =>
      fmt_u (u32 (2000 + yOff dt)) ++ chars "-" ++ fmt_02d (m dt) ++
      chars "-" ++ fmt_02d (d dt)
  | TIMESTAMP_FULL =>
      fmt_u (u32 (2000 + yOff dt)) ++ chars "-" ++ fmt_02d (m dt) ++
      chars "-" ++ fmt_02d (d dt) ++ chars "T" ++ fmt_02d (hh dt) ++
      chars ":" ++ fmt_02d (mm dt) ++ chars ":" ++ fmt_02d (ss dt)
  end.

(** ** Model identification *)

(** [boolean RTC::isPCF8525()] and [boolean RTC::isM41T81()] *)
Definition isPCF8525 {B : Type} (r : RTC B) : bool :=
  RTCmodel_eqb (_model r) PCF8523.

Definition isM41T81 {B : Type} (r : RTC B) : bool :=
  RTCmodel_eqb (_model r) M41T81.

(** * Predicates and checks of the properties *)

(** ** The calendar *)

(** The length of a month as the code computes it: the table entry,
    one more for February of a leap year, 31 for December. *)
Definition month_length (leap : bool) (mo : Z) : Z :=
  if mo =? 2 then (if leap then 29 else 28)
  else if (mo =? 4) || (mo =? 6) || (mo =? 9) || (mo =? 11) then 30
  else 31.

Definition valid_month_day (leap : bool) (mo dd : Z) : bool :=
  (1 <=? mo) && (mo <=? 12) && (1 <=? dd) && (dd <=? month_length leap mo).

Definition leapz (y : Z) : Z := if y mod 4 =? 0 then 1 else 0.

(** One field of a DateTime incremented, the other five held fixed. *)
Inductive field_incremented : DateTime -> DateTime -> Prop :=
  | incr_second y mo dd h mi s :
      field_incremented (mkDateTime y mo dd h mi s)
                        (mkDateTime y mo dd h mi (s + 1))
  | incr_minute y mo dd h mi s :
      field_incremented (mkDateTime y mo dd h mi s)
                        (mkDateTime y mo dd h (mi + 1) s)
  | incr_hour y mo dd h mi s :
      field_incremented (mkDateTime y mo dd h mi s)
                        (mkDateTime y mo dd (h + 1) mi s)
  | incr_day y mo dd h mi s :
      field_incremented (mkDateTime y mo dd h mi s)
                        (mkDateTime y mo (dd + 1) h mi s)
  | incr_month y mo dd h mi s :
      field_incremented (mkDateTime y mo dd h mi s)
                        (mkDateTime y (mo + 1) dd h mi s)
  | incr_year y mo dd h mi s :
      field_incremented (mkDateTime y mo dd h mi s)
                        (mkDateTime (y + 1) mo dd h mi s).

Section Checks.

Variable stray : table -> Z -> Z.

(** The day of the year, counted from 1, that [date2days] adds to the
    days of the whole years. *)
Definition month_days (leap : bool) (mo dd : Z) : Z :=
  let days := add_months stray (Z.to_nat (mo - 1)) 1 dd in
  if (2 <? mo) && leap then u16 (days + 1) else days.

(** What evaluation settles for the 12 x 31 days of a leap and of a
    common year: the day of the year is in range, the month loop of
    the constructor inverts it, it grows with the day and with the
    month, and a leap year moves it by at most one day. *)
Definition month_day_ok (leap : bool) (mo dd : Z) : bool :=
  let lz := if leap then 1 else 0 in
  let days := month_days leap mo dd in
  if valid_month_day leap mo dd then
    (1 <=? days) && (days <=? 365 + lz) &&
    (let '(mo', r) := month_loop stray 11 1 lz (days - 1) in
     (mo' =? mo) && (r =? dd - 1)) &&
    (if valid_month_day leap mo (dd + 1)
     then days <? month_days leap mo (dd + 1) else true) &&
    (if valid_month_day leap (mo + 1) dd
     then days <? month_days leap (mo + 1) dd else true) &&
    (if valid_month_day (negb leap) mo dd
     then (days - 1 <=? month_days (negb leap) mo dd) &&
          (month_days (negb leap) mo dd <=? days + 1)
     else true)
  else true.

(** The month loop of the constructor, on every day of a leap and of a
    common year, ends on a month and a day that exist. *)
Definition month_loop_ok (lz r : Z) : bool :=
  if r <? 365 + lz then
    let '(mo, r') := month_loop stray 11 1 lz r in
    (0 <=? r') && (r' <? 255) && valid_month_day (negb (lz =? 0)) mo (r' + 1)
  else true.

(** The three bytes of entry [k] of a table of names are not NUL. *)
Definition name_bytes_ok (t : table) (k : Z) : bool :=
  negb (u8 (pgm_read_byte stray t (3 * k)) =? 0) &&
  negb (u8 (pgm_read_byte stray t (3 * k + 1)) =? 0) &&
  negb (u8 (pgm_read_byte stray t (3 * k + 2)) =? 0).

End Checks.

(** ** Character buffers *)

(** A character array of [n] bytes that are not NUL, then the
    terminator: the extent of a C string of length [n]. *)
Definition terminated (n : nat) (buffer : list Z) : Prop :=
  List.length buffer = S n /\ buffer !! n = Some 0 /\
  forall (k : nat) (c : Z), (k < n)%nat -> buffer !! k = Some c -> c <> 0.

(** The fields of a DateTime are bytes. *)
Definition uint8_fields (dt : DateTime) : Prop :=
  0 <= yOff dt <= 255 /\ 0 <= m dt <= 255 /\ 0 <= d dt <= 255 /\
  0 <= hh dt <= 255 /\ 0 <= mm dt <= 255 /\ 0 <= ss dt <= 255.

(** The outcome [r] of a step at index [i] on [buffer]: a fault is an
    access outside the array, and a returned array has the length [L]
    and, for [i] at least 1, the first byte of [buffer]. *)
Definition framed (L : nat) (i : Z) (buffer : list Z) (r : result (list Z))
    : Prop :=
  match r with
  | Ok b => List.length b = L /\ (1 <= i -> b !! 0%nat = buffer !! 0%nat)
  | Fault f => f = OutOfBounds
  end.

(** ** Buses and chips *)

(** A chip at address 0x68 whose register 0x0F holds 0x01. *)
Definition battery_flag_chip : regbus :=
  mkRegbus 0x68 (fun k => if k =? 0x0F then 0x01 else 0) 0 0 [] [].

(** Flash that holds zeros around the tables, for the evaluations. *)
Definition zero_flash : table -> Z -> Z := fun _ _ => 0.

(** The address of the last transfer begun in a history of calls. *)
Fixpoint last_begin (log : list event) : option Z :=
  match log with
  | [] => None
  | e :: log' =>
      match last_begin log' with
      | Some a => Some a
      | None => match e with EvBegin a => Some a | _ => None end
      end
  end.

(** A bus on which only the address [a] is acknowledged and every byte
    received is [v]. *)
Definition bus_answering (a v : Z) : TwoWire (list event) :=
  trace_bus (fun log => match last_begin log with
                        | Some a' => if a' =? a then 0 else 2
                        | None => 2
                        end)
            (fun _ => v).

(** A bus on which no address is acknowledged and nothing is received. *)
Definition silent_bus : TwoWire (list event) :=
  trace_bus (fun _ => 2) (fun _ => -1).

(** A time register written by [adjust] decodes, under the mask [now]
    applies to it, to the value that was encoded. *)
Definition field_ok (mask : Z) (v : Z) : bool :=
  bcd2bin (u8 (Z.land (u8 (bin2bcd v)) mask)) =? v.

(** ** Further checks of the calendar *)

Section MoreChecks.

Variable stray : table -> Z -> Z.

(** The month loop of the constructor ends on the month and day whose
    day of the year it was given. *)
Definition month_loop_inv_ok (lz r : Z) : bool :=
  if r <? 365 + lz then
    let '(mo, r') := month_loop stray 11 1 lz r in
    month_days stray (negb (lz =? 0)) mo (r' + 1) =? r + 1
  else true.

(** The day of the year counts on from the first of the month, and the
    first of a later month comes after the last day of an earlier one. *)
Definition month_first_ok (leap : bool) (mo dd : Z) : bool :=
  if valid_month_day leap mo dd then
    month_days stray leap mo dd =? month_days stray leap mo 1 + dd - 1
  else true.

Definition month_order_ok (leap : bool) (mo mo' : Z) : bool :=
  if mo <? mo' then
    month_days stray leap mo 1 + month_length leap mo
    <=? month_days stray leap mo' 1
  else true.

End MoreChecks.

(** The valid range of the seconds count: 2000-01-01T00:00:00 up to,
    and not including, 2100-01-01T00:00:00. *)
Definition unixtime_2100 : Z := 4102444800.

(** The lexicographic order of the six fields. *)
Definition fields_lt (a b : DateTime) : Prop :=
  yOff a < yOff b \/
  (yOff a = yOff b /\
   (m a < m b \/
    (m a = m b /\
     (d a < d b \/
      (d a = d b /\
       (hh a < hh b \/
        (hh a = hh b /\
         (mm a < mm b \/ (mm a = mm b /\ ss a < ss b))))))))).

(** ** Checks of the formatting *)

(** The two digits [%02d] prints for a value below 100, and the four
    digits [%u] prints for a year of 2000..2099. *)
Definition fmt_02d_ok (v : Z) : bool :=
  bool_decide (fmt_02d v = [chr "0" + v / 10; chr "0" + v mod 10]).

Definition fmt_year_ok (y : Z) : bool :=
  bool_decide (fmt_u (u32 (2000 + y))
               = [chr "2"; chr "0"; chr "0" + y / 10; chr "0" + y mod 10]).

(** The lengths of what [%02d] prints for a byte and of what [%u]
    prints for 2000 plus a byte. *)
Definition fmt_length_ok (v : Z) : bool :=
  (Z.of_nat (List.length (fmt_02d v)) <=? 3) &&
  (Z.of_nat (List.length (fmt_u (u32 (2000 + v)))) =? 4).

(** The three-letter name of month [k] in [month_names], as the bytes
    [toString] copies for the token MMM. *)
Definition month_name (stray : table -> Z -> Z) (k : Z) : list Z :=
  [pgm_read_byte stray MonthNamesTab (3 * (k - 1));
   pgm_read_byte stray MonthNamesTab (3 * (k - 1) + 1);
   pgm_read_byte stray MonthNamesTab (3 * (k - 1) + 2)].

(** A character that starts none of the tokens of [toString]. *)
Definition plain_char (c : Z) : bool :=
  negb ((c =? chr "h") || (c =? chr "m") || (c =? chr "s") || (c =? chr "D") ||
        (c =? chr "M") || (c =? chr "Y") || (c =? chr "A") || (c =? chr "a")).

(** ** Checks of the driver *)

(** The seconds register [adjust] writes has the stop bit clear. *)
Definition seconds_running_ok (v : Z) : bool :=
  Z.shiftr (Z.land (u8 (bin2bcd v)) 0x80) 7 =? 0.

(** A DateTime with the seconds set to zero. *)
Definition zero_seconds (dt : DateTime) : DateTime :=
  mkDateTime (yOff dt) (m dt) (d dt) (hh dt) (mm dt) 0.

(** ** Templates of [toString] *)

(** A template read as [toString] scans it: the tokens it replaces, and
    single characters. *)
Inductive item : Type :=
  | Lit (c : Z)
  | Thh | Tmm | Tss | TDD | TDDD | TMM | TMMM | TYY | TYYYY | TAP | Tap.

Definition render_item (t : item) : list Z :=
  match t with
  | Lit c => [c]
  | Thh => chars "hh"
  | Tmm => chars "mm"
  | Tss => chars "ss"
  | TDD => chars "DD"
  | TDDD => chars "DDD"
  | TMM => chars "MM"
  | TMMM => chars "MMM"
  | TYY => chars "YY"
  | TYYYY => chars "YYYY"
  | TAP => chars "AP"
  | Tap => chars "ap"
  end.

(** The characters of a template. *)
Definition render (ts : list item) : list Z := flat_map render_item ts.

Definition is_ampm (t : item) : bool :=
  match t with
  | TAP | Tap => true
  | _ => false
  end.

Definition two_digits (v : Z) : list Z :=
  [chr "0" + v / 10; chr "0" + v mod 10].

Definition year_digits (y : Z) : list Z :=
  [chr "0" + (y / 10) mod 10; chr "0" + y mod 10].

(** The hour of the 12-hour clock. *)
Definition hour12 (h : Z) : Z :=
  if h =? 0 then 12 else if 12 <? h then h - 12 else h.

Section Expansion.

Variable stray : table -> Z -> Z.

Definition name3 (t : table) (p : Z) : list Z :=
  [pgm_read_byte stray t p; pgm_read_byte stray t (p + 1);
   pgm_read_byte stray t (p + 2)].

(** What a token stands for; [ap] tells that the template asks for the
    12-hour clock. *)
Definition expand_item (dt : DateTime) (ap : bool) (t : item) : list Z :=
  match t with
  | Lit c => [c]
  | Thh => two_digits (if ap then hour12 (hh dt) else hh dt)
  | Tmm => two_digits (mm dt)
  | Tss => two_digits (ss dt)
  | TDD => two_digits (d dt)
  | TDDD => name3 DayNamesTab (3 * dayOfTheWeek stray dt)
  | TMM => two_digits (m dt)
  | TMMM => name3 MonthNamesTab (3 * (m dt - 1))
  | TYY => year_digits (yOff dt)
  | TYYYY => chars "20" ++ year_digits (yOff dt)
  | TAP => if 12 <=? hh dt then chars "PM" else chars "AM"
  | Tap => if 12 <=? hh dt then chars "pm" else chars "am"
  end.

Definition expand (dt : DateTime) (ts : list item) : list Z :=
  flat_map (expand_item dt (existsb is_ampm ts)) ts.

End Expansion.

(** The character that follows in the template, NUL at its end. *)
Definition next_char (ts : list item) : Z := hd 0 (render ts).

(** A template whose single characters start no token, and in which no
    token runs into the next one: DD and MM are not followed by the same
    letter (that would be DDD, MMM), YY is not followed by Y, and the M
    or m of a replaced AP or ap is not followed by the same letter. *)
Fixpoint well_separated (ts : list item) : bool :=
  match ts with
  | [] => true
  | t :: r =>
      match t with
      | Lit c => (1 <=? c) && (c <=? 255) && plain_char c
      | TDD => negb (next_char r =? chr "D")
      | TMM | TAP => negb (next_char r =? chr "M")
      | TYY => negb (next_char r =? chr "Y")
      | Tap => negb (next_char r =? chr "m")
      | _ => true
      end && well_separated r
  end.

(** The fields of a DateTime that print as two digits, the month naming
    an entry of [month_names]. *)
Definition two_digit_fields (dt : DateTime) : Prop :=
  0 <= yOff dt <= 255 /\ 1 <= m dt <= 12 /\ 0 <= d dt <= 99 /\
  0 <= hh dt <= 99 /\ 0 <= mm dt <= 99 /\ 0 <= ss dt <= 99.

(** Characters [c], [x] at [i], [i + 1] that no test of the scan loop
    takes for a token. *)
Definition inert (c x : Z) : bool :=
  negb (((c =? chr "h") && (x =? chr "h")) || ((c =? chr "m") && (x =? chr "m")) ||
        ((c =? chr "s") && (x =? chr "s")) || ((c =? chr "D") && (x =? chr "D")) ||
        ((c =? chr "M") && (x =? chr "M")) || ((c =? chr "Y") && (x =? chr "Y")) ||
        ((c =? chr "A") && (x =? chr "P")) || ((c =? chr "a") && (x =? chr "p"))).

(** A run of characters, followed by [x], in which each is inert before
    the next. *)
Fixpoint inert_run (ws : list Z) (x : Z) : bool :=
  match ws with
  | [] => true
  | c :: ws' => inert c (hd x ws') && inert_run ws' x
  end.

(** The name at entry [k] of a table of names: three characters, the
    second and the third left alone by the scan, whatever follows. *)
Definition name_inert_ok (stray : table -> Z -> Z) (t : table) (k : Z) : bool :=
  let n0 := pgm_read_byte stray t (3 * k) in
  let n1 := pgm_read_byte stray t (3 * k + 1) in
  let n2 := pgm_read_byte stray t (3 * k + 2) in
  (1 <=? n0) && (n0 <=? 255) && (1 <=? n1) && (n1 <=? 255) &&
  (1 <=? n2) && (n2 <=? 255) && inert n0 n1 && inert n1 n2 && plain_char n2.

(** A string of characters, none of them NUL. *)
Definition text (s : list Z) : Prop := Forall (fun c => 1 <= c <= 255) s.

(** * Properties *)

(** ** Evaluation over a range *)

Lemma zrange_In (n : nat) : forall lo x,
  lo <= x < lo + Z.of_nat n -> In x (zrange lo n).
Proof.
  induction n as [|n IH]; intros lo x Hx; simpl in *; [lia|].
  destruct (Z.eq_dec lo x) as [->|Hne]; [now left|].
  right. apply IH. lia.
Qed.

Lemma zall_spec (lo : Z) (n : nat) (p : Z -> bool) :
  zall lo n p = true ->
  forall x, lo <= x < lo + Z.of_nat n -> p x = true.
Proof.
  unfold zall. rewrite forallb_forall. intros H x Hx.
  apply H, zrange_In, Hx.
Qed.

(** Turns a boolean conjunction of comparisons into arithmetic facts. *)
Ltac bools :=
  repeat match goal with
  | H : _ && _ = true |- _ => apply andb_true_iff in H; destruct H
  | H : (_ <=? _) = true |- _ => apply Z.leb_le in H
  | H : (_ <? _) = true |- _ => apply Z.ltb_lt in H
  | H : (_ =? _) = true |- _ => apply Z.eqb_eq in H
  | H : (_ <=? _) = false |- _ => apply Z.leb_gt in H
  | H : (_ <? _) = false |- _ => apply Z.ltb_ge in H
  | H : (_ =? _) = false |- _ => apply Z.eqb_neq in H
  end.

(** ** The worked examples of the specification *)

Example unixtime_2000 :
  unixtime zero_flash (DateTime_of_fields 2000 1 1 0 0 0) = 946684800.
Proof. reflexivity. Qed.

Example DateTime_of_uint32_2020 :
  DateTime_of_uint32 zero_flash 1587062096 = mkDateTime 20 4 16 18 34 56.
Proof. reflexivity. Qed.

Example leap_day_2000 :
  isValid zero_flash (DateTime_of_fields 2000 2 29 0 0 0) = true /\
  isValid zero_flash (DateTime_of_fields 2001 2 29 0 0 0) = false.
Proof. split; reflexivity. Qed.

Example saturday_2000 :
  dayOfTheWeek zero_flash (DateTime_of_fields 2000 1 1 0 0 0) = 6.
Proof. reflexivity. Qed.

Example toString_24h :
  toString zero_flash (DateTime_of_fields 2020 4 16 18 34 56)
           (cstr "YYYY-MM-DD hh:mm:ss")
  = Ok (cstr "2020-04-16 18:34:56").
Proof. reflexivity. Qed.

Example toString_12h :
  toString zero_flash (DateTime_of_fields 2020 4 16 18 34 56)
           (cstr "DDD, DD MMM YYYY hh:mm:ss AP")
  = Ok (cstr "Thu, 16 Apr 2020 06:34:56 PM").
Proof. reflexivity. Qed.

Example iso8601_full :
  DateTime_of_iso8601 (chars "2020-06-25T15:29:37")
  = mkDateTime 20 6 25 15 29 37.
Proof. reflexivity. Qed.

Example begin_PCF8523 :
  let '(found, r) :=
    begin (wire := bus_answering 0x68 0x07) 0xD0 0x68 [] (mkRTC [] unknown 0) in
  found = true /\ _model r = PCF8523 /\ _RTCaddr r = 0x68.
Proof. vm_compute. repeat split; reflexivity. Qed.

Example begin_no_chip :
  let '(found, r) :=
    begin (wire := silent_bus) 0xD0 0x68 [] (mkRTC [] unknown 0) in
  found = false /\ _model r = unknown /\
  fst (now (wire := silent_bus) r) = mkDateTime 0 1 1 0 0 0.
Proof. vm_compute. repeat split; reflexivity. Qed.

(** ** Binary-coded decimal *)

Lemma bin2bcd_digits (v : Z) :
  0 <= v <= 99 -> bin2bcd v = 16 * (v / 10) + v mod 10.
Proof.
  intros Hv. unfold bin2bcd, u8.
  rewrite Z.mod_small; Z.div_mod_to_equations; lia.
Qed.

Lemma bcd2bin_digits (hi lo : Z) :
  0 <= hi <= 15 -> 0 <= lo <= 15 -> bcd2bin (16 * hi + lo) = 10 * hi + lo.
Proof.
  intros Hhi Hlo. unfold bcd2bin, u8.
  rewrite Z.shiftr_div_pow2 by lia. change (2 ^ 4) with 16.
  assert ((16 * hi + lo) / 16 = hi) as -> by (Z.div_mod_to_equations; lia).
  rewrite Z.mod_small; lia.
Qed.

(** C9: decoding the BCD encoding of a two-digit value gives the value
    back: [bcd2bin (bin2bcd v) = v] for every [v] from 0 to 99. *)
Theorem bcd2bin_bin2bcd (v : Z) : 0 <= v <= 99 -> bcd2bin (bin2bcd v) = v.
Proof.
  intros Hv. rewrite bin2bcd_digits by exact Hv.
  rewrite bcd2bin_digits; Z.div_mod_to_equations; lia.
Qed.

Lemma bcd2bin_bin2bcd_witness : 0 <= 59 <= 99 /\ bcd2bin (bin2bcd 59) = 59.
Proof. split; [lia | apply (bcd2bin_bin2bcd 59); lia]. Defined.

(** ** The calendar *)

Lemma gregorian_leap_2000s (y : Z) :
  0 <= y <= 99 -> gregorian_leap (2000 + y) = (y mod 4 =? 0).
Proof.
  intros Hy. unfold gregorian_leap.
  destruct (Z.eqb_spec ((2000 + y) mod 4) 0) as [H4|H4];
    destruct (Z.eqb_spec (y mod 4) 0) as [Hy4|Hy4];
    destruct (Z.eqb_spec ((2000 + y) mod 100) 0) as [H100|H100];
    destruct (Z.eqb_spec ((2000 + y) mod 400) 0) as [H400|H400];
    simpl; try reflexivity; exfalso; Z.div_mod_to_equations; lia.
Qed.

Lemma valid_tuple_inv (y mo dd h mi s : Z) :
  valid_tuple (2000 + y) mo dd h mi s = true ->
  0 <= y <= 99 /\ valid_month_day (y mod 4 =? 0) mo dd = true /\
  0 <= h <= 23 /\ 0 <= mi <= 59 /\ 0 <= s <= 59.
Proof.
  unfold valid_tuple, valid_month_day, gregorian_month_length, month_length.
  intros H. bools. assert (0 <= y <= 99) as Hy by lia.
  rewrite gregorian_leap_2000s in * by exact Hy.
  split; [lia|]. split; [|lia].
  repeat (apply andb_true_iff; split); apply Z.leb_le; lia.
Qed.

Lemma valid_tuple_intro (y mo dd h mi s : Z) :
  0 <= y <= 99 -> valid_month_day (y mod 4 =? 0) mo dd = true ->
  0 <= h <= 23 -> 0 <= mi <= 59 -> 0 <= s <= 59 ->
  valid_tuple (2000 + y) mo dd h mi s = true.
Proof.
  unfold valid_tuple, valid_month_day, gregorian_month_length, month_length.
  intros Hy H Hh Hmi Hs. bools.
  rewrite gregorian_leap_2000s by exact Hy.
  repeat (apply andb_true_iff; split); apply Z.leb_le; lia.
Qed.

Section CalendarFacts.

Variable stray : table -> Z -> Z.

(** *** The year loop of the constructor *)

(** With enough iterations allowed the loop leaves through its
    [break], at the year [y'] and the day [r] of that year that the
    day count designates. *)
Lemma year_loop_spec (fuel : nat) : forall y days,
  0 <= y -> y + Z.of_nat fuel <= 256 ->
  0 <= days < 365 * Z.of_nat fuel -> days < 65536 ->
  exists y' r,
    year_loop fuel y days = Some (y', leapz y', r) /\
    y <= y' < y + Z.of_nat fuel /\
    0 <= r < 365 + leapz y' /\
    days + 365 * y + (y + 3) / 4 = 365 * y' + (y' + 3) / 4 + r.
Proof.
  induction fuel as [|fuel IH]; intros y days Hy Hf Hd Hd16; [lia|].
  cbn [year_loop]. fold (leapz y).
  destruct (Z.ltb_spec days (365 + leapz y)) as [Hlt|Hge].
  - exists y, days. repeat split; try lia.
  - assert (0 <= leapz y <= 1) as Hl by (unfold leapz; destruct (_ =? _); lia).
    assert ((y + 4) / 4 - (y + 3) / 4 = leapz y) as Hq.
    { unfold leapz. destruct (Z.eqb_spec (y mod 4) 0);
        Z.div_mod_to_equations; lia. }
    assert (u8 (y + 1) = y + 1) as -> by (unfold u8; apply Z.mod_small; lia).
    assert (u16 (days - (365 + leapz y)) = days - (365 + leapz y)) as ->
      by (unfold u16; apply Z.mod_small; lia).
    destruct (IH (y + 1) (days - (365 + leapz y))) as (y' & r & E & Hy' & Hr & Hs);
      try lia.
    exists y', r. repeat split; try lia. exact E.
    replace (y + 1 + 3) with (y + 4) in Hs by lia. lia.
Qed.

(** The loop of the constructor always leaves through its [break]. *)
Lemma year_loop_breaks (days : Z) :
  0 <= days < 65536 ->
  exists y' r, year_loop 256 0 days = Some (y', leapz y', r) /\
    0 <= y' <= 255 /\ 0 <= r < 365 + leapz y' /\
    days = 365 * y' + (y' + 3) / 4 + r.
Proof.
  intros Hd.
  destruct (year_loop_spec 256 0 days) as (y' & r & E & Hy' & Hr & Hs); try lia.
  exists y', r. repeat split; try lia. exact E.
  change ((0 + 3) / 4) with 0 in Hs. lia.
Qed.

(** A day count determines its year and its day of the year. *)
Lemma year_day_unique (y y' r r' : Z) :
  0 <= y -> 0 <= y' ->
  0 <= r < 365 + leapz y -> 0 <= r' < 365 + leapz y' ->
  365 * y + (y + 3) / 4 + r = 365 * y' + (y' + 3) / 4 + r' ->
  y = y' /\ r = r'.
Proof.
  unfold leapz. intros Hy Hy' Hr Hr' E.
  destruct (Z.eqb_spec (y mod 4) 0); destruct (Z.eqb_spec (y' mod 4) 0);
    Z.div_mod_to_equations; lia.
Qed.

(** *** The months *)

Lemma date2days_split (y mo dd : Z) :
  y < 2000 ->
  date2days stray y mo dd =
  u16 (month_days stray (y mod 4 =? 0) mo dd + 365 * y + (y + 3) / 4 - 1).
Proof.
  intros Hy. unfold date2days, month_days.
  destruct (Z.leb_spec 2000 y); [lia|]. reflexivity.
Qed.

Lemma month_day_grid :
  forallb (fun leap =>
    zall 1 12 (fun mo => zall 1 31 (fun dd => month_day_ok stray leap mo dd)))
    [true; false] = true.
Proof. vm_compute. reflexivity. Qed.

Lemma month_length_le (leap : bool) (mo : Z) : month_length leap mo <= 31.
Proof.
  unfold month_length.
  repeat match goal with |- context [if ?c then _ else _] => destruct c end; lia.
Qed.

Lemma month_day_ok_valid (leap : bool) (mo dd : Z) :
  valid_month_day leap mo dd = true -> month_day_ok stray leap mo dd = true.
Proof.
  intros Hv. pose proof Hv as Hr. unfold valid_month_day in Hr. bools.
  pose proof (month_length_le leap mo).
  pose proof month_day_grid as G. rewrite forallb_forall in G.
  assert (In leap [true; false]) as Hin by (destruct leap; simpl; auto).
  apply G in Hin.
  apply zall_spec with (x := mo) in Hin; [|lia].
  apply zall_spec with (x := dd) in Hin; [|lia].
  exact Hin.
Qed.

Lemma month_loop_grid :
  zall 0 2 (fun lz => zall 0 366 (fun r => month_loop_ok stray lz r)) = true.
Proof. vm_compute. reflexivity. Qed.

Lemma month_loop_valid (y r : Z) :
  0 <= r < 365 + leapz y ->
  exists mo r', month_loop stray 11 1 (leapz y) r = (mo, r') /\
    0 <= r' < 255 /\ valid_month_day (y mod 4 =? 0) mo (r' + 1) = true.
Proof.
  intros Hr.
  assert (0 <= leapz y <= 1 /\ negb (leapz y =? 0) = (y mod 4 =? 0)) as [Hl El]
    by (unfold leapz; destruct (_ =? _); simpl; split; (lia || reflexivity)).
  pose proof month_loop_grid as G.
  apply zall_spec with (x := leapz y) in G; [|lia].
  apply zall_spec with (x := r) in G; [|lia].
  unfold month_loop_ok in G.
  destruct (Z.ltb_spec r (365 + leapz y)); [|lia].
  destruct (month_loop stray 11 1 (leapz y) r) as [mo r'].
  exists mo, r'. rewrite El in G. bools. repeat split; try lia.
  assumption.
Qed.

(** *** Days and seconds of a valid date *)

Lemma date2days_valid (y mo dd : Z) :
  0 <= y <= 99 -> valid_month_day (y mod 4 =? 0) mo dd = true ->
  date2days stray y mo dd =
    365 * y + (y + 3) / 4 + (month_days stray (y mod 4 =? 0) mo dd - 1) /\
  1 <= month_days stray (y mod 4 =? 0) mo dd <= 365 + leapz y.
Proof.
  intros Hy Hv. apply month_day_ok_valid in Hv as Hok.
  unfold month_day_ok in Hok. rewrite Hv in Hok. bools.
  assert ((if y mod 4 =? 0 then 1 else 0) = leapz y) as El by reflexivity.
  rewrite El in *.
  assert (0 <= leapz y <= 1) by (unfold leapz; destruct (_ =? _); lia).
  split; [|lia].
  rewrite date2days_split by lia. unfold u16.
  rewrite Z.mod_small; Z.div_mod_to_equations; lia.
Qed.

Lemma time2ulong_small (days h mi s : Z) :
  0 <= days <= 36525 -> 0 <= h <= 23 -> 0 <= mi <= 59 -> 0 <= s <= 59 ->
  time2ulong days h mi s = ((days * 24 + h) * 60 + mi) * 60 + s.
Proof.
  intros Hd Hh Hmi Hs. unfold time2ulong, u32.
  rewrite (Z.mod_small (days * 24)) by lia.
  rewrite (Z.mod_small (days * 24 + h)) by lia.
  rewrite (Z.mod_small ((days * 24 + h) * 60 + mi)) by lia.
  apply Z.mod_small. lia.
Qed.

Lemma days2date_date2days (y mo dd : Z) :
  0 <= y <= 99 -> valid_month_day (y mod 4 =? 0) mo dd = true ->
  days2date stray (date2days stray y mo dd) = (y, mo, dd).
Proof.
  intros Hy Hv. destruct (date2days_valid y mo dd Hy Hv) as [E Hmd].
  apply month_day_ok_valid in Hv as Hok.
  unfold month_day_ok in Hok. rewrite Hv in Hok. bools.
  assert ((if y mod 4 =? 0 then 1 else 0) = leapz y) as El by reflexivity.
  rewrite El in *.
  assert (0 <= leapz y <= 1) by (unfold leapz; destruct (_ =? _); lia).
  unfold days2date.
  destruct (year_loop_breaks (date2days stray y mo dd)) as (y' & r & Ey & Hy' & Hr & Hs).
  { rewrite E. Z.div_mod_to_equations; lia. }
  rewrite Ey. rewrite E in Hs.
  destruct (year_day_unique y y' (month_days stray (y mod 4 =? 0) mo dd - 1) r)
    as [<- <-]; try lia.
  destruct (month_loop stray 11 1 (leapz y) _) as [mo' r'].
  bools. subst mo' r'. unfold valid_month_day in Hv. bools.
  pose proof (month_length_le (y mod 4 =? 0) mo).
  f_equal. unfold u8. rewrite Z.mod_small; lia.
Qed.

Lemma unixtime_valid (dt : DateTime) :
  valid_DateTime dt = true ->
  0 <= date2days stray (yOff dt) (m dt) (d dt) <= 36525 /\
  unixtime stray dt =
    ((date2days stray (yOff dt) (m dt) (d dt) * 24 + hh dt) * 60 + mm dt) * 60
    + ss dt + SECONDS_FROM_1970_TO_2000.
Proof.
  unfold valid_DateTime, year, month, day, hour, minute, second.
  intros Hv. apply valid_tuple_inv in Hv as (Hy & Hmd & Hh & Hmi & Hs).
  destruct (date2days_valid _ _ _ Hy Hmd) as [E Hr].
  assert (0 <= leapz (yOff dt) <= 1) by (unfold leapz; destruct (_ =? _); lia).
  assert (0 <= date2days stray (yOff dt) (m dt) (d dt) <= 36525) as Hd
    by (rewrite E; Z.div_mod_to_equations; lia).
  split; [exact Hd|].
  unfold unixtime. rewrite time2ulong_small by assumption.
  unfold u32, SECONDS_FROM_1970_TO_2000. apply Z.mod_small. lia.
Qed.

(** The constructor takes the seconds of a day count and a time of day
    apart again. *)
Lemma DateTime_of_uint32_split (days h mi s : Z) :
  0 <= days <= 36525 -> 0 <= h <= 23 -> 0 <= mi <= 59 -> 0 <= s <= 59 ->
  DateTime_of_uint32 stray
    (((days * 24 + h) * 60 + mi) * 60 + s + SECONDS_FROM_1970_TO_2000) =
  let '(y, mo, dd) := days2date stray days in mkDateTime y mo dd h mi s.
Proof.
  intros Hd Hh Hmi Hs. unfold DateTime_of_uint32. cbv zeta.
  set (T := ((days * 24 + h) * 60 + mi) * 60 + s).
  assert (u32 (T + SECONDS_FROM_1970_TO_2000 - SECONDS_FROM_1970_TO_2000) = T)
    as -> by (unfold u32; rewrite Z.add_simpl_r; apply Z.mod_small; subst T; lia).
  assert (T mod 60 = s /\ T / 60 = (days * 24 + h) * 60 + mi) as [-> ->]
    by (subst T; Z.div_mod_to_equations; lia).
  assert (((days * 24 + h) * 60 + mi) mod 60 = mi /\
          ((days * 24 + h) * 60 + mi) / 60 = days * 24 + h) as [-> ->]
    by (Z.div_mod_to_equations; lia).
  assert ((days * 24 + h) mod 24 = h /\ (days * 24 + h) / 24 = days) as [-> ->]
    by (Z.div_mod_to_equations; lia).
  unfold u8, u16. rewrite !Z.mod_small by lia. reflexivity.
Qed.

Lemma DateTime_of_uint32_unixtime (dt : DateTime) :
  valid_DateTime dt = true -> DateTime_of_uint32 stray (unixtime stray dt) = dt.
Proof.
  intros Hv. destruct (unixtime_valid dt Hv) as [Hd ->].
  unfold valid_DateTime, year, month, day, hour, minute, second in Hv.
  apply valid_tuple_inv in Hv as (Hy & Hmd & Hh & Hmi & Hs).
  rewrite DateTime_of_uint32_split by assumption.
  rewrite days2date_date2days by assumption.
  destruct dt; reflexivity.
Qed.

Lemma DateTime_eqb_eq (a b : DateTime) : DateTime_eqb a b = true <-> a = b.
Proof.
  split.
  - unfold DateTime_eqb. intros H. bools. destruct a, b; simpl in *. congruence.
  - intros <-. unfold DateTime_eqb. rewrite !Z.eqb_refl. reflexivity.
Qed.

Lemma isValid_valid (dt : DateTime) :
  valid_DateTime dt = true -> isValid stray dt = true.
Proof.
  intros Hv. unfold isValid.
  rewrite DateTime_of_uint32_unixtime by exact Hv.
  unfold valid_DateTime, year in Hv. apply valid_tuple_inv in Hv as (Hy & _).
  destruct (Z.leb_spec 100 (yOff dt)); [lia|]. apply DateTime_eqb_eq. reflexivity.
Qed.

(** Whatever the seconds count, the constructor produces a month, a
    day and a time of day that exist; the year offset can exceed 99. *)
Lemma DateTime_of_uint32_fields (t : Z) :
  let dt := DateTime_of_uint32 stray t in
  0 <= yOff dt <= 255 /\
  valid_month_day (yOff dt mod 4 =? 0) (m dt) (d dt) = true /\
  0 <= hh dt <= 23 /\ 0 <= mm dt <= 59 /\ 0 <= ss dt <= 59.
Proof.
  unfold DateTime_of_uint32. cbv zeta.
  set (T := u32 (t - SECONDS_FROM_1970_TO_2000)).
  set (days := u16 (T / 60 / 60 / 24)).
  assert (0 <= days < 65536) as Hd by (apply Z.mod_pos_bound; lia).
  unfold days2date.
  destruct (year_loop_breaks days Hd) as (y & r & -> & Hy & Hr & _).
  destruct (month_loop_valid y r Hr) as (mo & r' & -> & Hr' & Hv).
  cbn [yOff m d hh mm ss].
  assert (u8 (r' + 1) = r' + 1) as -> by (unfold u8; apply Z.mod_small; lia).
  assert (0 <= T mod 60 < 60) by (apply Z.mod_pos_bound; lia).
  assert (0 <= (T / 60) mod 60 < 60) by (apply Z.mod_pos_bound; lia).
  assert (0 <= (T / 60 / 60) mod 24 < 24) by (apply Z.mod_pos_bound; lia).
  unfold u8.
  rewrite (Z.mod_small (T mod 60)), (Z.mod_small ((T / 60) mod 60)),
    (Z.mod_small ((T / 60 / 60) mod 24)) by lia.
  split; [lia|]. split; [exact Hv|]. lia.
Qed.

Lemma isValid_inv (dt : DateTime) :
  isValid stray dt = true -> yOff dt < 100 /\ valid_DateTime dt = true.
Proof.
  unfold isValid. destruct (Z.leb_spec 100 (yOff dt)) as [|Hy]; [discriminate|].
  intros E. apply DateTime_eqb_eq in E. split; [exact Hy|].
  pose proof (DateTime_of_uint32_fields (unixtime stray dt)) as F.
  cbv zeta in F. rewrite <- E in F. destruct F as (Hy0 & Hmd & Hh & Hmi & Hs).
  unfold valid_DateTime, year, month, day, hour, minute, second.
  apply valid_tuple_intro; (assumption || lia).
Qed.

(** *** The claims on the calendar *)

(** C3: for every valid field tuple (year 2000..2099, month 1..12, a
    day that exists in that month and year, hour 0..23, minute and
    second 0..59) the DateTime built from the fields holds them, the
    DateTime rebuilt from its [unixtime()] has the same fields, and
    [isValid()] is true. *)
Theorem DateTime_unixtime_roundtrip (y mo dd h mi s : Z) :
  valid_tuple y mo dd h mi s = true ->
  let dt := DateTime_of_fields y mo dd h mi s in
  (year dt = y /\ month dt = mo /\ day dt = dd /\
   hour dt = h /\ minute dt = mi /\ second dt = s) /\
  DateTime_of_uint32 stray (unixtime stray dt) = dt /\
  isValid stray dt = true.
Proof.
  intros Hv dt. pose proof Hv as Hr. unfold valid_tuple in Hr. bools.
  assert (dt = mkDateTime (y - 2000) mo dd h mi s) as Edt.
  { subst dt. unfold DateTime_of_fields.
    destruct (Z.leb_spec 2000 y); [|lia].
    unfold u8, u16. rewrite !Z.mod_small by (rewrite ?Z.mod_small; lia).
    reflexivity. }
  assert (valid_DateTime dt = true) as Hdt.
  { rewrite Edt. unfold valid_DateTime, year; cbn.
    replace (2000 + (y - 2000)) with y by lia. exact Hv. }
  split; [|split].
  - rewrite Edt. unfold year; cbn. repeat split; lia.
  - apply DateTime_of_uint32_unixtime, Hdt.
  - apply isValid_valid, Hdt.
Qed.

(** C4: [isValid()] is false for every DateTime whose year offset is
    below 100 and whose fields are not a valid tuple (a day the month
    does not have in that year, or a month, hour, minute or second out
    of range), and for every DateTime whose year offset is 100 or
    more. *)
Theorem isValid_rejects_invalid (dt : DateTime) :
  (yOff dt < 100 /\ valid_DateTime dt = false) \/ 100 <= yOff dt ->
  isValid stray dt = false.
Proof.
  intros H. destruct (isValid stray dt) eqn:E; [|reflexivity].
  apply isValid_inv in E as [Hy Hv].
  destruct H as [[_ Hn]|Hn]; [congruence|lia].
Qed.

Lemma leap_next_year (y : Z) :
  ((y + 1) mod 4 =? 0) = (y mod 4 =? 0) \/
  ((y + 1) mod 4 =? 0) = negb (y mod 4 =? 0).
Proof. destruct (y mod 4 =? 0), ((y + 1) mod 4 =? 0); simpl; auto. Qed.

(** C5: between two valid DateTimes that differ by one field, second,
    minute, hour, day, month or year, incremented by one, [unixtime()]
    strictly increases. *)
Theorem unixtime_strictly_increasing (dt dt' : DateTime) :
  valid_DateTime dt = true -> valid_DateTime dt' = true ->
  field_incremented dt dt' ->
  unixtime stray dt < unixtime stray dt'.
Proof.
  intros Hv Hv' Hinc.
  destruct (unixtime_valid dt Hv) as [Hd ->].
  destruct (unixtime_valid dt' Hv') as [Hd' ->].
  unfold valid_DateTime, year, month, day, hour, minute, second in Hv, Hv'.
  apply valid_tuple_inv in Hv as (Hy & Hmd & Hh & Hmi & Hs).
  apply valid_tuple_inv in Hv' as (Hy' & Hmd' & Hh' & Hmi' & Hs').
  destruct (date2days_valid _ _ _ Hy Hmd) as [E Hr].
  destruct (date2days_valid _ _ _ Hy' Hmd') as [E' Hr'].
  apply month_day_ok_valid in Hmd as Hok.
  unfold month_day_ok in Hok. rewrite Hmd in Hok.
  destruct Hinc; cbn [yOff m d hh mm ss] in *; try lia.
  - (* day *) rewrite Hmd' in Hok. bools. lia.
  - (* month *) rewrite Hmd' in Hok. bools. lia.
  - (* year *)
    assert ((y + 1 + 3) / 4 - (y + 3) / 4 = leapz y) as Hq.
    { unfold leapz. destruct (Z.eqb_spec (y mod 4) 0);
        Z.div_mod_to_equations; lia. }
    assert (0 <= leapz y <= 1) by (unfold leapz; destruct (_ =? _); lia).
    destruct (leap_next_year y) as [El|El]; rewrite El in *.
    + lia.
    + rewrite Hmd' in Hok. bools. lia.
Qed.

End CalendarFacts.

Lemma DateTime_unixtime_roundtrip_witness :
  valid_tuple 2020 4 16 18 34 56 = true /\
  isValid (fun _ _ => 0) (DateTime_of_fields 2020 4 16 18 34 56) = true.
Proof.
  split; [reflexivity|].
  apply (DateTime_unixtime_roundtrip (fun _ _ => 0) 2020 4 16 18 34 56).
  reflexivity.
Defined.

Lemma isValid_rejects_invalid_witness :
  isValid (fun _ _ => 0) (DateTime_of_fields 2021 2 30 0 0 0) = false.
Proof.
  apply (isValid_rejects_invalid (fun _ _ => 0)). left.
  split; [vm_compute; reflexivity | reflexivity].
Defined.

Lemma unixtime_strictly_increasing_witness :
  unixtime (fun _ _ => 0) (mkDateTime 20 2 28 23 59 59) <
  unixtime (fun _ _ => 0) (mkDateTime 20 2 29 23 59 59).
Proof.
  apply (unixtime_strictly_increasing (fun _ _ => 0)
           (mkDateTime 20 2 28 23 59 59) (mkDateTime 20 2 29 23 59 59)).
  - reflexivity.
  - reflexivity.
  - apply (incr_day 20 2 28 23 59 59).
Defined.

(** ** The ISO-8601 constructor *)

Lemma strlen_bounds (s : list Z) : 0 <= strlen s <= Z.of_nat (List.length s).
Proof.
  induction s as [|c s IH]; simpl List.length; cbn [strlen]; [lia|].
  destruct (c =? 0); lia.
Qed.

Lemma memcpy_take_drop (n : nat) : forall dst src : list Z,
  (n <= List.length dst)%nat -> (n <= List.length src)%nat ->
  memcpy dst src n = take n src ++ drop n dst.
Proof.
  induction n as [|n IH]; intros dst src Hd Hs; [destruct dst; reflexivity|].
  destruct dst as [|x dst]; [simpl in Hd; lia|].
  destruct src as [|c src]; [simpl in Hs; lia|].
  simpl in *. f_equal. apply IH; lia.
Qed.

Lemma iso8601_ref_overlay (iso : list Z) :
  let n := Z.to_nat (Z.min 19 (strlen iso)) in
  iso8601_ref iso = take n iso ++ drop n (cstr "2000-01-01T00:00:00").
Proof.
  intros n. unfold iso8601_ref.
  change (strlen (cstr "2000-01-01T00:00:00")) with 19. fold n.
  pose proof (strlen_bounds iso).
  apply memcpy_take_drop; [change (List.length (cstr _)) with 20%nat|]; lia.
Qed.

(** A field the input does not reach is parsed from the template. *)
Lemma iso8601_ref_uncovered (iso : list Z) (k : nat) :
  strlen iso <= Z.of_nat k -> (k <= 19)%nat ->
  drop k (iso8601_ref iso) = drop k (cstr "2000-01-01T00:00:00").
Proof.
  intros Hs Hk. rewrite iso8601_ref_overlay.
  pose proof (strlen_bounds iso).
  set (n := Z.to_nat (Z.min 19 (strlen iso))).
  assert (List.length (take n iso) = n) as Hn by (rewrite length_take; lia).
  rewrite drop_app_ge by lia. rewrite Hn, drop_drop. f_equal. lia.
Qed.

(** C8: the ISO-8601 constructor overlays exactly min(19, length of
    the input) leading characters of the input onto the template
    "2000-01-01T00:00:00" and parses the result at fixed offsets; it
    returns a DateTime for every input, and every field that a short
    input does not reach has the value the template gives it
    (year offset 0, month 1, day 1, hour, minute and second 0). *)
Theorem iso8601_short_input_templated (iso : list Z) :
  let n := Z.to_nat (Z.min 19 (strlen iso)) in
  let dt := DateTime_of_iso8601 iso in
  iso8601_ref iso = take n iso ++ drop n (cstr "2000-01-01T00:00:00") /\
  List.length (iso8601_ref iso) = 20%nat /\
  (strlen iso <= 17 -> ss dt = 0) /\
  (strlen iso <= 14 -> mm dt = 0) /\
  (strlen iso <= 11 -> hh dt = 0) /\
  (strlen iso <= 8 -> d dt = 1) /\
  (strlen iso <= 5 -> m dt = 1) /\
  (strlen iso <= 2 -> yOff dt = 0).
Proof.
  intros n dt. split; [apply iso8601_ref_overlay|]. split.
  { rewrite iso8601_ref_overlay. fold n. pose proof (strlen_bounds iso).
    rewrite length_app, length_take, length_drop.
    change (List.length (cstr _)) with 20%nat. lia. }
  subst dt. unfold DateTime_of_iso8601. cbn [yOff m d hh mm ss].
  repeat split; intros Hs.
  - rewrite (iso8601_ref_uncovered iso 17) by lia. reflexivity.
  - rewrite (iso8601_ref_uncovered iso 14) by lia. reflexivity.
  - rewrite (iso8601_ref_uncovered iso 11) by lia. reflexivity.
  - rewrite (iso8601_ref_uncovered iso 8) by lia. reflexivity.
  - rewrite (iso8601_ref_uncovered iso 5) by lia. reflexivity.
  - rewrite (iso8601_ref_uncovered iso 2) by lia. reflexivity.
Qed.

Lemma iso8601_short_input_templated_witness :
  DateTime_of_iso8601 (chars "2020-06-25T15:29") = mkDateTime 20 6 25 15 29 0 /\
  ss (DateTime_of_iso8601 (chars "2020-06-25T15:29")) = 0.
Proof.
  split; [reflexivity|].
  apply (iso8601_short_input_templated (chars "2020-06-25T15:29")).
  vm_compute. discriminate.
Defined.

(** ** toString *)

Lemma terminated_cstring (s : list Z) :
  Forall (fun c => 1 <= c <= 255) s -> terminated (List.length s) (s ++ [0]).
Proof.
  intros Hs. split; [rewrite length_app; simpl; lia|]. split.
  - rewrite lookup_app_r by lia. rewrite Nat.sub_diag. reflexivity.
  - intros k c Hk Hc. rewrite lookup_app_l in Hc by lia.
    rewrite Forall_forall in Hs. apply list_elem_of_lookup_2 in Hc.
    apply Hs in Hc. lia.
Qed.

Lemma terminated_strlen (buffer : list Z) : forall n,
  terminated n buffer -> strlen buffer = Z.of_nat n.
Proof.
  induction buffer as [|c buffer IH]; intros n (Hl & Hn & Hc); [discriminate|].
  cbn [strlen]. destruct n as [|n].
  - simpl in Hn. injection Hn as ->. reflexivity.
  - assert (c <> 0) as Hc0 by (apply (Hc 0%nat); [lia|reflexivity]).
    destruct (Z.eqb_spec c 0); [contradiction|].
    rewrite (IH n); [lia|]. split; [simpl in Hl; lia|]. split; [exact Hn|].
    intros k c' Hk Hk'. apply (Hc (S k)); [lia|exact Hk'].
Qed.

Lemma strlen_checked_terminated (n : nat) (buffer : list Z) :
  terminated n buffer -> strlen_checked buffer = Ok (Z.of_nat n).
Proof.
  intros H. unfold strlen_checked. rewrite (terminated_strlen _ _ H).
  destruct H as (Hl & _). rewrite Hl.
  destruct (Z.ltb_spec (Z.of_nat n) (Z.of_nat (S n))); [reflexivity|lia].
Qed.

(** A read at or below the terminator succeeds, and a byte that is not
    NUL lies below it. *)
Lemma rd_terminated (n : nat) (buffer : list Z) (k : Z) :
  terminated n buffer -> 0 <= k <= Z.of_nat n ->
  exists c, rd buffer k = Ok c /\ (c <> 0 -> k < Z.of_nat n).
Proof.
  intros (Hl & Hn & Hc) Hk. unfold rd.
  destruct (buffer !! Z.to_nat k) as [c|] eqn:E.
  - exists c. split; [reflexivity|]. intros Hc0.
    destruct (Z.eq_dec k (Z.of_nat n)) as [->|]; [|lia].
    rewrite Nat2Z.id in E. congruence.
  - apply lookup_ge_None in E. lia.
Qed.

(** A write of a byte that is not NUL below the terminator succeeds and
    keeps the extent of the string. *)
Lemma wr_terminated (n : nat) (buffer : list Z) (k v : Z) :
  terminated n buffer -> 0 <= k < Z.of_nat n -> u8 v <> 0 ->
  exists buffer', wr buffer k v = Ok buffer' /\ terminated n buffer'.
Proof.
  intros (Hl & Hn & Hc) Hk Hv. unfold wr. rewrite Hl.
  destruct (Z.ltb_spec k (Z.of_nat (S n))); [|lia].
  eexists. split; [reflexivity|]. split; [rewrite length_insert; exact Hl|]. split.
  - rewrite list_lookup_insert_ne by lia. exact Hn.
  - intros j c Hj E. destruct (Nat.eq_dec (Z.to_nat k) j) as [<-|Hne].
    + rewrite list_lookup_insert_eq in E by lia. congruence.
    + rewrite list_lookup_insert_ne in E by exact Hne. apply (Hc j c Hj E).
Qed.

Lemma tok2_terminated (n : nat) (buffer : list Z) (i c0 c1 : Z) :
  terminated n buffer -> 0 <= i <= Z.of_nat n -> c0 <> 0 ->
  exists t, tok2 buffer i c0 c1 = Ok t /\
    (t = true -> i < Z.of_nat n /\ (c1 <> 0 -> i + 1 < Z.of_nat n)).
Proof.
  intros Hb Hi Hc0. unfold tok2.
  destruct (rd_terminated n buffer i Hb Hi) as (b0 & -> & Hb0). cbn [result_bind].
  destruct (Z.eqb_spec b0 c0) as [->|]; [|exists false; split; [reflexivity|discriminate]].
  specialize (Hb0 Hc0).
  destruct (rd_terminated n buffer (i + 1) Hb) as (b1 & -> & Hb1); [lia|].
  cbn [result_bind]. exists (b1 =? c1). split; [reflexivity|].
  intros E. apply Z.eqb_eq in E. subst b1. split; [exact Hb0|exact Hb1].
Qed.

Lemma put2_terminated (n : nat) (buffer : list Z) (i v0 v1 : Z) :
  terminated n buffer -> 0 <= i -> i + 1 < Z.of_nat n ->
  u8 v0 <> 0 -> u8 v1 <> 0 ->
  exists buffer', put2 buffer i v0 v1 = Ok buffer' /\ terminated n buffer'.
Proof.
  intros Hb Hi Hn H0 H1. unfold put2.
  destruct (wr_terminated n buffer i v0 Hb) as (b1 & -> & Hb1); [lia|exact H0|].
  cbn [result_bind]. apply wr_terminated; [exact Hb1|lia|exact H1].
Qed.

Lemma put3_terminated (n : nat) (buffer : list Z) (i v0 v1 v2 : Z) :
  terminated n buffer -> 0 <= i -> i + 2 < Z.of_nat n ->
  u8 v0 <> 0 -> u8 v1 <> 0 -> u8 v2 <> 0 ->
  exists buffer', put3 buffer i v0 v1 v2 = Ok buffer' /\ terminated n buffer'.
Proof.
  intros Hb Hi Hn H0 H1 H2. unfold put3.
  destruct (wr_terminated n buffer i v0 Hb) as (b1 & -> & Hb1); [lia|exact H0|].
  cbn [result_bind].
  destruct (wr_terminated n b1 (i + 1) v1 Hb1) as (b2 & -> & Hb2); [lia|exact H1|].
  cbn [result_bind]. apply wr_terminated; [exact Hb2|lia|exact H2].
Qed.

Lemma digit_bytes (v : Z) :
  0 <= v <= 255 ->
  u8 (chr "0" + v / 10) <> 0 /\ u8 (chr "0" + v mod 10) <> 0 /\
  u8 (chr "0" + (v / 10) mod 10) <> 0.
Proof.
  intros Hv. change (chr "0") with 48. unfold u8.
  repeat split; rewrite Z.mod_small; Z.div_mod_to_equations; lia.
Qed.

Lemma digits2_terminated (n : nat) (buffer : list Z) (i v : Z) :
  terminated n buffer -> 0 <= i -> i + 1 < Z.of_nat n -> 0 <= v <= 255 ->
  exists buffer', digits2 buffer i v = Ok buffer' /\ terminated n buffer'.
Proof.
  intros Hb Hi Hn Hv. destruct (digit_bytes v Hv) as (H0 & H1 & _).
  apply put2_terminated; assumption.
Qed.

(** Sequencing of two steps that keep the extent of the string. *)
Lemma result_bind_terminated (n : nat) (c : result (list Z))
    (k : list Z -> result (list Z)) :
  (exists b, c = Ok b /\ terminated n b) ->
  (forall b, terminated n b -> exists b', k b = Ok b' /\ terminated n b') ->
  exists b', result_bind c k = Ok b' /\ terminated n b'.
Proof. intros (b & -> & Hb) Hk. cbn [result_bind]. apply Hk, Hb. Qed.

Section ToStringFacts.

Variable stray : table -> Z -> Z.

Lemma name_bytes_grid :
  zall 0 7 (name_bytes_ok stray DayNamesTab) &&
  zall 0 12 (name_bytes_ok stray MonthNamesTab)
  = true.
Proof. vm_compute. reflexivity. Qed.

Lemma name_bytes (t : table) (k : Z) :
  name_bytes_ok stray t k = true ->
  u8 (pgm_read_byte stray t (3 * k)) <> 0 /\
  u8 (pgm_read_byte stray t (3 * k + 1)) <> 0 /\
  u8 (pgm_read_byte stray t (3 * k + 2)) <> 0.
Proof.
  unfold name_bytes_ok. intros H. bools.
  repeat match goal with
         | H : negb _ = true |- _ => apply negb_true_iff, Z.eqb_neq in H
         end.
  auto.
Qed.

Lemma day_name_bytes (dt : DateTime) :
  let p := 3 * dayOfTheWeek stray dt in
  u8 (pgm_read_byte stray DayNamesTab p) <> 0 /\
  u8 (pgm_read_byte stray DayNamesTab (p + 1)) <> 0 /\
  u8 (pgm_read_byte stray DayNamesTab (p + 2)) <> 0.
Proof.
  apply name_bytes.
  pose proof name_bytes_grid as G. apply andb_true_iff in G as [G _].
  apply (zall_spec _ _ _ G). unfold dayOfTheWeek, u8.
  set (day := date2days _ _ _ _).
  assert (0 <= (day + 6) mod 7 < 7) by (apply Z.mod_pos_bound; lia).
  rewrite Z.mod_small; lia.
Qed.

Lemma month_name_bytes (dt : DateTime) :
  1 <= m dt <= 12 ->
  let p := 3 * (m dt - 1) in
  u8 (pgm_read_byte stray MonthNamesTab p) <> 0 /\
  u8 (pgm_read_byte stray MonthNamesTab (p + 1)) <> 0 /\
  u8 (pgm_read_byte stray MonthNamesTab (p + 2)) <> 0.
Proof.
  intros Hm. apply name_bytes.
  pose proof name_bytes_grid as G. apply andb_true_iff in G as [_ G].
  apply (zall_spec _ _ _ G). lia.
Qed.

(** Runs the test of one token of the scan: the goal that remains
    first is the replacement of a token that matched. *)
Ltac token Hb Hi :=
  match goal with
  | |- exists b', result_bind (tok2 ?buf ?i ?c0 ?c1) _ = Ok b' /\ _ =>
      let t := fresh "t" in
      let Ht := fresh "Ht" in
      destruct (tok2_terminated _ buf i c0 c1 Hb Hi) as (t & -> & Ht);
      [discriminate|]; cbn [result_bind]
  end.

Lemma toString_step_terminated (n : nat) (dt : DateTime) (hourReformatted : Z)
    (isPM : bool) (i : Z) (buffer : list Z) :
  terminated n buffer -> 0 <= i -> i + 1 < Z.of_nat n ->
  uint8_fields dt -> 1 <= m dt <= 12 -> 0 <= hourReformatted <= 255 ->
  exists buffer',
    toString_step stray dt hourReformatted isPM i buffer = Ok buffer' /\
    terminated n buffer'.
Proof.
  intros Hb Hi Hn (Hy & _ & Hd & Hh & Hmi & Hs) Hm Hhr.
  assert (0 <= i <= Z.of_nat n) as Hi0 by lia.
  assert (0 <= i + 2 <= Z.of_nat n) as Hi2 by lia.
  destruct (digit_bytes (yOff dt) Hy) as (_ & Hy1 & Hy10).
  unfold toString_step.
  (* hh *)
  token Hb Hi0. apply result_bind_terminated;
    [destruct t; [apply digits2_terminated; assumption|eauto]|].
  clear dependent buffer. clear Ht t. intros buffer Hb.
  (* mm *)
  token Hb Hi0. apply result_bind_terminated;
    [destruct t; [apply digits2_terminated; assumption|eauto]|].
  clear dependent buffer. clear Ht t. intros buffer Hb.
  (* ss *)
  token Hb Hi0. apply result_bind_terminated;
    [destruct t; [apply digits2_terminated; assumption|eauto]|].
  clear dependent buffer. clear Ht t. intros buffer Hb.
  (* DDD, DD *)
  token Hb Hi0. apply result_bind_terminated.
  { destruct t; [|eauto].
    destruct (rd_terminated n buffer (i + 2) Hb Hi2) as (b2 & -> & Hb2).
    cbn [result_bind]. destruct (Z.eqb_spec b2 (chr "D")) as [->|].
    - destruct (day_name_bytes dt) as (H0 & H1 & H2).
      apply put3_terminated; try assumption. apply Hb2. discriminate.
    - apply digits2_terminated; assumption. }
  clear dependent buffer. clear Ht t. intros buffer Hb.
  (* MMM, MM *)
  token Hb Hi0. apply result_bind_terminated.
  { destruct t; [|eauto].
    destruct (rd_terminated n buffer (i + 2) Hb Hi2) as (b2 & -> & Hb2).
    cbn [result_bind]. destruct (Z.eqb_spec b2 (chr "M")) as [->|].
    - destruct (month_name_bytes dt Hm) as (H0 & H1 & H2).
      apply put3_terminated; try assumption. apply Hb2. discriminate.
    - apply digits2_terminated; (assumption || lia). }
  clear dependent buffer. clear Ht t. intros buffer Hb.
  (* YYYY, YY *)
  token Hb Hi0. apply result_bind_terminated.
  { destruct t; [|eauto].
    destruct (tok2_terminated n buffer (i + 2) (chr "Y") (chr "Y") Hb Hi2)
      as (t4 & -> & Ht4); [discriminate|]. cbn [result_bind].
    destruct t4.
    - destruct Ht4 as [H2 H3]; [reflexivity|]. specialize (H3 ltac:(discriminate)).
      apply result_bind_terminated.
      + apply put2_terminated; try assumption; discriminate.
      + intros b Hb'. apply put2_terminated; try assumption; lia.
    - apply put2_terminated; assumption. }
  clear dependent buffer. clear Ht t. intros buffer Hb.
  (* AP, ap *)
  token Hb Hi0. destruct t.
  { destruct isPM; apply put2_terminated; try assumption; discriminate. }
  token Hb Hi0. destruct t; [|eauto].
  destruct isPM; apply put2_terminated; try assumption; discriminate.
Qed.

Lemma toString_loop_terminated (n : nat) (dt : DateTime) (hourReformatted : Z)
    (isPM : bool) :
  (1 <= n)%nat -> Z.of_nat n < 4294967296 ->
  uint8_fields dt -> 1 <= m dt <= 12 -> 0 <= hourReformatted <= 255 ->
  forall (fuel : nat) (i : Z) (buffer : list Z),
    terminated n buffer -> 0 <= i ->
    (1 <= fuel)%nat -> Z.of_nat n - i <= Z.of_nat fuel ->
    exists buffer',
      toString_loop stray fuel dt hourReformatted isPM i buffer = Ok buffer' /\
      terminated n buffer'.
Proof.
  intros Hn1 Hn32 Hdt Hm Hhr.
  induction fuel as [|fuel IH]; intros i buffer Hb Hi Hf1 Hf; [lia|].
  cbn [toString_loop]. rewrite (strlen_checked_terminated n buffer Hb).
  cbn [result_bind].
  assert (u32 (Z.of_nat n - 1) = Z.of_nat n - 1) as ->
    by (unfold u32; apply Z.mod_small; lia).
  destruct (Z.ltb_spec i (Z.of_nat n - 1)) as [Hlt|Hge]; [|eauto].
  destruct (toString_step_terminated n dt hourReformatted isPM i buffer)
    as (b & -> & Hb'); try assumption; try lia.
  cbn [result_bind].
  assert (u32 (i + 1) = i + 1) as -> by (unfold u32; apply Z.mod_small; lia).
  apply IH; try assumption; lia.
Qed.

(** The hour that [toString] prints is a byte. *)
Lemma toString_terminated (dt : DateTime) (s : list Z) :
  s <> [] -> Forall (fun c => 1 <= c <= 255) s ->
  Z.of_nat (List.length s) < 4294967296 ->
  uint8_fields dt -> 1 <= m dt <= 12 ->
  exists out, toString stray dt (s ++ [0]) = Ok out /\
              terminated (List.length s) out.
Proof.
  intros Hne Hs Hl Hdt Hm. unfold toString.
  pose proof (terminated_cstring s Hs) as Hb.
  assert (1 <= List.length s)%nat by (destruct s; [contradiction|simpl; lia]).
  assert (List.length (s ++ [0]) = S (List.length s)) as El by apply Hb.
  pose proof Hdt as (_ & _ & _ & Hh & _).
  assert (0 <= u8 (hh dt - 12) <= 255) as Hu by (unfold u8; Z.div_mod_to_equations; lia).
  destruct (strstr (s ++ [0]) (chars "ap") || strstr (s ++ [0]) (chars "AP"));
    [destruct (hh dt =? 0); [|destruct (hh dt =? 12); [|destruct (12 <? hh dt)]]|];
    apply toString_loop_terminated; try assumption; lia.
Qed.

(** On the empty template the first iteration finds no token and the
    second one reads the byte after the terminator. *)
Lemma toString_empty (dt : DateTime) :
  u32 (strlen (cstr "") - 1) = 4294967295 /\
  toString stray dt (cstr "") = Fault OutOfBounds.
Proof. split; reflexivity. Qed.

(** C10, for a DateTime whose month is in 1..12: on every non-empty
    template [toString] ends with every access to the buffer inside
    the string and its terminator, and returns a string of the same
    length; on the empty template the bound [strlen(buffer) - 1] wraps
    to the largest [size_t] and the scan reads past the terminator. *)
Theorem toString_bounds (dt : DateTime) :
  (forall s : list Z,
     s <> [] -> Forall (fun c => 1 <= c <= 255) s ->
     Z.of_nat (List.length s) < 4294967296 ->
     uint8_fields dt -> 1 <= m dt <= 12 ->
     exists out, toString stray dt (s ++ [0]) = Ok out /\
                 terminated (List.length s) out) /\
  u32 (strlen (cstr "") - 1) = 4294967295 /\
  toString stray dt (cstr "") = Fault OutOfBounds.
Proof.
  split; [intros s; apply toString_terminated|apply toString_empty].
Qed.

(** *** What every run of the scan keeps *)

Lemma framed_refl (L : nat) (i : Z) (buffer : list Z) :
  List.length buffer = L -> framed L i buffer (Ok buffer).
Proof. intros Hl. split; [exact Hl|reflexivity]. Qed.

Lemma framed_bind (L : nat) (i : Z) (buffer : list Z) (c : result (list Z))
    (k : list Z -> result (list Z)) :
  framed L i buffer c ->
  (forall b, List.length b = L -> framed L i b (k b)) ->
  framed L i buffer (result_bind c k).
Proof.
  destruct c as [b|f]; cbn [framed result_bind]; [|auto].
  intros [Hl H0] Hk. specialize (Hk b Hl).
  destruct (k b) as [b'|f']; cbn [framed] in *; [|exact Hk].
  destruct Hk as [Hl' H0']. split; [exact Hl'|].
  intros Hi. rewrite H0', H0 by exact Hi. reflexivity.
Qed.

Lemma rd_cases (buffer : list Z) (k : Z) :
  (exists c, rd buffer k = Ok c) \/ rd buffer k = Fault OutOfBounds.
Proof. unfold rd. destruct (buffer !! Z.to_nat k); eauto. Qed.

Lemma tok2_cases (buffer : list Z) (i c0 c1 : Z) :
  (exists t, tok2 buffer i c0 c1 = Ok t) \/
  tok2 buffer i c0 c1 = Fault OutOfBounds.
Proof.
  unfold tok2. destruct (rd_cases buffer i) as [[b0 ->]| ->]; [|auto].
  cbn [result_bind]. destruct (b0 =? c0); [|eauto].
  destruct (rd_cases buffer (i + 1)) as [[b1 ->]| ->]; cbn [result_bind]; eauto.
Qed.

Lemma wr_framed (L : nat) (i k v : Z) (buffer : list Z) :
  List.length buffer = L -> 0 <= i <= k -> framed L i buffer (wr buffer k v).
Proof.
  intros Hl Hk. unfold wr. destruct (k <? Z.of_nat (List.length buffer));
    [|reflexivity].
  split; [rewrite length_insert; exact Hl|].
  intros Hi. apply list_lookup_insert_ne. lia.
Qed.

Lemma put2_framed (L : nat) (i k v0 v1 : Z) (buffer : list Z) :
  List.length buffer = L -> 0 <= i <= k ->
  framed L i buffer (put2 buffer k v0 v1).
Proof.
  intros Hl Hk. unfold put2. apply framed_bind; [apply wr_framed; assumption|].
  intros b Hb. apply wr_framed; [exact Hb|lia].
Qed.

Lemma put3_framed (L : nat) (i v0 v1 v2 : Z) (buffer : list Z) :
  List.length buffer = L -> 0 <= i ->
  framed L i buffer (put3 buffer i v0 v1 v2).
Proof.
  intros Hl Hi. unfold put3. apply framed_bind; [apply wr_framed; [exact Hl|lia]|].
  intros b Hb. apply framed_bind; [apply wr_framed; [exact Hb|lia]|].
  intros b' Hb'. apply wr_framed; [exact Hb'|lia].
Qed.

Lemma digits2_framed (L : nat) (i v : Z) (buffer : list Z) :
  List.length buffer = L -> 0 <= i -> framed L i buffer (digits2 buffer i v).
Proof. intros Hl Hi. apply put2_framed; [exact Hl|lia]. Qed.

(** Runs the test of one token; the reads either fault or give [t]. *)
Ltac token_cases :=
  match goal with
  | |- framed _ _ _ (result_bind (tok2 ?buf ?i ?c0 ?c1) _) =>
      let t := fresh "t" in
      destruct (tok2_cases buf i c0 c1) as [[t ->]| ->];
      cbn [result_bind]; [|reflexivity]
  end.

Lemma toString_step_framed (L : nat) (dt : DateTime) (hourReformatted : Z)
    (isPM : bool) (i : Z) (buffer : list Z) :
  List.length buffer = L -> 0 <= i ->
  framed L i buffer (toString_step stray dt hourReformatted isPM i buffer).
Proof.
  intros Hl Hi. unfold toString_step.
  (* hh, mm, ss *)
  do 3 (token_cases; apply framed_bind;
        [destruct t; [apply digits2_framed|apply framed_refl]; assumption|];
        clear dependent buffer; clear t; intros buffer Hl).
  (* DDD, DD and MMM, MM *)
  do 2 (token_cases; apply framed_bind;
        [destruct t; [|apply framed_refl; assumption];
         destruct (rd_cases buffer (i + 2)) as [[b2 ->]| ->];
         cbn [result_bind]; [|reflexivity];
         match goal with |- context [if ?c then _ else _] => destruct c end;
         [apply put3_framed|apply digits2_framed]; assumption|];
        clear dependent buffer; clear t; intros buffer Hl).
  (* YYYY, YY *)
  token_cases. apply framed_bind.
  { destruct t; [|apply framed_refl; assumption].
    destruct (tok2_cases buffer (i + 2) (chr "Y") (chr "Y")) as [[t4 ->]| ->];
      cbn [result_bind]; [|reflexivity].
    destruct t4; [|apply put2_framed; [assumption|lia]].
    apply framed_bind; [apply put2_framed; [assumption|lia]|].
    intros b Hb. apply put2_framed; [assumption|lia]. }
  clear dependent buffer. clear t. intros buffer Hl.
  (* AP, ap *)
  token_cases. destruct t.
  { destruct isPM; apply put2_framed; (assumption || lia). }
  token_cases. destruct t; [|apply framed_refl; assumption].
  destruct isPM; apply put2_framed; (assumption || lia).
Qed.

(** A step at an index outside the array faults at its first read. *)
Lemma toString_step_outside (dt : DateTime) (hourReformatted : Z) (isPM : bool)
    (i : Z) (buffer : list Z) :
  Z.of_nat (List.length buffer) <= i ->
  toString_step stray dt hourReformatted isPM i buffer = Fault OutOfBounds.
Proof.
  intros Hi. unfold toString_step, tok2, rd.
  rewrite (proj2 (lookup_ge_None buffer (Z.to_nat i))) by lia. reflexivity.
Qed.

(** The iterations allowed to the loop are never used up: the loop ends
    by its test or by a fault. *)
Lemma toString_loop_fuel (dt : DateTime) (hourReformatted : Z) (isPM : bool) :
  forall (fuel : nat) (i : Z) (buffer : list Z),
    0 <= i <= Z.of_nat (List.length buffer) ->
    Z.of_nat (List.length buffer) < 4294967295 ->
    Z.of_nat (List.length buffer) + 1 <= Z.of_nat fuel + i ->
    toString_loop stray fuel dt hourReformatted isPM i buffer
    <> Fault OutOfFuel.
Proof.
  induction fuel as [|fuel IH]; intros i buffer Hi Hl Hf; [lia|].
  cbn [toString_loop]. unfold strlen_checked.
  destruct (strlen buffer <? _); cbn [result_bind]; [|discriminate].
  destruct (i <? _); [|discriminate].
  destruct (Z.eq_dec i (Z.of_nat (List.length buffer))) as [E|Hne].
  - rewrite toString_step_outside by lia. discriminate.
  - pose proof (toString_step_framed (List.length buffer) dt hourReformatted isPM
                  i buffer eq_refl (proj1 Hi)) as F.
    destruct (toString_step _ _ _ _ _ _) as [b|f]; cbn [framed result_bind] in *;
      [|congruence].
    destruct F as [Hb _].
    assert (u32 (i + 1) = i + 1) as -> by (unfold u32; apply Z.mod_small; lia).
    apply IH; rewrite Hb; lia.
Qed.

Lemma toString_fuel (dt : DateTime) (buffer : list Z) :
  Z.of_nat (List.length buffer) < 4294967295 ->
  toString stray dt buffer <> Fault OutOfFuel.
Proof.
  intros Hl. unfold toString.
  destruct (if _ || _ then _ else _) as [hr pm].
  apply toString_loop_fuel; lia.
Qed.

(** Once [buffer[0]] is NUL after the first iteration, [strlen(buffer)]
    is 0 at every later test, the bound is the largest [size_t], and
    the scan leaves the array. *)
Lemma toString_loop_overrun (dt : DateTime) (hourReformatted : Z) (isPM : bool) :
  forall (fuel : nat) (i : Z) (buffer : list Z),
    buffer !! 0%nat = Some 0 ->
    1 <= i <= Z.of_nat (List.length buffer) ->
    Z.of_nat (List.length buffer) < 4294967295 ->
    Z.of_nat (List.length buffer) + 1 <= Z.of_nat fuel + i ->
    toString_loop stray fuel dt hourReformatted isPM i buffer
    = Fault OutOfBounds.
Proof.
  induction fuel as [|fuel IH]; intros i buffer H0 Hi Hl Hf; [lia|].
  cbn [toString_loop]. unfold strlen_checked.
  destruct buffer as [|c buffer]; [discriminate|]. injection H0 as ->.
  cbn [strlen Z.eqb]. destruct (Z.ltb_spec 0 (Z.of_nat (List.length (0 :: buffer))));
    [|simpl List.length in *; lia].
  cbn [result_bind]. change (u32 (0 - 1)) with 4294967295.
  destruct (Z.ltb_spec i 4294967295); [|lia].
  destruct (Z.eq_dec i (Z.of_nat (List.length (0 :: buffer)))) as [E|Hne].
  - rewrite toString_step_outside by lia. reflexivity.
  - pose proof (toString_step_framed (List.length (0 :: buffer)) dt hourReformatted
                  isPM i (0 :: buffer) eq_refl ltac:(lia)) as F.
    destruct (toString_step _ _ _ _ _ _) as [b|f]; cbn [framed result_bind] in *;
      [|congruence].
    destruct F as [Hb Hb0].
    assert (u32 (i + 1) = i + 1) as -> by (unfold u32; apply Z.mod_small; lia).
    apply IH; rewrite ?Hb; try lia. rewrite Hb0 by lia. reflexivity.
Qed.

(** Month 13 on the template "MMM", whatever the flash holds after the
    table of month names. *)
Lemma toString_month13_any_flash (y dd h mi s : Z) :
  toString stray (mkDateTime y 13 dd h mi s) (cstr "MMM") = Fault OutOfBounds.
Proof.
  set (dt := mkDateTime y 13 dd h mi s).
  set (g1 := pgm_read_byte stray MonthNamesTab (3 * (13 - 1) + 1)).
  set (g2 := pgm_read_byte stray MonthNamesTab (3 * (13 - 1) + 2)).
  assert (toString_step stray dt h false 0 (cstr "MMM") = Ok [0; u8 g1; u8 g2; 0])
    as Hstep by reflexivity.
  change (toString stray dt (cstr "MMM"))
    with (let* buffer := toString_step stray dt h false 0 (cstr "MMM") in
          toString_loop stray 4 dt h false 1 buffer).
  rewrite Hstep. cbn [result_bind].
  apply toString_loop_overrun; simpl; (reflexivity || lia).
Qed.

End ToStringFacts.

(** C10 as stated fails: month 13 is one past the table of month names,
    where the NUL that ends [month_names] stands.  On the template
    "MMM" the first iteration stores that NUL in [buffer[0]]; from
    then on [strlen(buffer) - 1] is the largest [size_t], and the
    scan runs over the terminator of the buffer. *)
Lemma toString_month13_overrun :
  chars "MMM" <> [] /\
  toString (fun _ _ => 0) (mkDateTime 0 13 1 0 0 0) (cstr "MMM")
  = Fault OutOfBounds.
Proof. split; [discriminate|vm_compute; reflexivity]. Qed.

Lemma toString_bounds_witness :
  exists out,
    toString (fun _ _ => 0) (mkDateTime 20 4 16 18 34 56)
             (chars "YYYY-MM-DD hh:mm:ss" ++ [0]) = Ok out /\
    terminated 19 out.
Proof.
  apply (toString_bounds (fun _ _ => 0) (mkDateTime 20 4 16 18 34 56)).
  - discriminate.
  - repeat constructor; vm_compute; discriminate.
  - vm_compute; reflexivity.
  - unfold uint8_fields; simpl; lia.
  - simpl; lia.
Defined.

(** ** The driver *)

(** *** The status queries *)

(** On the M41T81 [lowBattery] computes [(byte & 0x01) >> 4], which is
    0 for every byte: the query answers false whatever the chip
    reports. *)
Lemma lowBattery_M41T81_false {B : Type} {wire : TwoWire B}
    (PCF8523_CONTROL_3 : Z) (r : RTC B) :
  _model r = M41T81 -> fst (lowBattery PCF8523_CONTROL_3 r) = false.
Proof.
  intros Hm. unfold lowBattery, bind, get_model. rewrite Hm. cbn [RTCmodel_eqb].
  destruct (readBytes 15 1 r) as [u r1]. unfold call_get, ret.
  destruct (read (RTCWireBus r1)) as [v b]. cbn [fst].
  assert (Z.shiftr (Z.land v 1) 4 = 0) as ->; [|reflexivity].
  rewrite Z.shiftr_div_pow2 by lia. apply Z.div_small.
  change 1 with (Z.ones 1). rewrite Z.land_ones by lia.
  change (2 ^ 4) with 16. Z.div_mod_to_equations; lia.
Qed.

(** On the M41T81 the query addresses register 0x0F and reads one byte
    of it. *)
Lemma lowBattery_M41T81_trace (ack rx : list event -> Z)
    (PCF8523_CONTROL_3 : Z) (log : list event) (a : Z) :
  lowBattery (wire := trace_bus ack rx) PCF8523_CONTROL_3 (mkRTC log M41T81 a) =
  (false,
   mkRTC (log ++ [EvBegin a; EvWrite 0x0F; EvEnd; EvRequest a 1; EvRead])
         M41T81 a).
Proof.
  pose proof (lowBattery_M41T81_false (wire := trace_bus ack rx)
                PCF8523_CONTROL_3 (mkRTC log M41T81 a) eq_refl) as Hlow.
  revert Hlow.
  unfold lowBattery, readBytes, bind, ret, call, call_get, get_model, get_RTCaddr.
  cbn -[Z.shiftr Z.land]. rewrite <- ?app_assoc. cbn -[Z.shiftr Z.land].
  intros ->. reflexivity.
Qed.

(** C1, at the failing input: the M41T81 driver reads register 0x0F,
    receives a byte whose bit 0 is set, and [lowBattery()] returns
    false. *)
Theorem lowBattery_M41T81_bit0_ignored :
  let r := mkRTC battery_flag_chip M41T81 0x68 in
  let '(low, r') := lowBattery (wire := reg_bus) 0x02 r in
  regs battery_flag_chip 0x0F = 0x01 /\ Z.testbit 0x01 0 = true /\
  ptr (RTCWireBus r') = 0x10 /\ low = false.
Proof. vm_compute. repeat split; reflexivity. Qed.

(** *** Detection *)

Section Detection.

Variable ack : list event -> Z.
Variable rx : list event -> Z.
Variable M41T81_ADDR PCF8523_ADDR : Z.

(** C6: [begin()] probes the address of the M41T81 and adopts that
    model there when the probe is acknowledged; otherwise it probes
    the address of the PCF8523 and, when that is acknowledged, writes
    0xFF to register 0x10, reads the register back, adopts the PCF8523
    exactly when the byte read is 0x07 and the M41T81 otherwise, and
    returns true; when neither probe is acknowledged it sets the model
    to unknown and returns false. *)
Theorem begin_detects (wireInstance : list event) (r : RTC (list event)) :
  let probeA := wireInstance ++ [EvBegin M41T81_ADDR; EvEnd] in
  let probeB := probeA ++ [EvBegin PCF8523_ADDR; EvEnd] in
  let echo :=
    probeB ++ [EvBegin PCF8523_ADDR; EvWrite 0x10; EvWrite 0xFF; EvEnd;
               EvBegin PCF8523_ADDR; EvWrite 0x10; EvEnd;
               EvRequest PCF8523_ADDR 1; EvRead] in
  begin (wire := trace_bus ack rx) M41T81_ADDR PCF8523_ADDR wireInstance r =
    if ack probeA =? 0 then (true, mkRTC probeA M41T81 M41T81_ADDR)
    else if ack probeB =? 0
    then (true, mkRTC echo (if u8 (rx echo) =? 0x07 then PCF8523 else M41T81)
                      PCF8523_ADDR)
    else (false, mkRTC probeB unknown (_RTCaddr r)).
Proof.
  intros probeA probeB echo. subst probeA probeB echo.
  unfold begin, readBytes, bind, ret, call, call_get, set_RTCWireBus, set_model,
    set_RTCaddr, get_RTCaddr.
  cbn. rewrite <- ?app_assoc. cbn.
  destruct (ack _ =? 0); [reflexivity|].
  cbn. rewrite <- ?app_assoc. cbn.
  destruct (ack _ =? 0); [|reflexivity].
  cbn. rewrite <- ?app_assoc. cbn.
  destruct (u8 (rx _) =? 7); reflexivity.
Qed.

End Detection.

(** *** The driver without a chip *)

Section UnknownModel.

Context {B : Type} {wire : TwoWire B}.

Variable PCF8523_CONTROL_3 : Z.

(** With the model unknown the queries answer at once, without a call
    on the bus, and [adjust] returns at its guard. *)
Lemma now_unknown (r : RTC B) :
  _model r = unknown -> now r = (mkDateTime 0 1 1 0 0 0, r).
Proof. intros H. unfold now, bind, get_model. rewrite H. reflexivity. Qed.

Lemma isRunning_unknown (r : RTC B) :
  _model r = unknown -> isRunning PCF8523_CONTROL_3 r = (false, r).
Proof. intros H. unfold isRunning, bind, get_model. rewrite H. reflexivity. Qed.

Lemma lostPower_unknown (r : RTC B) :
  _model r = unknown -> lostPower PCF8523_CONTROL_3 r = (false, r).
Proof. intros H. unfold lostPower, bind, get_model. rewrite H. reflexivity. Qed.

Lemma lowBattery_unknown (r : RTC B) :
  _model r = unknown -> lowBattery PCF8523_CONTROL_3 r = (false, r).
Proof. intros H. unfold lowBattery, bind, get_model. rewrite H. reflexivity. Qed.

Lemma adjust_unknown (dt : DateTime) (r : RTC B) :
  _model r = unknown -> adjust PCF8523_CONTROL_3 dt r = (tt, r).
Proof. intros H. unfold adjust, bind, get_model. rewrite H. reflexivity. Qed.

End UnknownModel.

Section UnknownModelTrace.

Variable ack : list event -> Z.
Variable rx : list event -> Z.
Variable PCF8523_CONTROL_3 : Z.

(** [stop] has no guard on the model: it opens and closes a transfer
    to the stored address, without a data byte. *)
Lemma stop_unknown_trace (log : list event) (a : Z) :
  stop (wire := trace_bus ack rx) PCF8523_CONTROL_3 (mkRTC log unknown a) =
  (tt, mkRTC (log ++ [EvBegin a; EvEnd]) unknown a).
Proof.
  unfold stop, bind, ret, call, call_get, get_model, get_RTCaddr. cbn.
  rewrite <- ?app_assoc. reflexivity.
Qed.

(** [resetLostPower] has no guard on the model either: it sends the
    byte 0 to the stored address. *)
Lemma resetLostPower_unknown_trace (log : list event) (a : Z) :
  resetLostPower (wire := trace_bus ack rx) PCF8523_CONTROL_3
                 (mkRTC log unknown a) =
  (tt, mkRTC (log ++ [EvBegin a; EvWrite 0; EvEnd]) unknown a).
Proof.
  unfold resetLostPower, bind, ret, call, call_get, get_model, get_RTCaddr. cbn.
  rewrite <- ?app_assoc. reflexivity.
Qed.

End UnknownModelTrace.

(** C2, at the failing input: after a [begin()] that no chip answered
    (it returned false and the model is unknown), [resetLostPower()]
    opens a transfer to the stored address and writes the byte 0. *)
Theorem resetLostPower_unknown_writes :
  let '(found, r) :=
    begin (wire := silent_bus) 0xD0 0x68 [] (mkRTC [] unknown 0) in
  found = false /\ _model r = unknown /\
  RTCWireBus (snd (resetLostPower (wire := silent_bus) 0x02 r)) =
    RTCWireBus r ++ [EvBegin (_RTCaddr r); EvWrite 0; EvEnd].
Proof. vm_compute. repeat split; reflexivity. Qed.

(** *** Setting and reading the time on a register-backed chip *)

Lemma field_grid :
  zall 0 60 (field_ok 0x7F) && zall 0 32 (field_ok 0x3F) &&
  zall 0 13 (field_ok 0x1F) &&
  zall 0 100 (fun v => bcd2bin (u8 (u8 (bin2bcd v))) =? v)
  = true.
Proof. vm_compute. reflexivity. Qed.

Lemma field_roundtrip (v : Z) :
  (0 <= v <= 59 -> bcd2bin (u8 (Z.land (u8 (bin2bcd v)) 0x7F)) = v) /\
  (0 <= v <= 31 -> bcd2bin (u8 (Z.land (u8 (bin2bcd v)) 0x3F)) = v) /\
  (0 <= v <= 12 -> bcd2bin (u8 (Z.land (u8 (bin2bcd v)) 0x1F)) = v) /\
  (0 <= v <= 99 -> bcd2bin (u8 (u8 (bin2bcd v))) = v).
Proof.
  pose proof field_grid as G. bools.
  repeat split; intros Hv; apply Z.eqb_eq;
    match goal with
    | H : zall _ _ ?f = true |- ?f v = true => apply (zall_spec _ _ _ H); lia
    | H : zall _ _ ?f = true |- _ => apply (zall_spec _ _ _ H v); lia
    end.
Qed.

(** Evaluation of the driver on the register-backed bus, up to the
    tests of the chip address. *)
Ltac run_driver :=
  cbv [adjust now readBytes read_field bind ret call call_get get_model
       get_RTCaddr RTCmodel_eqb beginTransmission write endTransmission
       requestFrom read reg_bus RTCWireBus _model _RTCaddr chip_addr regs ptr
       tx_addr tx_buf rx_buf app fst snd load_bytes Z.to_nat Pos.to_nat
       Pos.iter_op Nat.add second minute hour day month year].

Ltac register_pointers :=
  change (u8 0) with 0; change (u8 1) with 1; change (u8 2) with 2;
  change (u8 3) with 3; change (u8 128) with 128;
  change (u8 (1 + 1)) with 2; change (u8 (2 + 1)) with 3;
  change (u8 (3 + 1)) with 4; change (u8 (4 + 1)) with 5;
  change (u8 (5 + 1)) with 6; change (u8 (6 + 1)) with 7;
  change (u8 (7 + 1)) with 8; change (u8 (8 + 1)) with 9;
  change (u8 (9 + 1)) with 10; change (u8 (10 + 1)) with 11;
  change (u8 (11 + 1)) with 12; change (u8 (12 + 1)) with 13;
  change (u8 (13 + 1)) with 14; change (u8 (14 + 1)) with 15;
  change (u8 (15 + 1)) with 16.

Section RegisterBus.

Variables (a : Z) (rg : Z -> Z) (p ta : Z) (tb rb : list Z).

(** [now] on the M41T81 decodes registers 1, 2, 3, 5, 6 and 7. *)
Lemma now_M41T81 :
  fst (now (wire := reg_bus) (mkRTC (mkRegbus a rg p ta tb rb) M41T81 a)) =
  DateTime_of_fields (u16 (bcd2bin (u8 (rg 7)) + 2000))
    (bcd2bin (u8 (Z.land (rg 6) 0x1F))) (bcd2bin (u8 (Z.land (rg 5) 0x3F)))
    (bcd2bin (u8 (Z.land (rg 3) 0x3F))) (bcd2bin (u8 (Z.land (rg 2) 0x7F)))
    (bcd2bin (u8 (Z.land (rg 1) 0x7F))).
Proof.
  run_driver. do 2 (rewrite !Z.eqb_refl; cbv [store_bytes]; run_driver).
  register_pointers. reflexivity.
Qed.

(** [now] on the PCF8523 decodes registers 3, 4, 5, 6, 8 and 9. *)
Lemma now_PCF8523 :
  fst (now (wire := reg_bus) (mkRTC (mkRegbus a rg p ta tb rb) PCF8523 a)) =
  DateTime_of_fields (u16 (bcd2bin (u8 (rg 9)) + 2000))
    (bcd2bin (u8 (Z.land (rg 8) 0x1F))) (bcd2bin (u8 (Z.land (rg 6) 0x3F)))
    (bcd2bin (u8 (Z.land (rg 5) 0x3F))) (bcd2bin (u8 (Z.land (rg 4) 0x7F)))
    (bcd2bin (u8 (Z.land (rg 3) 0x7F))).
Proof.
  run_driver. do 2 (rewrite !Z.eqb_refl; cbv [store_bytes]; run_driver).
  register_pointers. reflexivity.
Qed.

(** [adjust] on the M41T81 stores fifteen bytes from register 1 on. *)
Lemma adjust_M41T81 (dt : DateTime) (PCF8523_CONTROL_3 : Z) :
  snd (adjust (wire := reg_bus) PCF8523_CONTROL_3 dt
         (mkRTC (mkRegbus a rg p ta tb rb) M41T81 a)) =
  let (regs', ptr') :=
    store_bytes rg 1
      [u8 (bin2bcd (ss dt)); u8 (bin2bcd (mm dt)); u8 (bin2bcd (hh dt)); 0;
       u8 (bin2bcd (d dt)); u8 (bin2bcd (m dt));
       u8 (bin2bcd (u8 (u32 (2000 + yOff dt - 2000))));
       128; 128; 0; 0; 0; 0; 0; 0] in
  mkRTC (mkRegbus a regs' ptr' a [] rb) M41T81 a.
Proof.
  run_driver. rewrite !Z.eqb_refl. register_pointers.
  destruct (store_bytes _ _ _). reflexivity.
Qed.

(** [adjust] on the PCF8523 stores eight bytes from Control_3 on. *)
Lemma adjust_PCF8523 (dt : DateTime) (PCF8523_CONTROL_3 : Z) :
  snd (adjust (wire := reg_bus) PCF8523_CONTROL_3 dt
         (mkRTC (mkRegbus a rg p ta tb rb) PCF8523 a)) =
  let (regs', ptr') :=
    store_bytes rg (u8 PCF8523_CONTROL_3)
      [0; u8 (bin2bcd (ss dt)); u8 (bin2bcd (mm dt)); u8 (bin2bcd (hh dt));
       u8 (bin2bcd (d dt)); u8 (bin2bcd 0); u8 (bin2bcd (m dt));
       u8 (bin2bcd (u8 (u32 (2000 + yOff dt - 2000))))] in
  mkRTC (mkRegbus a regs' ptr' a [] rb) PCF8523 a.
Proof.
  run_driver. rewrite !Z.eqb_refl. register_pointers.
  destruct (store_bytes _ _ _). reflexivity.
Qed.

End RegisterBus.

Lemma DateTime_of_fields_decoded (dt : DateTime) :
  valid_DateTime dt = true ->
  DateTime_of_fields
    (u16 (bcd2bin (u8 (u8 (bin2bcd (u8 (u32 (2000 + yOff dt - 2000)))))) + 2000))
    (bcd2bin (u8 (Z.land (u8 (bin2bcd (m dt))) 0x1F)))
    (bcd2bin (u8 (Z.land (u8 (bin2bcd (d dt))) 0x3F)))
    (bcd2bin (u8 (Z.land (u8 (bin2bcd (hh dt))) 0x3F)))
    (bcd2bin (u8 (Z.land (u8 (bin2bcd (mm dt))) 0x7F)))
    (bcd2bin (u8 (Z.land (u8 (bin2bcd (ss dt))) 0x7F))) = dt.
Proof.
  unfold valid_DateTime, year, month, day, hour, minute, second.
  intros Hv. apply valid_tuple_inv in Hv as (Hy & Hmd & Hh & Hmi & Hs).
  unfold valid_month_day in Hmd. bools.
  pose proof (month_length_le (yOff dt mod 4 =? 0) (m dt)).
  assert (u8 (u32 (2000 + yOff dt - 2000)) = yOff dt) as ->.
  { replace (2000 + yOff dt - 2000) with (yOff dt) by lia.
    unfold u8, u32. Z.div_mod_to_equations. lia. }
  rewrite (proj2 (proj2 (proj2 (field_roundtrip (yOff dt))))) by lia.
  rewrite (proj1 (proj2 (proj2 (field_roundtrip (m dt))))) by lia.
  rewrite (proj1 (proj2 (field_roundtrip (d dt)))) by lia.
  rewrite (proj1 (proj2 (field_roundtrip (hh dt)))) by lia.
  rewrite (proj1 (field_roundtrip (mm dt))) by lia.
  rewrite (proj1 (field_roundtrip (ss dt))) by lia.
  unfold DateTime_of_fields.
  assert (u16 (yOff dt + 2000) = yOff dt + 2000) as ->
    by (unfold u16; apply Z.mod_small; lia).
  destruct (Z.leb_spec 2000 (yOff dt + 2000)); [|lia].
  replace (yOff dt + 2000 - 2000) with (yOff dt) by lia.
  unfold u8, u16. rewrite !Z.mod_small by (rewrite ?Z.mod_small; lia).
  destruct dt; reflexivity.
Qed.

(** C7: on a bus with one register-backed chip, with the model detected
    (M41T81 or PCF8523) at the address of the chip, and with Control_3
    of the PCF8523 at register 0x02, [adjust(dt)] followed by [now()]
    returns, for every valid DateTime [dt] of 2000..2099, a DateTime
    with the year, month, day, hour, minute and second of [dt]. *)
Theorem adjust_now_roundtrip (PCF8523_CONTROL_3 : Z) (b : regbus)
    (mdl : RTCmodel) (dt : DateTime) :
  PCF8523_CONTROL_3 = 0x02 -> mdl <> unknown -> valid_DateTime dt = true ->
  let r := mkRTC b mdl (chip_addr b) in
  fst (now (wire := reg_bus)
         (snd (adjust (wire := reg_bus) PCF8523_CONTROL_3 dt r))) = dt.
Proof.
  intros -> Hm Hv r. subst r. destruct b as [a rg p ta tb rb]. cbn [chip_addr].
  destruct mdl; [contradiction| |].
  - rewrite adjust_PCF8523. change (u8 2) with 2. cbv [store_bytes].
    rewrite now_PCF8523. register_pointers. cbv [reg_set Z.eqb Pos.eqb].
    apply DateTime_of_fields_decoded, Hv.
  - rewrite adjust_M41T81. cbv [store_bytes].
    rewrite now_M41T81. register_pointers. cbv [reg_set Z.eqb Pos.eqb].
    apply DateTime_of_fields_decoded, Hv.
Qed.

Lemma adjust_now_roundtrip_witness :
  fst (now (wire := reg_bus)
         (snd (adjust (wire := reg_bus) 0x02 (mkDateTime 20 4 16 18 34 56)
                 (mkRTC battery_flag_chip PCF8523 0x68)))) =
  mkDateTime 20 4 16 18 34 56.
Proof.
  apply (adjust_now_roundtrip 0x02 battery_flag_chip PCF8523
           (mkDateTime 20 4 16 18 34 56)).
  - reflexivity.
  - discriminate.
  - reflexivity.
Defined.

(** * Further properties *)

(** ** The constructor from seconds and [unixtime] *)

Section MoreCalendarFacts.

Variable stray : table -> Z -> Z.

Lemma month_loop_inv_grid :
  zall 0 2 (fun lz => zall 0 366 (fun r => month_loop_inv_ok stray lz r))
  = true.
Proof. vm_compute. reflexivity. Qed.

Lemma month_first_grid :
  forallb (fun leap =>
    zall 1 12 (fun mo =>
      zall 1 31 (fun dd => month_first_ok stray leap mo dd) &&
      zall 1 12 (fun mo' => month_order_ok stray leap mo mo')))
    [true; false] = true.
Proof. vm_compute. reflexivity. Qed.

Lemma leapz_flag (y : Z) :
  0 <= leapz y <= 1 /\ negb (leapz y =? 0) = (y mod 4 =? 0).
Proof. unfold leapz. destruct (_ =? _); simpl; split; (lia || reflexivity). Qed.

(** The calendar half of the constructor, on every 16-bit day count:
    the year, month and day exist and count back to the day count. *)
Lemma days2date_spec (days : Z) :
  0 <= days < 65536 ->
  exists y mo dd,
    days2date stray days = (y, mo, dd) /\ 0 <= y <= 255 /\
    valid_month_day (y mod 4 =? 0) mo dd = true /\
    days = 365 * y + (y + 3) / 4 + (month_days stray (y mod 4 =? 0) mo dd - 1).
Proof.
  intros Hd. unfold days2date.
  destruct (year_loop_breaks stray days Hd) as (y & r & -> & Hy & Hr & Hs).
  destruct (leapz_flag y) as [Hl El].
  destruct (month_loop_valid stray y r Hr) as (mo & r' & E & Hr' & Hv).
  pose proof (month_loop_inv_grid) as G.
  apply zall_spec with (x := leapz y) in G; [|lia].
  apply zall_spec with (x := r) in G; [|lia].
  unfold month_loop_inv_ok in G. destruct (Z.ltb_spec r (365 + leapz y)); [|lia].
  rewrite E in *. rewrite El in G. apply Z.eqb_eq in G.
  assert (u8 (r' + 1) = r' + 1) as -> by (unfold u8; apply Z.mod_small; lia).
  exists y, mo, (r' + 1). repeat split; try lia. exact Hv.
Qed.

Lemma year_of_days (y r days : Z) :
  0 <= y -> 0 <= r < 365 + leapz y ->
  days = 365 * y + (y + 3) / 4 + r ->
  (y <= 99 <-> days < 36525).
Proof.
  intros Hy Hr ->. unfold leapz in Hr.
  destruct (Z.eqb_spec (y mod 4) 0); split; intros H;
    Z.div_mod_to_equations; lia.
Qed.

(** The seconds of [t], less the offset of 2000, taken apart as the
    constructor does. *)
Lemma DateTime_of_uint32_parts (T : Z) :
  0 <= T < 4294967296 ->
  0 <= T mod 60 < 60 /\ 0 <= (T / 60) mod 60 < 60 /\
  0 <= (T / 60 / 60) mod 24 < 24 /\ 0 <= T / 60 / 60 / 24 < 49711 /\
  T = (((T / 60 / 60 / 24) * 24 + (T / 60 / 60) mod 24) * 60
       + (T / 60) mod 60) * 60 + T mod 60.
Proof. intros HT. Z.div_mod_to_equations. lia. Qed.

(** The fields the constructor computes from a seconds count of
    2000..2099 are a valid date and time that count back to it. *)
Lemma DateTime_of_uint32_inverse (t : Z) :
  SECONDS_FROM_1970_TO_2000 <= t < unixtime_2100 ->
  valid_DateTime (DateTime_of_uint32 stray t) = true /\
  unixtime stray (DateTime_of_uint32 stray t) = t.
Proof.
  unfold SECONDS_FROM_1970_TO_2000, unixtime_2100. intros Ht.
  assert (valid_DateTime (DateTime_of_uint32 stray t) = true /\
          date2days stray (yOff (DateTime_of_uint32 stray t))
            (m (DateTime_of_uint32 stray t)) (d (DateTime_of_uint32 stray t))
          = (t - 946684800) / 60 / 60 / 24 /\
          hh (DateTime_of_uint32 stray t) = ((t - 946684800) / 60 / 60) mod 24 /\
          mm (DateTime_of_uint32 stray t) = ((t - 946684800) / 60) mod 60 /\
          ss (DateTime_of_uint32 stray t) = (t - 946684800) mod 60)
    as (Hv & Hd & Hh & Hmi & Hs).
  { unfold DateTime_of_uint32. cbv zeta.
    change SECONDS_FROM_1970_TO_2000 with 946684800.
    assert (u32 (t - 946684800) = t - 946684800) as ->
      by (unfold u32; apply Z.mod_small; lia).
    set (T := t - 946684800).
    destruct (DateTime_of_uint32_parts T) as (Hs & Hmi & Hh & Hd & _);
      [subst T; lia|].
    assert (T / 60 / 60 / 24 < 36525) by (subst T; Z.div_mod_to_equations; lia).
    assert (u8 (T mod 60) = T mod 60) as ->
      by (unfold u8; apply Z.mod_small; lia).
    assert (u8 ((T / 60) mod 60) = (T / 60) mod 60) as ->
      by (unfold u8; apply Z.mod_small; lia).
    assert (u8 ((T / 60 / 60) mod 24) = (T / 60 / 60) mod 24) as ->
      by (unfold u8; apply Z.mod_small; lia).
    assert (u16 (T / 60 / 60 / 24) = T / 60 / 60 / 24) as ->
      by (unfold u16; apply Z.mod_small; lia).
    destruct (days2date_spec (T / 60 / 60 / 24)) as (y & mo & dd & -> & Hy & Hv & E);
      [lia|].
    cbn [yOff m d hh mm ss].
    destruct (leapz_flag y) as [Hl _].
    assert (0 <= y <= 99) as Hy99.
    { pose proof (month_day_ok_valid stray _ _ _ Hv) as Hok.
      unfold month_day_ok in Hok. rewrite Hv in Hok. bools.
      assert ((if y mod 4 =? 0 then 1 else 0) = leapz y) as El by reflexivity.
      rewrite El in *.
      split; [lia|].
      apply (year_of_days y (month_days stray (y mod 4 =? 0) mo dd - 1)
               (T / 60 / 60 / 24)); lia. }
    split; [|split; [|split; [|split]; reflexivity]].
    - unfold valid_DateTime, year, month, day, hour, minute, second.
      cbn [yOff m d hh mm ss]. apply valid_tuple_intro; (assumption || lia).
    - destruct (date2days_valid stray y mo dd Hy99 Hv) as [-> _]. lia. }
  split; [exact Hv|].
  destruct (unixtime_valid stray _ Hv) as [_ ->].
  rewrite Hd, Hh, Hmi, Hs. change SECONDS_FROM_1970_TO_2000 with 946684800.
  destruct (DateTime_of_uint32_parts (t - 946684800)) as (_ & _ & _ & _ & E);
    lia.
Qed.

(** X1: Every seconds count from 2000-01-01T00:00:00 to
    2099-12-31T23:59:59 gives a valid DateTime, and [unixtime()] of
    that DateTime is the seconds count. *)
Theorem unixtime_DateTime_of_uint32 (t : Z) :
  SECONDS_FROM_1970_TO_2000 <= t < unixtime_2100 ->
  valid_DateTime (DateTime_of_uint32 stray t) = true /\
  unixtime stray (DateTime_of_uint32 stray t) = t.
Proof. exact (DateTime_of_uint32_inverse t). Qed.

(** The year of the DateTime built from [t] is below 2100 exactly when
    the day count is below the 36525 days of 2000..2099. *)
Lemma DateTime_of_uint32_year (t : Z) :
  let days := u32 (t - SECONDS_FROM_1970_TO_2000) / 60 / 60 / 24 in
  yOff (DateTime_of_uint32 stray t) <= 99 <-> days < 36525.
Proof.
  intros days. unfold DateTime_of_uint32. cbv zeta.
  set (T := u32 (t - SECONDS_FROM_1970_TO_2000)).
  assert (0 <= T < 4294967296) as HT by (apply Z.mod_pos_bound; lia).
  destruct (DateTime_of_uint32_parts T HT) as (_ & _ & _ & Hd & _).
  assert (u16 (T / 60 / 60 / 24) = days) as ->
    by (unfold u16; apply Z.mod_small; subst days; fold T; lia).
  destruct (days2date_spec days) as (y & mo & dd & -> & Hy & Hv & E);
    [subst days; fold T; lia|].
  cbn [yOff].
  pose proof (month_day_ok_valid stray _ _ _ Hv) as Hok.
  unfold month_day_ok in Hok. rewrite Hv in Hok. bools.
  assert ((if y mod 4 =? 0 then 1 else 0) = leapz y) as El by reflexivity.
  rewrite El in *.
  apply (year_of_days y (month_days stray (y mod 4 =? 0) mo dd - 1) days); lia.
Qed.

(** X2: [isValid()] of the DateTime built from a 32-bit seconds count is
    true exactly for the counts of 2000-01-01T00:00:00 to
    2099-12-31T23:59:59: below, the subtraction of the offset wraps,
    above, the year passes 2099. *)
Theorem isValid_DateTime_of_uint32 (t : Z) :
  0 <= t < 4294967296 ->
  isValid stray (DateTime_of_uint32 stray t) =
  (SECONDS_FROM_1970_TO_2000 <=? t) && (t <? unixtime_2100).
Proof.
  intros Ht.
  destruct (Z.leb_spec SECONDS_FROM_1970_TO_2000 t) as [Hlo|Hlo];
    destruct (Z.ltb_spec t unixtime_2100) as [Hhi|Hhi]; cbn [andb].
  - apply isValid_valid, DateTime_of_uint32_inverse. lia.
  - unfold isValid.
    destruct (Z.leb_spec 100 (yOff (DateTime_of_uint32 stray t))) as [|Hy];
      [reflexivity|].
    exfalso. assert (yOff (DateTime_of_uint32 stray t) <= 99) as H99 by lia.
    apply DateTime_of_uint32_year in H99. revert H99.
    unfold SECONDS_FROM_1970_TO_2000, unixtime_2100, u32 in *.
    rewrite Z.mod_small by lia. Z.div_mod_to_equations. lia.
  - unfold isValid.
    destruct (Z.leb_spec 100 (yOff (DateTime_of_uint32 stray t))) as [|Hy];
      [reflexivity|].
    exfalso. assert (yOff (DateTime_of_uint32 stray t) <= 99) as H99 by lia.
    apply DateTime_of_uint32_year in H99. revert H99.
    unfold SECONDS_FROM_1970_TO_2000, unixtime_2100, u32 in *.
    replace (t - 946684800) with (t + 3348282496 + (-1) * 4294967296) by lia.
    rewrite Z.mod_add by lia.
    rewrite Z.mod_small by lia. Z.div_mod_to_equations. lia.
  - unfold SECONDS_FROM_1970_TO_2000, unixtime_2100 in *. lia.
Qed.

(** ** The order of DateTimes *)

Lemma DateTime_lt_fields (a b : DateTime) :
  0 <= yOff a < 4294965296 ->
  DateTime_lt a b = true <-> fields_lt a b.
Proof.
  intros Hy. unfold DateTime_lt, fields_lt, year, month, day, hour, minute, second.
  assert (u32 (yOff a + 2000) = yOff a + 2000) as ->
    by (unfold u32; apply Z.mod_small; lia).
  rewrite !orb_true_iff, !andb_true_iff, !Z.ltb_lt, !Z.eqb_eq.
  repeat first [apply or_iff_compat_l | apply and_iff_compat_l
               | apply Morphisms_Prop.or_iff_morphism
               | apply Morphisms_Prop.and_iff_morphism]; try reflexivity; lia.
Qed.

Lemma fields_lt_trichotomy (a b : DateTime) :
  fields_lt a b \/ a = b \/ fields_lt b a.
Proof.
  unfold fields_lt. destruct a as [y1 m1 d1 h1 i1 s1], b as [y2 m2 d2 h2 i2 s2].
  cbn [yOff m d hh mm ss].
  destruct (Z.lt_trichotomy y1 y2) as [?|[->|?]]; [auto| |auto 10].
  destruct (Z.lt_trichotomy m1 m2) as [?|[->|?]]; [auto| |auto 10].
  destruct (Z.lt_trichotomy d1 d2) as [?|[->|?]]; [auto 10| |auto 10].
  destruct (Z.lt_trichotomy h1 h2) as [?|[->|?]]; [auto 10| |auto 10].
  destruct (Z.lt_trichotomy i1 i2) as [?|[->|?]]; [auto 15| |auto 15].
  destruct (Z.lt_trichotomy s1 s2) as [?|[->|?]]; [auto 15| |auto 15].
  auto.
Qed.

Lemma month_days_order (leap : bool) (mo dd mo' dd' : Z) :
  valid_month_day leap mo dd = true -> valid_month_day leap mo' dd' = true ->
  mo < mo' \/ (mo = mo' /\ dd < dd') ->
  month_days stray leap mo dd < month_days stray leap mo' dd'.
Proof.
  intros Hv Hv' Hlt.
  pose proof month_first_grid as G. rewrite forallb_forall in G.
  assert (In leap [true; false]) as Hin by (destruct leap; simpl; auto).
  apply G in Hin. clear G.
  pose proof Hv as Hr. pose proof Hv' as Hr'.
  unfold valid_month_day in Hr, Hr'. bools.
  pose proof (month_length_le leap mo). pose proof (month_length_le leap mo').
  pose proof (zall_spec _ _ _ Hin mo ltac:(lia)) as G1.
  pose proof (zall_spec _ _ _ Hin mo' ltac:(lia)) as G2.
  apply andb_true_iff in G1 as [F1 O1]. apply andb_true_iff in G2 as [F2 _].
  apply zall_spec with (x := dd) in F1; [|lia].
  apply zall_spec with (x := dd') in F2; [|lia].
  apply zall_spec with (x := mo') in O1; [|lia].
  unfold month_first_ok in F1, F2. rewrite Hv in F1. rewrite Hv' in F2.
  unfold month_order_ok in O1. bools.
  destruct Hlt as [Hlt|[-> Hlt]]; [|lia].
  destruct (Z.ltb_spec mo mo'); [|lia]. bools. lia.
Qed.

Lemma unixtime_fields_lt (a b : DateTime) :
  valid_DateTime a = true -> valid_DateTime b = true ->
  fields_lt a b -> unixtime stray a < unixtime stray b.
Proof.
  intros Ha Hb Hlt.
  destruct (unixtime_valid stray a Ha) as [_ ->].
  destruct (unixtime_valid stray b Hb) as [_ ->].
  unfold valid_DateTime, year, month, day, hour, minute, second in Ha, Hb.
  apply valid_tuple_inv in Ha as (Hy & Hmd & Hh & Hmi & Hs).
  apply valid_tuple_inv in Hb as (Hy' & Hmd' & Hh' & Hmi' & Hs').
  destruct (date2days_valid stray _ _ _ Hy Hmd) as [-> Hr].
  destruct (date2days_valid stray _ _ _ Hy' Hmd') as [-> Hr'].
  unfold fields_lt in Hlt.
  destruct Hlt as [Hlt|[Ey Hlt]].
  - assert (365 * yOff a + (yOff a + 3) / 4 + 365 + leapz (yOff a)
            <= 365 * yOff b + (yOff b + 3) / 4).
    { unfold leapz. destruct (Z.eqb_spec (yOff a mod 4) 0);
        Z.div_mod_to_equations; lia. }
    lia.
  - rewrite Ey in *.
    destruct Hlt as [Hlt|[Em Hlt]];
      [pose proof (month_days_order _ _ _ _ _ Hmd Hmd' (or_introl Hlt)); lia|].
    destruct Hlt as [Hlt|[Ed Hlt]].
    + pose proof (month_days_order _ _ _ _ _ Hmd Hmd' (or_intror (conj Em Hlt))).
      lia.
    + rewrite Em, Ed in *. lia.
Qed.

(** X3: On valid DateTimes [operator<] is the order of the seconds counts:
    a DateTime is earlier exactly when its [unixtime()] is smaller. *)
Theorem DateTime_lt_unixtime (a b : DateTime) :
  valid_DateTime a = true -> valid_DateTime b = true ->
  (DateTime_lt a b = true <-> unixtime stray a < unixtime stray b).
Proof.
  intros Ha Hb.
  assert (0 <= yOff a < 4294965296) as Hy.
  { unfold valid_DateTime, year in Ha. apply valid_tuple_inv in Ha. lia. }
  rewrite (DateTime_lt_fields a b Hy). split.
  - apply unixtime_fields_lt; assumption.
  - intros Hlt. destruct (fields_lt_trichotomy a b) as [H|[->|H]]; [exact H|lia|].
    apply (unixtime_fields_lt b a Hb Ha) in H. lia.
Qed.

(** X4: On valid DateTimes [operator==] holds exactly when the seconds
    counts are equal: two valid DateTimes with the same [unixtime()]
    have the same fields. *)
Theorem DateTime_equal_unixtime (a b : DateTime) :
  valid_DateTime a = true -> valid_DateTime b = true ->
  (DateTime_equal a b = true <-> unixtime stray a = unixtime stray b).
Proof.
  intros Ha Hb.
  assert (DateTime_equal a b = true <-> a = b) as ->.
  { assert (0 <= yOff a < 4294965296) as Hy.
    { unfold valid_DateTime, year in Ha. apply valid_tuple_inv in Ha. lia. }
    unfold DateTime_equal, year, month, day, hour, minute, second.
    assert (u32 (yOff a + 2000) = yOff a + 2000) as ->
      by (unfold u32; apply Z.mod_small; lia).
    rewrite !andb_true_iff, !Z.eqb_eq. split.
    - intros H.
      destruct a as [y1 m1 d1 h1 i1 s1], b as [y2 m2 d2 h2 i2 s2].
      cbn [yOff m d hh mm ss] in *. f_equal; lia.
    - intros ->. repeat split; lia. }
  split; [intros ->; reflexivity|].
  intros E. rewrite <- (DateTime_of_uint32_unixtime stray a Ha).
  rewrite <- (DateTime_of_uint32_unixtime stray b Hb). rewrite E. reflexivity.
Qed.

Lemma fields_lt_asym (a b : DateTime) : fields_lt a b -> ~ fields_lt b a.
Proof. unfold fields_lt. lia. Qed.

Lemma fields_lt_irrefl (a : DateTime) : ~ fields_lt a a.
Proof. unfold fields_lt. lia. Qed.

Lemma DateTime_equal_eq (a b : DateTime) :
  0 <= yOff a <= 255 -> DateTime_equal a b = true <-> a = b.
Proof.
  intros Hy. unfold DateTime_equal, year, month, day, hour, minute, second.
  assert (u32 (yOff a + 2000) = yOff a + 2000) as ->
    by (unfold u32; apply Z.mod_small; lia).
  rewrite !andb_true_iff, !Z.eqb_eq. split.
  - intros H.
    destruct a as [y1 m1 d1 h1 i1 s1], b as [y2 m2 d2 h2 i2 s2].
    cbn [yOff m d hh mm ss] in *. f_equal; lia.
  - intros ->. repeat split; lia.
Qed.

(** X5: Of two DateTimes, valid or not, exactly one of [a < b], [a == b]
    and [b < a] holds. *)
Theorem DateTime_lt_trichotomy (a b : DateTime) :
  uint8_fields a -> uint8_fields b ->
  (DateTime_lt a b = true /\ DateTime_equal a b = false /\
   DateTime_lt b a = false) \/
  (DateTime_lt a b = false /\ DateTime_equal a b = true /\
   DateTime_lt b a = false) \/
  (DateTime_lt a b = false /\ DateTime_equal a b = false /\
   DateTime_lt b a = true).
Proof.
  intros (Hya & _) (Hyb & _).
  pose proof (DateTime_lt_fields a b ltac:(lia)) as Lab.
  pose proof (DateTime_lt_fields b a ltac:(lia)) as Lba.
  pose proof (DateTime_equal_eq a b Hya) as Eab.
  pose proof (fields_lt_asym a b) as Asym.
  pose proof (fields_lt_irrefl a) as Irr.
  destruct (fields_lt_trichotomy a b) as [H|[H|H]].
  - left. split; [apply Lab, H|]. split.
    + destruct (DateTime_equal a b); [|reflexivity].
      exfalso. rewrite (proj1 Eab eq_refl) in *. apply (fields_lt_irrefl b H).
    + destruct (DateTime_lt b a); [|reflexivity].
      exfalso. apply (Asym H), Lba. reflexivity.
  - right. left. subst b. split; [|split; [apply Eab; reflexivity|]];
      (destruct (DateTime_lt a a); [|reflexivity]);
      exfalso; apply Irr, Lab; reflexivity.
  - right. right. split; [|split; [|apply Lba, H]].
    + destruct (DateTime_lt a b); [|reflexivity].
      exfalso. apply (fields_lt_asym b a H), Lab. reflexivity.
    + destruct (DateTime_equal a b); [|reflexivity].
      exfalso. rewrite (proj1 Eab eq_refl) in *. apply (fields_lt_irrefl b H).
Qed.

(** ** Arithmetic with a TimeSpan *)

Lemma u32_add_u32 (u s : Z) :
  0 <= u + s < 4294967296 -> u32 (u + u32 s) = u + s.
Proof.
  intros H. unfold u32. rewrite Z.add_mod_idemp_r by lia.
  apply Z.mod_small, H.
Qed.

Lemma u32_sub_u32 (u s : Z) :
  0 <= u - s < 4294967296 -> u32 (u - u32 s) = u - s.
Proof.
  intros H. unfold u32. rewrite Zminus_mod_idemp_r.
  apply Z.mod_small, H.
Qed.

Lemma u32_s32 (x : Z) : u32 (s32 x) = u32 x.
Proof.
  unfold u32, s32.
  replace ((x + 2147483648) mod 4294967296 - 2147483648)
    with ((x + 2147483648) mod 4294967296 + 2147483648 + (-1) * 4294967296)
    by lia.
  rewrite Z.mod_add by lia. rewrite Z.add_mod_idemp_l by lia.
  replace (x + 2147483648 + 2147483648) with (x + 1 * 4294967296) by lia.
  apply Z.mod_add. lia.
Qed.

(** X6: Adding a TimeSpan to a valid DateTime adds its seconds to
    [unixtime()], and the sum is a valid DateTime, whenever the result
    lies in 2000..2099; a negative span moves back. *)
Theorem DateTime_add_unixtime (dt : DateTime) (span : TimeSpan) :
  valid_DateTime dt = true ->
  SECONDS_FROM_1970_TO_2000 <= unixtime stray dt + totalseconds span
    < unixtime_2100 ->
  valid_DateTime (DateTime_add stray dt span) = true /\
  unixtime stray (DateTime_add stray dt span)
  = unixtime stray dt + totalseconds span.
Proof.
  intros Hv Hr. unfold DateTime_add.
  rewrite u32_add_u32
    by (unfold SECONDS_FROM_1970_TO_2000, unixtime_2100 in Hr; lia).
  apply DateTime_of_uint32_inverse, Hr.
Qed.

(** X7: Subtracting the TimeSpan that was added gives the DateTime back,
    whenever the sum lies in 2000..2099. *)
Theorem DateTime_add_sub (dt : DateTime) (span : TimeSpan) :
  valid_DateTime dt = true ->
  SECONDS_FROM_1970_TO_2000 <= unixtime stray dt + totalseconds span
    < unixtime_2100 ->
  DateTime_sub stray (DateTime_add stray dt span) span = dt.
Proof.
  intros Hv Hr.
  assert (unixtime stray (DateTime_add stray dt span)
          = unixtime stray dt + totalseconds span) as E.
  { unfold DateTime_add.
    rewrite u32_add_u32
      by (unfold SECONDS_FROM_1970_TO_2000, unixtime_2100 in Hr; lia).
    apply DateTime_of_uint32_inverse, Hr. }
  unfold DateTime_sub. rewrite E.
  destruct (unixtime_valid stray dt Hv) as [Hd Eu].
  assert (0 <= unixtime stray dt < 4294967296) as Hu.
  { unfold valid_DateTime, year, month, day, hour, minute, second in Hv.
    apply valid_tuple_inv in Hv. rewrite Eu.
    unfold SECONDS_FROM_1970_TO_2000. lia. }
  rewrite u32_sub_u32
    by (replace (unixtime stray dt + totalseconds span - totalseconds span)
          with (unixtime stray dt) by lia; exact Hu).
  replace (unixtime stray dt + totalseconds span - totalseconds span)
    with (unixtime stray dt) by lia.
  apply DateTime_of_uint32_unixtime, Hv.
Qed.

Lemma unixtime_valid_range (dt : DateTime) :
  valid_DateTime dt = true ->
  SECONDS_FROM_1970_TO_2000 <= unixtime stray dt < unixtime_2100.
Proof.
  intros Hv. destruct (unixtime_valid stray dt Hv) as [Hd ->].
  unfold valid_DateTime, year, month, day, hour, minute, second in Hv.
  apply valid_tuple_inv in Hv as (Hy & Hmd & Hh & Hmi & Hs).
  destruct (date2days_valid stray _ _ _ Hy Hmd) as [E Hr].
  assert (date2days stray (yOff dt) (m dt) (d dt) < 36525).
  { rewrite E.
    apply (year_of_days (yOff dt)
             (month_days stray (yOff dt mod 4 =? 0) (m dt) (d dt) - 1)); lia. }
  unfold SECONDS_FROM_1970_TO_2000, unixtime_2100. lia.
Qed.

(** X8: The difference of two valid DateTimes, added to the one that was
    subtracted, gives the other one back, also when the difference
    does not fit the 32-bit signed seconds of a TimeSpan. *)
Theorem DateTime_add_diff (a b : DateTime) :
  valid_DateTime a = true -> valid_DateTime b = true ->
  DateTime_add stray a (DateTime_diff stray b a) = b.
Proof.
  intros Ha Hb. unfold DateTime_add, DateTime_diff, TimeSpan_of_seconds,
    totalseconds. cbn [_seconds].
  pose proof (unixtime_valid_range a Ha) as Ra.
  pose proof (unixtime_valid_range b Hb) as Rb.
  unfold SECONDS_FROM_1970_TO_2000, unixtime_2100 in Ra, Rb.
  rewrite u32_s32.
  assert (u32 (unixtime stray a
               + u32 (u32 (unixtime stray b - unixtime stray a)))
          = unixtime stray b) as ->.
  { unfold u32. rewrite Z.mod_mod by lia. rewrite Z.add_mod_idemp_r by lia.
    replace (unixtime stray a + (unixtime stray b - unixtime stray a))
      with (unixtime stray b) by lia.
    apply Z.mod_small. lia. }
  apply DateTime_of_uint32_unixtime, Hb.
Qed.

(** X9: The seconds of the difference of two valid DateTimes are the
    difference of their seconds counts when that is below 2^31, about
    68 years; from 2^31 on the TimeSpan of a later minus an earlier
    DateTime is negative. *)
Theorem DateTime_diff_totalseconds (a b : DateTime) :
  valid_DateTime a = true -> valid_DateTime b = true ->
  unixtime stray b <= unixtime stray a ->
  let delta := unixtime stray a - unixtime stray b in
  (delta < 2147483648 ->
   totalseconds (DateTime_diff stray a b) = delta) /\
  (2147483648 <= delta ->
   totalseconds (DateTime_diff stray a b) = delta - 4294967296 /\
   totalseconds (DateTime_diff stray a b) < 0).
Proof.
  intros Ha Hb Hle delta.
  pose proof (unixtime_valid_range a Ha) as Ra.
  pose proof (unixtime_valid_range b Hb) as Rb.
  unfold SECONDS_FROM_1970_TO_2000, unixtime_2100 in Ra, Rb.
  unfold DateTime_diff, TimeSpan_of_seconds, totalseconds. cbn [_seconds].
  fold delta.
  assert (u32 delta = delta) as ->
    by (unfold u32; apply Z.mod_small; subst delta; lia).
  unfold s32. split; intros Hd.
  - rewrite Z.mod_small by (subst delta; lia). lia.
  - replace (delta + 2147483648)
      with (delta - 2147483648 + 1 * 4294967296) by lia.
    rewrite Z.mod_add by lia. rewrite Z.mod_small by (subst delta; lia).
    subst delta. lia.
Qed.

(** ** The day of the week *)

Lemma weekday_succ (D : Z) :
  u8 ((D + 1 + 6) mod 7) = (u8 ((D + 6) mod 7) + 1) mod 7.
Proof.
  unfold u8.
  assert (0 <= (D + 6) mod 7 < 7) by (apply Z.mod_pos_bound; lia).
  assert (0 <= (D + 1 + 6) mod 7 < 7) by (apply Z.mod_pos_bound; lia).
  rewrite !(Z.mod_small _ 256) by lia.
  replace (D + 1 + 6) with (D + 6 + 1) by lia.
  rewrite <- Z.add_mod_idemp_l by lia. reflexivity.
Qed.

(** X10: One day added to a valid DateTime, the result still in 2000..2099:
    the time of day is kept and the day of the week advances by one,
    Saturday being followed by Sunday. *)
Theorem dayOfTheWeek_next_day (dt : DateTime) :
  valid_DateTime dt = true ->
  unixtime stray dt + 86400 < unixtime_2100 ->
  let next := DateTime_add stray dt (TimeSpan_of_dhms 1 0 0 0) in
  hh next = hh dt /\ mm next = mm dt /\ ss next = ss dt /\
  dayOfTheWeek stray next = (dayOfTheWeek stray dt + 1) mod 7.
Proof.
  intros Hv Hr. cbv zeta.
  pose proof (unixtime_valid_range dt Hv) as Ru.
  assert (TimeSpan_of_dhms 1 0 0 0 = mkTimeSpan 86400) as -> by reflexivity.
  assert (valid_DateTime (DateTime_add stray dt (mkTimeSpan 86400)) = true /\
          unixtime stray (DateTime_add stray dt (mkTimeSpan 86400))
          = unixtime stray dt + 86400) as [Hn En].
  { unfold DateTime_add. cbn [totalseconds _seconds].
    rewrite u32_add_u32
      by (unfold SECONDS_FROM_1970_TO_2000, unixtime_2100 in *; lia).
    apply DateTime_of_uint32_inverse. lia. }
  generalize dependent (DateTime_add stray dt (mkTimeSpan 86400)).
  intros next Hn En.
  destruct (unixtime_valid stray dt Hv) as [Hd Eu].
  destruct (unixtime_valid stray next Hn) as [Hd' Eu'].
  rewrite Eu, Eu' in En.
  unfold valid_DateTime, year, month, day, hour, minute, second in Hv, Hn.
  apply valid_tuple_inv in Hv as (_ & _ & Hh & Hmi & Hs).
  apply valid_tuple_inv in Hn as (_ & _ & Hh' & Hmi' & Hs').
  assert (date2days stray (yOff next) (m next) (d next)
          = date2days stray (yOff dt) (m dt) (d dt) + 1 /\
          hh next = hh dt /\ mm next = mm dt /\ ss next = ss dt)
    as (ED & Eh & Emi & Ess) by lia.
  repeat split; try assumption.
  unfold dayOfTheWeek. rewrite ED. apply weekday_succ.
Qed.

(** X11: Adding two TimeSpans one after the other is adding their sum, when
    the first sum lies in 2000..2099 and the sum of the two spans fits
    the 32-bit signed seconds of a TimeSpan. *)
Theorem DateTime_add_TimeSpan_add (dt : DateTime) (a b : TimeSpan) :
  valid_DateTime dt = true ->
  SECONDS_FROM_1970_TO_2000 <= unixtime stray dt + totalseconds a
    < unixtime_2100 ->
  -2147483648 <= totalseconds a + totalseconds b < 2147483648 ->
  DateTime_add stray (DateTime_add stray dt a) b
  = DateTime_add stray dt (TimeSpan_add a b).
Proof.
  intros Hv Hr Hs.
  assert (unixtime stray (DateTime_add stray dt a)
          = unixtime stray dt + totalseconds a) as E.
  { unfold DateTime_add.
    rewrite u32_add_u32
      by (unfold SECONDS_FROM_1970_TO_2000, unixtime_2100 in Hr; lia).
    apply DateTime_of_uint32_inverse, Hr. }
  unfold DateTime_add at 1 3. rewrite E. f_equal.
  unfold TimeSpan_add, TimeSpan_of_seconds, totalseconds. cbn [_seconds].
  rewrite u32_s32. unfold u32. rewrite !Z.add_mod_idemp_r by lia.
  f_equal. lia.
Qed.

End MoreCalendarFacts.

(** ** The hour on a 12-hour clock *)

(** X12: For an hour of 0..23 [twelveHour()] is in 1..12 and differs from
    the hour by a multiple of 12. *)
Theorem twelveHour_range (dt : DateTime) :
  0 <= hh dt <= 23 ->
  1 <= twelveHour dt <= 12 /\ twelveHour dt mod 12 = hh dt mod 12.
Proof.
  intros Hh. unfold twelveHour, u8.
  destruct (Z.eqb_spec (hh dt) 0) as [E0|H0]; cbn [orb];
    [rewrite E0; split; [lia|reflexivity]|].
  destruct (Z.eqb_spec (hh dt) 12) as [E12|H12];
    [rewrite E12; split; [lia|reflexivity]|].
  destruct (Z.ltb_spec 12 (hh dt)).
  - rewrite (Z.mod_small (hh dt - 12)) by lia. split; [lia|].
    replace (hh dt) with (hh dt - 12 + 1 * 12) at 2 by lia.
    rewrite Z.mod_add by lia. reflexivity.
  - split; [lia|reflexivity].
Qed.

(** ** Parsing *)

(** [conv2d] never fails and never gives more than 99, whatever the two
    characters are: a character that is not a digit counts as absent. *)
Lemma conv2d_range (p : list Z) : 0 <= conv2d p <= 99.
Proof.
  unfold conv2d. cbv zeta. change (chr "0") with 48. change (chr "9") with 57.
  set (p0 := nth 0 p 0). set (p1 := nth 1 p 0). unfold u8.
  destruct (Z.leb_spec 48 p0); destruct (Z.leb_spec p0 57);
    destruct (Z.leb_spec 48 p1); destruct (Z.leb_spec p1 57); cbn [andb];
    rewrite ?Z.mod_small; try lia; rewrite ?Z.mod_small; lia.
Qed.

Lemma conv2d_digits (a b : Z) (rest : list Z) :
  0 <= a <= 9 -> 0 <= b <= 9 ->
  conv2d (chr "0" + a :: chr "0" + b :: rest) = 10 * a + b.
Proof.
  intros Ha Hb. unfold conv2d. cbv zeta. cbn [nth].
  change (chr "0") with 48. change (chr "9") with 57. unfold u8.
  destruct (Z.leb_spec 48 (48 + a)); [|lia].
  destruct (Z.leb_spec (48 + a) 57); [|lia].
  destruct (Z.leb_spec 48 (48 + b)); [|lia].
  destruct (Z.leb_spec (48 + b) 57); [|lia]. cbn [andb].
  rewrite (Z.mod_small (48 + a - 48)) by lia. rewrite Z.mod_small; lia.
Qed.

(** X13: The ISO-8601 constructor gives, for every input, fields of at most
    99: a year offset of 100 or more cannot come out of it. *)
Theorem DateTime_of_iso8601_fields (iso : list Z) :
  let dt := DateTime_of_iso8601 iso in
  0 <= yOff dt <= 99 /\ 0 <= m dt <= 99 /\ 0 <= d dt <= 99 /\
  0 <= hh dt <= 99 /\ 0 <= mm dt <= 99 /\ 0 <= ss dt <= 99.
Proof.
  unfold DateTime_of_iso8601. cbn [yOff m d hh mm ss].
  repeat split; apply conv2d_range.
Qed.

(** X14: [decodeMonth] gives 0..12 for every input, and 0 exactly when the
    first character is none of J, F, A, M, S, O, N, D. *)
Theorem decodeMonth_range (date : list Z) :
  0 <= decodeMonth date <= 12 /\
  (decodeMonth date = 0 <->
   ~ In (nth 0 date 0) (chars "JFAMSOND")).
Proof.
  unfold decodeMonth. cbv zeta. set (c := nth 0 date 0).
  cbn [chars In].
  destruct (Z.eqb_spec c (chr "J"));
    [destruct (_ =? _); [|destruct (_ =? _)]; (split; [vm_compute; split; discriminate|]);
     (split; [discriminate|intros H; exfalso; apply H; auto 10])|].
  destruct (Z.eqb_spec c (chr "F"));
    [split; [vm_compute; split; discriminate|];
     (split; [discriminate|intros H; exfalso; apply H; auto 10])|].
  destruct (Z.eqb_spec c (chr "A"));
    [destruct (_ =? _); (split; [vm_compute; split; discriminate|]);
     (split; [discriminate|intros H; exfalso; apply H; auto 10])|].
  destruct (Z.eqb_spec c (chr "M"));
    [destruct (_ =? _); (split; [vm_compute; split; discriminate|]);
     (split; [discriminate|intros H; exfalso; apply H; auto 10])|].
  destruct (Z.eqb_spec c (chr "S"));
    [split; [vm_compute; split; discriminate|];
     (split; [discriminate|intros H; exfalso; apply H; auto 10])|].
  destruct (Z.eqb_spec c (chr "O"));
    [split; [vm_compute; split; discriminate|];
     (split; [discriminate|intros H; exfalso; apply H; auto 10])|].
  destruct (Z.eqb_spec c (chr "N"));
    [split; [vm_compute; split; discriminate|];
     (split; [discriminate|intros H; exfalso; apply H; auto 10])|].
  destruct (Z.eqb_spec c (chr "D"));
    [split; [vm_compute; split; discriminate|];
     (split; [discriminate|intros H; exfalso; apply H; auto 10])|].
  split; [vm_compute; split; discriminate|].
  split; [intros _|reflexivity]. intuition congruence.
Qed.

Section ParsingFacts.

Variable stray : table -> Z -> Z.

Lemma decodeMonth_grid :
  zall 1 12 (fun k => decodeMonth (month_name stray k) =? k) = true.
Proof. vm_compute. reflexivity. Qed.

(** X15: The name [toString] prints for a month of 1..12 under the token MMM
    is decoded by [decodeMonth] to that month. *)
Theorem decodeMonth_month_name (k : Z) :
  1 <= k <= 12 -> decodeMonth (month_name stray k) = k.
Proof.
  intros Hk. apply Z.eqb_eq.
  apply (zall_spec _ _ _ decodeMonth_grid k). lia.
Qed.

End ParsingFacts.

Lemma decodeMonth_month_name_witness :
  decodeMonth (month_name zero_flash 8) = 8.
Proof. apply (decodeMonth_month_name zero_flash 8). lia. Defined.

Lemma twelveHour_range_witness :
  1 <= twelveHour (mkDateTime 20 4 16 18 34 56) <= 12.
Proof. apply (twelveHour_range (mkDateTime 20 4 16 18 34 56)). simpl. lia. Defined.

(** ** timestamp *)

Lemma fmt_grid :
  zall 0 100 fmt_02d_ok && zall 0 100 fmt_year_ok && zall 0 256 fmt_length_ok
  = true.
Proof. vm_compute. reflexivity. Qed.

Lemma fmt_02d_digits (v : Z) :
  0 <= v <= 99 -> fmt_02d v = [chr "0" + v / 10; chr "0" + v mod 10].
Proof.
  intros Hv. pose proof fmt_grid as G. bools.
  match goal with H : zall 0 100 fmt_02d_ok = true |- _ =>
    apply zall_spec with (x := v) in H; [|lia];
    apply bool_decide_eq_true in H; exact H end.
Qed.

Lemma fmt_year_digits (y : Z) :
  0 <= y <= 99 ->
  fmt_u (u32 (2000 + y))
  = [chr "2"; chr "0"; chr "0" + y / 10; chr "0" + y mod 10].
Proof.
  intros Hy. pose proof fmt_grid as G. bools.
  match goal with H : zall 0 100 fmt_year_ok = true |- _ =>
    apply zall_spec with (x := y) in H; [|lia];
    apply bool_decide_eq_true in H; exact H end.
Qed.

Lemma fmt_lengths (v : Z) :
  0 <= v <= 255 ->
  (List.length (fmt_02d v) <= 3)%nat /\
  List.length (fmt_u (u32 (2000 + v))) = 4%nat.
Proof.
  intros Hv. pose proof fmt_grid as G. bools.
  match goal with H : zall 0 256 fmt_length_ok = true |- _ =>
    apply zall_spec with (x := v) in H; [|lia];
    unfold fmt_length_ok in H end.
  bools. lia.
Qed.

(** X16: Whatever the fields of the DateTime, valid or not, [timestamp()]
    prints at most 24 characters: with its NUL the text fits the 25
    bytes of [buffer]. *)
Theorem timestamp_fits_buffer (opt : timestampOpt) (dt : DateTime) :
  uint8_fields dt -> (List.length (timestamp opt dt) + 1 <= 25)%nat.
Proof.
  intros (Hy & Hm & Hd & Hh & Hmi & Hs).
  destruct (fmt_lengths _ Hy) as [_ Ly]. destruct (fmt_lengths _ Hm) as [Lm _].
  destruct (fmt_lengths _ Hd) as [Ld _]. destruct (fmt_lengths _ Hh) as [Lh _].
  destruct (fmt_lengths _ Hmi) as [Lmi _]. destruct (fmt_lengths _ Hs) as [Ls _].
  destruct opt; unfold timestamp; rewrite !length_app; cbn [chars List.length];
    lia.
Qed.

Lemma strlen_nonzero (s : list Z) :
  Forall (fun c => c <> 0) s -> strlen s = Z.of_nat (List.length s).
Proof.
  induction 1 as [|c s Hc Hs IH]; [reflexivity|].
  cbn [strlen List.length]. destruct (Z.eqb_spec c 0); [contradiction|]. lia.
Qed.

(** X17: The full timestamp of a DateTime whose fields are all below 100,
    valid or not, is read back by the ISO-8601 constructor as the same
    DateTime. *)
Theorem iso8601_timestamp_roundtrip (dt : DateTime) :
  0 <= yOff dt <= 99 -> 0 <= m dt <= 99 -> 0 <= d dt <= 99 ->
  0 <= hh dt <= 99 -> 0 <= mm dt <= 99 -> 0 <= ss dt <= 99 ->
  DateTime_of_iso8601 (timestamp TIMESTAMP_FULL dt) = dt.
Proof.
  intros Hy Hm Hd Hh Hmi Hs. unfold timestamp.
  rewrite (fmt_year_digits _ Hy), (fmt_02d_digits _ Hm), (fmt_02d_digits _ Hd),
    (fmt_02d_digits _ Hh), (fmt_02d_digits _ Hmi), (fmt_02d_digits _ Hs).
  cbn [app chars].
  match goal with |- DateTime_of_iso8601 ?l = _ => set (iso := l) end.
  assert (strlen iso = 19) as Hlen.
  { rewrite strlen_nonzero; [reflexivity|]. subst iso.
    change (chr "0") with 48. change (chr "2") with 50.
    change (chr "-") with 45. change (chr "T") with 84. change (chr ":") with 58.
    repeat constructor; Z.div_mod_to_equations; lia. }
  unfold DateTime_of_iso8601. rewrite iso8601_ref_overlay. rewrite Hlen.
  change (Z.to_nat (Z.min 19 19)) with 19%nat. subst iso.
  cbn [take drop app skipn firstn cstr chars].
  rewrite !conv2d_digits by (Z.div_mod_to_equations; lia).
  destruct dt as [y1 m1 d1 h1 i1 s1]. cbn [yOff m d hh mm ss] in *.
  f_equal; Z.div_mod_to_equations; lia.
Qed.

Lemma timestamp_fits_buffer_witness :
  (List.length (timestamp TIMESTAMP_FULL (mkDateTime 255 255 255 255 255 255)) + 1
   <= 25)%nat.
Proof.
  apply (timestamp_fits_buffer TIMESTAMP_FULL (mkDateTime 255 255 255 255 255 255)).
  unfold uint8_fields; simpl; lia.
Defined.

Lemma iso8601_timestamp_roundtrip_witness :
  DateTime_of_iso8601 (timestamp TIMESTAMP_FULL (mkDateTime 21 2 30 7 5 9))
  = mkDateTime 21 2 30 7 5 9.
Proof.
  apply (iso8601_timestamp_roundtrip (mkDateTime 21 2 30 7 5 9)); simpl; lia.
Defined.

Lemma unixtime_DateTime_of_uint32_witness :
  unixtime zero_flash (DateTime_of_uint32 zero_flash 1587062096) = 1587062096.
Proof.
  apply (unixtime_DateTime_of_uint32 zero_flash 1587062096).
  split; [vm_compute; discriminate | vm_compute; reflexivity].
Defined.

Lemma isValid_DateTime_of_uint32_witness :
  isValid zero_flash (DateTime_of_uint32 zero_flash 0) = false.
Proof.
  apply (isValid_DateTime_of_uint32 zero_flash 0). vm_compute.
  split; [discriminate|reflexivity].
Defined.

Lemma DateTime_lt_unixtime_witness :
  unixtime zero_flash (mkDateTime 20 2 29 23 59 59) <
  unixtime zero_flash (mkDateTime 20 3 1 0 0 0).
Proof.
  apply (DateTime_lt_unixtime zero_flash (mkDateTime 20 2 29 23 59 59)
           (mkDateTime 20 3 1 0 0 0)); reflexivity.
Defined.

Lemma DateTime_equal_unixtime_witness :
  DateTime_equal (mkDateTime 20 2 29 23 59 59) (mkDateTime 20 2 29 23 59 59)
  = true.
Proof.
  apply (DateTime_equal_unixtime zero_flash (mkDateTime 20 2 29 23 59 59)
           (mkDateTime 20 2 29 23 59 59)); reflexivity.
Defined.

Lemma DateTime_lt_trichotomy_witness :
  DateTime_lt (mkDateTime 21 2 30 0 0 0) (mkDateTime 21 3 1 0 0 0) = true.
Proof.
  destruct (DateTime_lt_trichotomy (mkDateTime 21 2 30 0 0 0)
              (mkDateTime 21 3 1 0 0 0)) as [H|[H|H]].
  - unfold uint8_fields; simpl; lia.
  - unfold uint8_fields; simpl; lia.
  - apply H.
  - destruct H as (_ & H & _). discriminate H.
  - destruct H as (_ & _ & H). discriminate H.
Defined.

Lemma DateTime_add_unixtime_witness :
  unixtime zero_flash
    (DateTime_add zero_flash (mkDateTime 20 2 28 23 59 59)
                  (TimeSpan_of_seconds 1))
  = unixtime zero_flash (mkDateTime 20 2 28 23 59 59)
    + totalseconds (TimeSpan_of_seconds 1).
Proof.
  apply (DateTime_add_unixtime zero_flash (mkDateTime 20 2 28 23 59 59)
           (TimeSpan_of_seconds 1)).
  - reflexivity.
  - vm_compute. split; [discriminate|reflexivity].
Defined.

Lemma DateTime_add_sub_witness :
  DateTime_sub zero_flash
    (DateTime_add zero_flash (mkDateTime 20 2 28 23 59 59)
                  (TimeSpan_of_seconds (-86400)))
    (TimeSpan_of_seconds (-86400))
  = mkDateTime 20 2 28 23 59 59.
Proof.
  apply (DateTime_add_sub zero_flash (mkDateTime 20 2 28 23 59 59)
           (TimeSpan_of_seconds (-86400))).
  - reflexivity.
  - vm_compute. split; [discriminate|reflexivity].
Defined.

Lemma DateTime_add_diff_witness :
  DateTime_add zero_flash (mkDateTime 0 1 1 0 0 0)
    (DateTime_diff zero_flash (mkDateTime 99 12 31 23 59 59)
                   (mkDateTime 0 1 1 0 0 0))
  = mkDateTime 99 12 31 23 59 59.
Proof.
  apply (DateTime_add_diff zero_flash (mkDateTime 0 1 1 0 0 0)
           (mkDateTime 99 12 31 23 59 59)); reflexivity.
Defined.

Lemma DateTime_diff_totalseconds_witness :
  totalseconds (DateTime_diff zero_flash (mkDateTime 99 12 31 23 59 59)
                              (mkDateTime 0 1 1 0 0 0)) < 0.
Proof.
  apply (DateTime_diff_totalseconds zero_flash (mkDateTime 99 12 31 23 59 59)
           (mkDateTime 0 1 1 0 0 0)).
  - reflexivity.
  - reflexivity.
  - vm_compute. discriminate.
  - vm_compute. discriminate.
Defined.

Lemma DateTime_add_TimeSpan_add_witness :
  DateTime_add zero_flash
    (DateTime_add zero_flash (mkDateTime 20 2 28 23 59 59)
       (TimeSpan_of_dhms 0 0 0 1))
    (TimeSpan_of_dhms 1 0 0 0)
  = DateTime_add zero_flash (mkDateTime 20 2 28 23 59 59)
      (TimeSpan_add (TimeSpan_of_dhms 0 0 0 1) (TimeSpan_of_dhms 1 0 0 0)).
Proof.
  apply (DateTime_add_TimeSpan_add zero_flash (mkDateTime 20 2 28 23 59 59)
           (TimeSpan_of_dhms 0 0 0 1) (TimeSpan_of_dhms 1 0 0 0)).
  - reflexivity.
  - vm_compute. split; [discriminate|reflexivity].
  - vm_compute. split; [discriminate|reflexivity].
Defined.

Lemma dayOfTheWeek_next_day_witness :
  dayOfTheWeek zero_flash
    (DateTime_add zero_flash (mkDateTime 0 1 1 12 0 0) (TimeSpan_of_dhms 1 0 0 0))
  = (dayOfTheWeek zero_flash (mkDateTime 0 1 1 12 0 0) + 1) mod 7.
Proof.
  apply (dayOfTheWeek_next_day zero_flash (mkDateTime 0 1 1 12 0 0)).
  - reflexivity.
  - vm_compute. reflexivity.
Defined.

(** ** The status operations on a register-backed chip *)

Ltac run_status :=
  cbv [isRunning lostPower lowBattery resetLostPower stop readBytes bind ret
       call call_get get_model get_RTCaddr RTCmodel_eqb beginTransmission
       write endTransmission requestFrom read reg_bus RTCWireBus _model
       _RTCaddr chip_addr regs ptr tx_addr tx_buf rx_buf app fst snd
       load_bytes store_bytes Z.to_nat Pos.to_nat Pos.iter_op Nat.add].

Section RegisterStatus.

Variables (a : Z) (rg : Z -> Z) (p ta : Z) (tb rb : list Z).
Variable PCF8523_CONTROL_3 : Z.

(** What the queries compute from the register array. *)
Lemma isRunning_PCF8523 :
  fst (isRunning (wire := reg_bus) PCF8523_CONTROL_3
         (mkRTC (mkRegbus a rg p ta tb rb) PCF8523 a)) =
  negb (Z.land (u8 (rg (u8 PCF8523_CONTROL_3))) 0xE0 =? 0xE0).
Proof.
  run_status. do 2 (rewrite ?Z.eqb_refl; run_status). reflexivity.
Qed.

Lemma isRunning_M41T81 :
  fst (isRunning (wire := reg_bus) PCF8523_CONTROL_3
         (mkRTC (mkRegbus a rg p ta tb rb) M41T81 a)) =
  (Z.shiftr (Z.land (rg 1) 0x80) 7 =? 0).
Proof.
  run_status. do 2 (rewrite ?Z.eqb_refl; run_status). reflexivity.
Qed.

Lemma lostPower_PCF8523 :
  fst (lostPower (wire := reg_bus) PCF8523_CONTROL_3
         (mkRTC (mkRegbus a rg p ta tb rb) PCF8523 a)) =
  negb (Z.shiftr (Z.land (rg (u8 PCF8523_CONTROL_3)) 0x08) 3 =? 0).
Proof.
  run_status. do 2 (rewrite ?Z.eqb_refl; run_status). reflexivity.
Qed.

Lemma lostPower_M41T81 :
  fst (lostPower (wire := reg_bus) PCF8523_CONTROL_3
         (mkRTC (mkRegbus a rg p ta tb rb) M41T81 a)) =
  negb (Z.shiftr (Z.land (rg 12) 0x40) 6 =? 0).
Proof.
  run_status. do 2 (rewrite ?Z.eqb_refl; run_status). reflexivity.
Qed.

(** What [stop] and [resetLostPower] store. *)
Lemma stop_PCF8523 :
  snd (stop (wire := reg_bus) PCF8523_CONTROL_3
         (mkRTC (mkRegbus a rg p ta tb rb) PCF8523 a)) =
  mkRTC (mkRegbus a (reg_set rg (u8 PCF8523_CONTROL_3) 0xE0)
                  (u8 (u8 PCF8523_CONTROL_3 + 1)) a [] rb) PCF8523 a.
Proof. run_status. rewrite !Z.eqb_refl. reflexivity. Qed.

Lemma stop_M41T81 :
  snd (stop (wire := reg_bus) PCF8523_CONTROL_3
         (mkRTC (mkRegbus a rg p ta tb rb) M41T81 a)) =
  mkRTC (mkRegbus a (reg_set rg 1 0x80) 2 a [] rb) M41T81 a.
Proof. run_status. rewrite !Z.eqb_refl. reflexivity. Qed.

Lemma resetLostPower_PCF8523 :
  snd (resetLostPower (wire := reg_bus) PCF8523_CONTROL_3
         (mkRTC (mkRegbus a rg p ta tb rb) PCF8523 a)) =
  mkRTC (mkRegbus a (reg_set rg (u8 PCF8523_CONTROL_3) 0)
                  (u8 (u8 PCF8523_CONTROL_3 + 1)) a [] rb) PCF8523 a.
Proof. run_status. rewrite !Z.eqb_refl. reflexivity. Qed.

Lemma resetLostPower_M41T81 :
  snd (resetLostPower (wire := reg_bus) PCF8523_CONTROL_3
         (mkRTC (mkRegbus a rg p ta tb rb) M41T81 a)) =
  mkRTC (mkRegbus a (reg_set rg 12 0) 13 a [] rb) M41T81 a.
Proof. run_status. rewrite !Z.eqb_refl. reflexivity. Qed.

End RegisterStatus.

Lemma reg_set_same (rg : Z -> Z) (k v : Z) : reg_set rg k v k = v.
Proof. unfold reg_set. rewrite Z.eqb_refl. reflexivity. Qed.

(** X18: After [stop()] the chip of either model is reported as not
    running. *)
Theorem stop_isRunning (PCF8523_CONTROL_3 : Z) (b : regbus) (mdl : RTCmodel) :
  mdl <> unknown ->
  let r := mkRTC b mdl (chip_addr b) in
  fst (isRunning (wire := reg_bus) PCF8523_CONTROL_3
         (snd (stop (wire := reg_bus) PCF8523_CONTROL_3 r))) = false.
Proof.
  intros Hm r. subst r. destruct b as [a rg p ta tb rb]. cbn [chip_addr].
  destruct mdl; [contradiction| |].
  - rewrite stop_PCF8523, isRunning_PCF8523, reg_set_same. reflexivity.
  - rewrite stop_M41T81, isRunning_M41T81, reg_set_same. reflexivity.
Qed.

(** X19: After [resetLostPower()] a chip of either model reports no lost
    power. *)
Theorem resetLostPower_lostPower (PCF8523_CONTROL_3 : Z) (b : regbus)
    (mdl : RTCmodel) :
  mdl <> unknown ->
  let r := mkRTC b mdl (chip_addr b) in
  fst (lostPower (wire := reg_bus) PCF8523_CONTROL_3
         (snd (resetLostPower (wire := reg_bus) PCF8523_CONTROL_3 r))) = false.
Proof.
  intros Hm r. subst r. destruct b as [a rg p ta tb rb]. cbn [chip_addr].
  destruct mdl; [contradiction| |].
  - rewrite resetLostPower_PCF8523, lostPower_PCF8523, reg_set_same. reflexivity.
  - rewrite resetLostPower_M41T81, lostPower_M41T81, reg_set_same. reflexivity.
Qed.

Lemma stop_isRunning_witness :
  fst (isRunning (wire := reg_bus) 0x02
         (snd (stop (wire := reg_bus) 0x02
                 (mkRTC battery_flag_chip PCF8523 0x68)))) = false.
Proof.
  apply (stop_isRunning 0x02 battery_flag_chip PCF8523). discriminate.
Defined.

Lemma resetLostPower_lostPower_witness :
  fst (lostPower (wire := reg_bus) 0x02
         (snd (resetLostPower (wire := reg_bus) 0x02
                 (mkRTC battery_flag_chip M41T81 0x68)))) = false.
Proof.
  apply (resetLostPower_lostPower 0x02 battery_flag_chip M41T81). discriminate.
Defined.

(** ** The status of a chip whose time was set *)

Lemma seconds_running_grid : zall 0 60 seconds_running_ok = true.
Proof. vm_compute. reflexivity. Qed.

Lemma valid_DateTime_seconds (dt : DateTime) :
  valid_DateTime dt = true -> 0 <= ss dt <= 59.
Proof.
  unfold valid_DateTime, year, month, day, hour, minute, second.
  intros Hv. apply valid_tuple_inv in Hv. lia.
Qed.

(** X20: After [adjust(dt)] with a valid [dt], a chip of either model is
    reported as running and as not having lost power. *)
Theorem adjust_isRunning (PCF8523_CONTROL_3 : Z) (b : regbus)
    (mdl : RTCmodel) (dt : DateTime) :
  PCF8523_CONTROL_3 = 0x02 -> mdl <> unknown -> valid_DateTime dt = true ->
  let r := snd (adjust (wire := reg_bus) PCF8523_CONTROL_3 dt
                  (mkRTC b mdl (chip_addr b))) in
  fst (isRunning (wire := reg_bus) PCF8523_CONTROL_3 r) = true /\
  fst (lostPower (wire := reg_bus) PCF8523_CONTROL_3 r) = false.
Proof.
  intros -> Hm Hv r. subst r. destruct b as [a rg p ta tb rb]. cbn [chip_addr].
  destruct mdl; [contradiction| |].
  - rewrite adjust_PCF8523. change (u8 2) with 2. cbv [store_bytes].
    rewrite isRunning_PCF8523, lostPower_PCF8523. register_pointers.
    cbv [reg_set Z.eqb Pos.eqb]. split; reflexivity.
  - rewrite adjust_M41T81. cbv [store_bytes].
    rewrite isRunning_M41T81, lostPower_M41T81. register_pointers.
    cbv [reg_set Z.eqb Pos.eqb]. split; [|reflexivity].
    apply (zall_spec _ _ _ seconds_running_grid (ss dt)).
    pose proof (valid_DateTime_seconds dt Hv). lia.
Qed.

Lemma valid_zero_seconds (dt : DateTime) :
  valid_DateTime dt = true -> valid_DateTime (zero_seconds dt) = true.
Proof.
  unfold valid_DateTime, valid_tuple, zero_seconds, year, month, day, hour,
    minute, second. cbn [yOff m d hh mm ss].
  intros H. bools. repeat (apply andb_true_iff; split);
    try (apply Z.leb_le; lia); assumption.
Qed.

(** X21: [stop()] after [adjust(dt)]: on the PCF8523 the time read by
    [now()] is still [dt]; on the M41T81 the stop bit is written over
    the seconds register, and [now()] returns [dt] with the seconds
    set to zero. *)
Theorem adjust_stop_now (PCF8523_CONTROL_3 : Z) (b : regbus)
    (mdl : RTCmodel) (dt : DateTime) :
  PCF8523_CONTROL_3 = 0x02 -> mdl <> unknown -> valid_DateTime dt = true ->
  let r := mkRTC b mdl (chip_addr b) in
  fst (now (wire := reg_bus)
         (snd (stop (wire := reg_bus) PCF8523_CONTROL_3
                 (snd (adjust (wire := reg_bus) PCF8523_CONTROL_3 dt r))))) =
  match mdl with
  | M41T81 => zero_seconds dt
  | _ => dt
  end.
Proof.
  intros -> Hm Hv r. subst r. destruct b as [a rg p ta tb rb]. cbn [chip_addr].
  destruct mdl; [contradiction| |].
  - rewrite adjust_PCF8523. change (u8 2) with 2. cbv [store_bytes].
    rewrite stop_PCF8523, now_PCF8523. register_pointers.
    cbv [reg_set Z.eqb Pos.eqb].
    apply DateTime_of_fields_decoded, Hv.
  - rewrite adjust_M41T81. cbv [store_bytes].
    rewrite stop_M41T81, now_M41T81. register_pointers.
    cbv [reg_set Z.eqb Pos.eqb].
    apply (DateTime_of_fields_decoded (zero_seconds dt)), valid_zero_seconds, Hv.
Qed.

(** X22: [resetLostPower()] after [adjust(dt)] leaves the time: [now()]
    still returns [dt], on either model. *)
Theorem adjust_resetLostPower_now (PCF8523_CONTROL_3 : Z) (b : regbus)
    (mdl : RTCmodel) (dt : DateTime) :
  PCF8523_CONTROL_3 = 0x02 -> mdl <> unknown -> valid_DateTime dt = true ->
  let r := mkRTC b mdl (chip_addr b) in
  fst (now (wire := reg_bus)
         (snd (resetLostPower (wire := reg_bus) PCF8523_CONTROL_3
                 (snd (adjust (wire := reg_bus) PCF8523_CONTROL_3 dt r))))) = dt.
Proof.
  intros -> Hm Hv r. subst r. destruct b as [a rg p ta tb rb]. cbn [chip_addr].
  destruct mdl; [contradiction| |].
  - rewrite adjust_PCF8523. change (u8 2) with 2. cbv [store_bytes].
    rewrite resetLostPower_PCF8523, now_PCF8523. register_pointers.
    cbv [reg_set Z.eqb Pos.eqb].
    apply DateTime_of_fields_decoded, Hv.
  - rewrite adjust_M41T81. cbv [store_bytes].
    rewrite resetLostPower_M41T81, now_M41T81. register_pointers.
    cbv [reg_set Z.eqb Pos.eqb].
    apply DateTime_of_fields_decoded, Hv.
Qed.

Lemma adjust_isRunning_witness :
  fst (isRunning (wire := reg_bus) 0x02
         (snd (adjust (wire := reg_bus) 0x02 (mkDateTime 20 4 16 18 34 56)
                 (mkRTC battery_flag_chip M41T81 0x68)))) = true.
Proof.
  apply (adjust_isRunning 0x02 battery_flag_chip M41T81
           (mkDateTime 20 4 16 18 34 56)).
  - reflexivity.
  - discriminate.
  - reflexivity.
Defined.

Lemma adjust_stop_now_witness :
  fst (now (wire := reg_bus)
         (snd (stop (wire := reg_bus) 0x02
                 (snd (adjust (wire := reg_bus) 0x02
                         (mkDateTime 20 4 16 18 34 56)
                         (mkRTC battery_flag_chip M41T81 0x68)))))) =
  mkDateTime 20 4 16 18 34 0.
Proof.
  apply (adjust_stop_now 0x02 battery_flag_chip M41T81
           (mkDateTime 20 4 16 18 34 56)).
  - reflexivity.
  - discriminate.
  - reflexivity.
Defined.

Lemma adjust_resetLostPower_now_witness :
  fst (now (wire := reg_bus)
         (snd (resetLostPower (wire := reg_bus) 0x02
                 (snd (adjust (wire := reg_bus) 0x02
                         (mkDateTime 20 4 16 18 34 56)
                         (mkRTC battery_flag_chip PCF8523 0x68)))))) =
  mkDateTime 20 4 16 18 34 56.
Proof.
  apply (adjust_resetLostPower_now 0x02 battery_flag_chip PCF8523
           (mkDateTime 20 4 16 18 34 56)).
  - reflexivity.
  - discriminate.
  - reflexivity.
Defined.

(** ** Detection and model identification *)

(** X23: On every bus, [begin()] returns true exactly when it leaves one of
    the two models identified, and then the address in use is one of
    the two addresses probed; when it returns false the model is
    unknown and the stored address is untouched. *)
Theorem begin_identifies {B : Type} {wire : TwoWire B}
    (M41T81_ADDR PCF8523_ADDR : Z) (wireInstance : B) (r : RTC B) :
  let '(found, r') := begin M41T81_ADDR PCF8523_ADDR wireInstance r in
  found = isPCF8525 r' || isM41T81 r' /\
  (found = true ->
   _RTCaddr r' = M41T81_ADDR \/ _RTCaddr r' = PCF8523_ADDR) /\
  (found = false -> _model r' = unknown /\ _RTCaddr r' = _RTCaddr r).
Proof.
  unfold begin, readBytes, bind, ret, call, call_get, set_RTCWireBus, set_model,
    set_RTCaddr, get_RTCaddr, isPCF8525, isM41T81.
  cbn [RTCWireBus _model _RTCaddr].
  repeat match goal with
         | |- context [endTransmission ?b] =>
             destruct (endTransmission b) as [? ?]; cbn [RTCWireBus _model _RTCaddr]
         | |- context [read ?b] =>
             destruct (read b) as [? ?]; cbn [RTCWireBus _model _RTCaddr]
         | |- context [if ?c then _ else _] =>
             destruct c; cbn [RTCWireBus _model _RTCaddr]
         end;
    cbn; repeat split; auto; discriminate.
Qed.

(** ** toString on every buffer *)

Section MoreToStringFacts.

Variable stray : table -> Z -> Z.



Lemma plain_char_tests (c : Z) :
  plain_char c = true ->
  (c =? chr "h") = false /\ (c =? chr "m") = false /\ (c =? chr "s") = false /\
  (c =? chr "D") = false /\ (c =? chr "M") = false /\ (c =? chr "Y") = false /\
  (c =? chr "A") = false /\ (c =? chr "a") = false.
Proof.
  unfold plain_char. rewrite negb_true_iff, !orb_false_iff. tauto.
Qed.

End MoreToStringFacts.


(** ** What the queries and the two resets leave behind *)

(** X25: The four queries only move the register pointer: whatever the model
    and the address in use, the registers of the chip are the same
    after [isRunning()], [lostPower()], [lowBattery()] and [now()]. *)
Theorem queries_keep_registers (PCF8523_CONTROL_3 : Z) (r : RTC regbus) :
  regs (RTCWireBus (snd (isRunning (wire := reg_bus) PCF8523_CONTROL_3 r)))
  = regs (RTCWireBus r) /\
  regs (RTCWireBus (snd (lostPower (wire := reg_bus) PCF8523_CONTROL_3 r)))
  = regs (RTCWireBus r) /\
  regs (RTCWireBus (snd (lowBattery (wire := reg_bus) PCF8523_CONTROL_3 r)))
  = regs (RTCWireBus r) /\
  regs (RTCWireBus (snd (now (wire := reg_bus) r))) = regs (RTCWireBus r).
Proof.
  destruct r as [[a rg p ta tb rb] mdl a'].
  destruct (a' =? a) eqn:E; repeat split; destruct mdl;
    repeat (first [progress run_status | progress run_driver | rewrite E]);
    reflexivity.
Qed.

(** X26: [resetLostPower()] after [stop()]: the PCF8523 keeps both flags in
    Control_3, which [resetLostPower()] clears as a whole, so the
    stopped chip is reported as running again; the M41T81 keeps its
    stop bit in another register and stays stopped. *)
Theorem stop_resetLostPower_isRunning (PCF8523_CONTROL_3 : Z) (b : regbus)
    (mdl : RTCmodel) :
  let r := mkRTC b mdl (chip_addr b) in
  fst (isRunning (wire := reg_bus) PCF8523_CONTROL_3
         (snd (resetLostPower (wire := reg_bus) PCF8523_CONTROL_3
                 (snd (stop (wire := reg_bus) PCF8523_CONTROL_3 r)))))
  = isPCF8525 r.
Proof.
  intros r. subst r. destruct b as [a rg p ta tb rb]. cbn [chip_addr].
  unfold isPCF8525. cbn [_model].
  destruct mdl.
  - do 3 (run_status; rewrite ?Z.eqb_refl). reflexivity.
  - rewrite stop_PCF8523, resetLostPower_PCF8523, isRunning_PCF8523.
    rewrite reg_set_same. reflexivity.
  - rewrite stop_M41T81, resetLostPower_M41T81, isRunning_M41T81.
    reflexivity.
Qed.

(** ** toString, token by token *)

Lemma u8_small (x : Z) : 0 <= x <= 255 -> u8 x = x.
Proof. intros H. unfold u8. apply Z.mod_small. lia. Qed.

Lemma rd_app (pre l : list Z) (k : nat) :
  rd (pre ++ l) (Z.of_nat (List.length pre) + Z.of_nat k) = rd l (Z.of_nat k).
Proof.
  unfold rd. rewrite <- Nat2Z.inj_add, !Nat2Z.id.
  rewrite lookup_app_r by lia.
  replace (List.length pre + k - List.length pre)%nat with k by lia.
  reflexivity.
Qed.

Lemma rd_app0 (pre l : list Z) (c : Z) :
  rd (pre ++ c :: l) (Z.of_nat (List.length pre)) = Ok c.
Proof.
  replace (Z.of_nat (List.length pre))
    with (Z.of_nat (List.length pre) + Z.of_nat 0) by lia.
  rewrite rd_app. reflexivity.
Qed.

Lemma rd_app1 (pre l : list Z) (c0 c1 : Z) :
  rd (pre ++ c0 :: c1 :: l) (Z.of_nat (List.length pre) + 1) = Ok c1.
Proof. apply (rd_app pre (c0 :: c1 :: l) 1). Qed.

Lemma rd_app2 (pre l : list Z) (c0 c1 c2 : Z) :
  rd (pre ++ c0 :: c1 :: c2 :: l) (Z.of_nat (List.length pre) + 2) = Ok c2.
Proof. apply (rd_app pre (c0 :: c1 :: c2 :: l) 2). Qed.

Lemma rd_app3 (pre l : list Z) (c0 c1 c2 c3 : Z) :
  rd (pre ++ c0 :: c1 :: c2 :: c3 :: l) (Z.of_nat (List.length pre) + 2 + 1)
  = Ok c3.
Proof.
  replace (Z.of_nat (List.length pre) + 2 + 1)
    with (Z.of_nat (List.length pre) + Z.of_nat 3) by lia.
  rewrite rd_app. reflexivity.
Qed.

Lemma wr_app (pre l : list Z) (k : nat) (v : Z) :
  (k < List.length l)%nat ->
  wr (pre ++ l) (Z.of_nat (List.length pre) + Z.of_nat k) v
  = Ok (pre ++ <[k := u8 v]> l).
Proof.
  intros Hk. unfold wr. rewrite length_app.
  destruct (Z.ltb_spec (Z.of_nat (List.length pre) + Z.of_nat k)
              (Z.of_nat (List.length pre + List.length l))); [|lia].
  rewrite <- Nat2Z.inj_add, Nat2Z.id. rewrite insert_app_r. reflexivity.
Qed.

Lemma put2_app (pre l : list Z) (c0 c1 v0 v1 : Z) :
  put2 (pre ++ c0 :: c1 :: l) (Z.of_nat (List.length pre)) v0 v1
  = Ok (pre ++ u8 v0 :: u8 v1 :: l).
Proof.
  unfold put2.
  replace (Z.of_nat (List.length pre))
    with (Z.of_nat (List.length pre) + Z.of_nat 0) at 1 by lia.
  rewrite wr_app by (simpl; lia). cbn [result_bind].
  rewrite (wr_app pre _ 1) by (simpl; lia). reflexivity.
Qed.

Lemma put2_app2 (pre l : list Z) (c0 c1 c2 c3 v0 v1 : Z) :
  put2 (pre ++ c0 :: c1 :: c2 :: c3 :: l) (Z.of_nat (List.length pre) + 2)
       v0 v1
  = Ok (pre ++ c0 :: c1 :: u8 v0 :: u8 v1 :: l).
Proof.
  unfold put2. rewrite (wr_app pre _ 2) by (simpl; lia). cbn [result_bind].
  replace (Z.of_nat (List.length pre) + 2 + 1)
    with (Z.of_nat (List.length pre) + Z.of_nat 3) by lia.
  rewrite (wr_app pre _ 3) by (simpl; lia). reflexivity.
Qed.

Lemma put3_app (pre l : list Z) (c0 c1 c2 v0 v1 v2 : Z) :
  put3 (pre ++ c0 :: c1 :: c2 :: l) (Z.of_nat (List.length pre)) v0 v1 v2
  = Ok (pre ++ u8 v0 :: u8 v1 :: u8 v2 :: l).
Proof.
  unfold put3.
  replace (Z.of_nat (List.length pre))
    with (Z.of_nat (List.length pre) + Z.of_nat 0) at 1 by lia.
  rewrite wr_app by (simpl; lia). cbn [result_bind].
  rewrite (wr_app pre _ 1) by (simpl; lia). cbn [result_bind].
  rewrite (wr_app pre _ 2) by (simpl; lia). reflexivity.
Qed.

Lemma tok2_app (pre l : list Z) (c0 c1 a b : Z) :
  tok2 (pre ++ c0 :: c1 :: l) (Z.of_nat (List.length pre)) a b
  = Ok ((c0 =? a) && (c1 =? b)).
Proof.
  unfold tok2. rewrite rd_app0. cbn [result_bind].
  destruct (c0 =? a); [|reflexivity]. rewrite rd_app1. reflexivity.
Qed.

Lemma tok2_app2 (pre l : list Z) (c0 c1 c2 c3 a b : Z) :
  tok2 (pre ++ c0 :: c1 :: c2 :: c3 :: l) (Z.of_nat (List.length pre) + 2) a b
  = Ok ((c2 =? a) && (c3 =? b)).
Proof.
  unfold tok2. rewrite rd_app2. cbn [result_bind].
  destruct (c2 =? a); [|reflexivity]. rewrite rd_app3. reflexivity.
Qed.

Lemma tok2_app2_miss (pre l : list Z) (c0 c1 c2 a b : Z) :
  (c2 =? a) = false ->
  tok2 (pre ++ c0 :: c1 :: c2 :: l) (Z.of_nat (List.length pre) + 2) a b
  = Ok false.
Proof.
  intros H. unfold tok2. rewrite rd_app2. cbn [result_bind]. rewrite H.
  reflexivity.
Qed.

Ltac chr_nums :=
  change (chr "h") with 104 in *; change (chr "m") with 109 in *;
  change (chr "s") with 115 in *; change (chr "D") with 68 in *;
  change (chr "M") with 77 in *; change (chr "Y") with 89 in *;
  change (chr "A") with 65 in *; change (chr "P") with 80 in *;
  change (chr "a") with 97 in *; change (chr "p") with 112 in *;
  change (chr "0") with 48 in *; change (chr "2") with 50 in *.

Lemma inert_tests (c x : Z) :
  inert c x = true ->
  (c =? 104) && (x =? 104) = false /\ (c =? 109) && (x =? 109) = false /\
  (c =? 115) && (x =? 115) = false /\ (c =? 68) && (x =? 68) = false /\
  (c =? 77) && (x =? 77) = false /\ (c =? 89) && (x =? 89) = false /\
  (c =? 65) && (x =? 80) = false /\ (c =? 97) && (x =? 112) = false.
Proof.
  unfold inert. chr_nums. rewrite negb_true_iff, !orb_false_iff. tauto.
Qed.

Lemma plain_inert (c x : Z) : plain_char c = true -> inert c x = true.
Proof.
  intros H. apply plain_char_tests in H.
  destruct H as (H1 & H2 & H3 & H4 & H5 & H6 & H7 & H8).
  unfold inert. rewrite H1, H2, H3, H4, H5, H6, H7, H8. reflexivity.
Qed.

Lemma digit_plain (c : Z) : 48 <= c <= 57 -> plain_char c = true.
Proof.
  intros H. unfold plain_char. chr_nums.
  repeat match goal with
         | |- context [c =? ?k] =>
             replace (c =? k) with false by (symmetry; apply Z.eqb_neq; lia)
         end.
  reflexivity.
Qed.

Lemma digits_range (v : Z) :
  0 <= v <= 99 -> 48 <= 48 + v / 10 <= 57 /\ 48 <= 48 + v mod 10 <= 57.
Proof. intros H. Z.div_mod_to_equations. lia. Qed.

Lemma year_digits_range (y : Z) :
  48 <= 48 + (y / 10) mod 10 <= 57 /\ 48 <= 48 + y mod 10 <= 57.
Proof. Z.div_mod_to_equations. lia. Qed.

(** Runs one iteration of the scan on a buffer [pre ++ c0 :: c1 :: ...]
    at the index [length pre], the outcome of each test being among the
    hypotheses or decided by the characters. *)
Ltac step_run :=
  repeat first
    [ rewrite tok2_app
    | rewrite tok2_app2
    | rewrite tok2_app2_miss by assumption
    | rewrite rd_app2
    | rewrite put2_app
    | rewrite put2_app2
    | rewrite put3_app
    | rewrite u8_small by lia
    | match goal with H : ?t = false |- context [?t] => rewrite H end
    | progress cbn [result_bind andb digits2 Z.eqb Pos.eqb] ].

(** The eight tests of an iteration fail on an inert pair. *)
Ltac inert_facts H :=
  apply inert_tests in H;
  let H1 := fresh "T" in let H2 := fresh "T" in let H3 := fresh "T" in
  let H4 := fresh "T" in let H5 := fresh "T" in let H6 := fresh "T" in
  let H7 := fresh "T" in let H8 := fresh "T" in
  destruct H as (H1 & H2 & H3 & H4 & H5 & H6 & H7 & H8).

Lemma digits_inert (v : Z) :
  0 <= v <= 99 ->
  48 <= 48 + v / 10 <= 57 /\ 48 <= 48 + v mod 10 <= 57 /\
  inert (48 + v / 10) (48 + v mod 10) = true.
Proof.
  intros Hv. destruct (digits_range v Hv) as [R1 R0].
  repeat split; try lia. apply plain_inert, digit_plain, R1.
Qed.

Lemma year_digits_inert (y : Z) :
  48 <= 48 + (y / 10) mod 10 <= 57 /\ 48 <= 48 + y mod 10 <= 57 /\
  inert (48 + (y / 10) mod 10) (48 + y mod 10) = true.
Proof.
  destruct (year_digits_range y) as [R1 R0].
  repeat split; try lia. apply plain_inert, digit_plain, R1.
Qed.

(** One iteration at a two-digit token. *)
Ltac digit_step Hv :=
  let R1 := fresh "R" in let R0 := fresh "R" in let H := fresh "H" in
  destruct (digits_inert _ Hv) as (R1 & R0 & H); inert_facts H;
  unfold toString_step, digits2, two_digits; cbn [chars app]; chr_nums;
  step_run; reflexivity.

Lemma name_inert_facts (stray : table -> Z -> Z) (t : table) (k : Z) :
  name_inert_ok stray t k = true ->
  let n0 := pgm_read_byte stray t (3 * k) in
  let n1 := pgm_read_byte stray t (3 * k + 1) in
  let n2 := pgm_read_byte stray t (3 * k + 2) in
  (1 <= n0 <= 255 /\ 1 <= n1 <= 255 /\ 1 <= n2 <= 255) /\
  inert n0 n1 = true /\ inert n1 n2 = true /\ plain_char n2 = true.
Proof.
  unfold name_inert_ok. cbv zeta. intros H.
  repeat (apply andb_true_iff in H; destruct H as [H ?]).
  bools. repeat split; try assumption; lia.
Qed.

Section TokenSteps.

Variable stray : table -> Z -> Z.
Variables (dt : DateTime) (hourReformatted : Z) (isPM : bool).

Lemma step_inert (pre l : list Z) (c x : Z) :
  inert c x = true ->
  toString_step stray dt hourReformatted isPM (Z.of_nat (List.length pre))
    (pre ++ c :: x :: l)
  = Ok (pre ++ c :: x :: l).
Proof.
  intros H. apply inert_tests in H.
  destruct H as (H1 & H2 & H3 & H4 & H5 & H6 & H7 & H8).
  unfold toString_step. chr_nums. step_run. reflexivity.
Qed.

Lemma step_Thh (pre l : list Z) :
  0 <= hourReformatted <= 99 ->
  toString_step stray dt hourReformatted isPM (Z.of_nat (List.length pre))
    (pre ++ chars "hh" ++ l)
  = Ok (pre ++ two_digits hourReformatted ++ l).
Proof. intros Hv. digit_step Hv. Qed.

Lemma step_Tmm (pre l : list Z) :
  0 <= mm dt <= 99 ->
  toString_step stray dt hourReformatted isPM (Z.of_nat (List.length pre))
    (pre ++ chars "mm" ++ l)
  = Ok (pre ++ two_digits (mm dt) ++ l).
Proof. intros Hv. digit_step Hv. Qed.

Lemma step_Tss (pre l : list Z) :
  0 <= ss dt <= 99 ->
  toString_step stray dt hourReformatted isPM (Z.of_nat (List.length pre))
    (pre ++ chars "ss" ++ l)
  = Ok (pre ++ two_digits (ss dt) ++ l).
Proof. intros Hv. digit_step Hv. Qed.

Lemma step_TDD (pre l : list Z) (c2 : Z) :
  0 <= d dt <= 99 -> (c2 =? chr "D") = false ->
  toString_step stray dt hourReformatted isPM (Z.of_nat (List.length pre))
    (pre ++ chars "DD" ++ c2 :: l)
  = Ok (pre ++ two_digits (d dt) ++ c2 :: l).
Proof. intros Hv Hc. digit_step Hv. Qed.

Lemma step_TMM (pre l : list Z) (c2 : Z) :
  0 <= m dt <= 99 -> (c2 =? chr "M") = false ->
  toString_step stray dt hourReformatted isPM (Z.of_nat (List.length pre))
    (pre ++ chars "MM" ++ c2 :: l)
  = Ok (pre ++ two_digits (m dt) ++ c2 :: l).
Proof. intros Hv Hc. digit_step Hv. Qed.

Lemma step_TYY (pre l : list Z) (c2 : Z) :
  (c2 =? chr "Y") = false ->
  toString_step stray dt hourReformatted isPM (Z.of_nat (List.length pre))
    (pre ++ chars "YY" ++ c2 :: l)
  = Ok (pre ++ year_digits (yOff dt) ++ c2 :: l).
Proof.
  intros Hc. destruct (year_digits_inert (yOff dt)) as (R1 & R0 & H).
  inert_facts H.
  unfold toString_step, digits2, year_digits. cbn [chars app]. chr_nums.
  step_run. reflexivity.
Qed.

Lemma step_TYYYY (pre l : list Z) :
  toString_step stray dt hourReformatted isPM (Z.of_nat (List.length pre))
    (pre ++ chars "YYYY" ++ l)
  = Ok (pre ++ (chars "20" ++ year_digits (yOff dt)) ++ l).
Proof.
  destruct (year_digits_inert (yOff dt)) as (R1 & R0 & H).
  unfold toString_step, digits2, year_digits. cbn [chars app]. chr_nums.
  step_run. change (u8 50) with 50. change (u8 48) with 48.
  step_run. reflexivity.
Qed.

Lemma step_TDDD (pre l : list Z) :
  name_inert_ok stray DayNamesTab (dayOfTheWeek stray dt) = true ->
  toString_step stray dt hourReformatted isPM (Z.of_nat (List.length pre))
    (pre ++ chars "DDD" ++ l)
  = Ok (pre ++ name3 stray DayNamesTab (3 * dayOfTheWeek stray dt) ++ l).
Proof.
  intros H. apply name_inert_facts in H. cbv zeta in H.
  destruct H as ((R0 & R1 & R2) & H & _ & _). inert_facts H.
  unfold toString_step, digits2, name3. cbn [chars app]. chr_nums.
  step_run. reflexivity.
Qed.

Lemma step_TMMM (pre l : list Z) :
  name_inert_ok stray MonthNamesTab (m dt - 1) = true ->
  toString_step stray dt hourReformatted isPM (Z.of_nat (List.length pre))
    (pre ++ chars "MMM" ++ l)
  = Ok (pre ++ name3 stray MonthNamesTab (3 * (m dt - 1)) ++ l).
Proof.
  intros H. apply name_inert_facts in H. cbv zeta in H.
  destruct H as ((R0 & R1 & R2) & H & _ & _). inert_facts H.
  unfold toString_step, digits2, name3. cbn [chars app]. chr_nums.
  step_run. reflexivity.
Qed.

Lemma step_TAP (pre l : list Z) :
  toString_step stray dt hourReformatted isPM (Z.of_nat (List.length pre))
    (pre ++ chars "AP" ++ l)
  = Ok (pre ++ (if isPM then chars "PM" else chars "AM") ++ l).
Proof.
  unfold toString_step, digits2. cbn [chars app]. chr_nums.
  step_run. destruct isPM; step_run; reflexivity.
Qed.

Lemma step_Tap (pre l : list Z) :
  toString_step stray dt hourReformatted isPM (Z.of_nat (List.length pre))
    (pre ++ chars "ap" ++ l)
  = Ok (pre ++ (if isPM then chars "pm" else chars "am") ++ l).
Proof.
  unfold toString_step, digits2. cbn [chars app]. chr_nums.
  step_run. destruct isPM; step_run; reflexivity.
Qed.

End TokenSteps.

Lemma text_app (s1 s2 : list Z) : text (s1 ++ s2) <-> text s1 /\ text s2.
Proof. unfold text. rewrite Forall_app. reflexivity. Qed.

Lemma text_cons (c : Z) (s : list Z) :
  text (c :: s) <-> 1 <= c <= 255 /\ text s.
Proof. unfold text. rewrite Forall_cons. reflexivity. Qed.

Lemma text_nil : text [].
Proof. apply List.Forall_nil. Qed.

Section ScanLoop.

Variable stray : table -> Z -> Z.
Variables (dt : DateTime) (hourReformatted : Z) (isPM : bool).

Lemma loop_iter (s buffer b' : list Z) (i : Z) (fuel : nat) :
  buffer = s ++ [0] -> text s ->
  0 <= i < Z.of_nat (List.length s) - 1 ->
  Z.of_nat (List.length s) < 4294967296 ->
  toString_step stray dt hourReformatted isPM i buffer = Ok b' ->
  toString_loop stray (S fuel) dt hourReformatted isPM i buffer
  = toString_loop stray fuel dt hourReformatted isPM (i + 1) b'.
Proof.
  intros -> Hs Hi Hn Hstep. cbn [toString_loop].
  rewrite (strlen_checked_terminated _ _ (terminated_cstring s Hs)).
  cbn [result_bind].
  assert (u32 (Z.of_nat (List.length s) - 1) = Z.of_nat (List.length s) - 1)
    as -> by (unfold u32; apply Z.mod_small; lia).
  destruct (Z.ltb_spec i (Z.of_nat (List.length s) - 1)); [|lia].
  rewrite Hstep. cbn [result_bind].
  assert (u32 (i + 1) = i + 1) as -> by (unfold u32; apply Z.mod_small; lia).
  reflexivity.
Qed.

Lemma loop_done (s buffer : list Z) (i : Z) (fuel : nat) :
  buffer = s ++ [0] -> text s -> s <> [] ->
  Z.of_nat (List.length s) - 1 <= i ->
  Z.of_nat (List.length s) < 4294967296 ->
  toString_loop stray (S fuel) dt hourReformatted isPM i buffer = Ok buffer.
Proof.
  intros -> Hs Hne Hi Hn. cbn [toString_loop].
  rewrite (strlen_checked_terminated _ _ (terminated_cstring s Hs)).
  cbn [result_bind].
  assert (1 <= List.length s)%nat by (destruct s; [contradiction|simpl; lia]).
  assert (u32 (Z.of_nat (List.length s) - 1) = Z.of_nat (List.length s) - 1)
    as -> by (unfold u32; apply Z.mod_small; lia).
  destruct (Z.ltb_spec i (Z.of_nat (List.length s) - 1)); [lia|reflexivity].
Qed.

Lemma next_of (ws rest : list Z) (x0 : Z) :
  ws ++ rest <> [] ->
  exists l, ws ++ rest ++ [0] = hd (hd 0 rest) ws :: l.
Proof.
  intros H. destruct ws as [|w ws]; [|eexists; reflexivity].
  destruct rest as [|r rest]; [contradiction|eexists; reflexivity].
Qed.

Lemma loop_skip (ws : list Z) : forall (pre rest : list Z) (fuel : nat),
  text (pre ++ ws ++ rest) -> pre ++ ws ++ rest <> [] ->
  Z.of_nat (List.length (pre ++ ws ++ rest)) < 4294967296 ->
  inert_run ws (hd 0 rest) = true ->
  toString_loop stray (List.length ws + S fuel) dt hourReformatted isPM
    (Z.of_nat (List.length pre)) (pre ++ ws ++ rest ++ [0])
  = toString_loop stray (S fuel) dt hourReformatted isPM
      (Z.of_nat (List.length (pre ++ ws))) ((pre ++ ws) ++ rest ++ [0]).
Proof.
  induction ws as [|c ws IH]; intros pre rest fuel Ht Hne Hn Hr.
  - cbn [List.length Nat.add app]. rewrite app_nil_r. reflexivity.
  - cbn [inert_run] in Hr. apply andb_true_iff in Hr as [Hc Hr].
    cbn [List.length Nat.add].
    assert (pre ++ (c :: ws) ++ rest = (pre ++ [c]) ++ ws ++ rest) as E
      by (rewrite <- app_assoc; reflexivity).
    assert (Z.of_nat (List.length (pre ++ [c]))
            = Z.of_nat (List.length pre) + 1) as El
      by (rewrite length_app; simpl; lia).
    assert (pre ++ (c :: ws) ++ rest ++ [0]
            = (pre ++ (c :: ws) ++ rest) ++ [0]) as Eb
      by (rewrite <- !app_assoc; reflexivity).
    assert (Z.of_nat (List.length (pre ++ (c :: ws) ++ rest))
            = Z.of_nat (List.length pre) + 1
              + Z.of_nat (List.length (ws ++ rest))) as En
      by (rewrite !length_app; simpl; rewrite ?length_app; lia).
    assert (ws ++ rest = [] \/ ws ++ rest <> []) as [Hnil|Hcons]
      by (destruct (ws ++ rest); [left; reflexivity|right; discriminate]).
    + apply app_eq_nil in Hnil as [-> ->].
      cbn [List.length Nat.add].
      replace (pre ++ [c] ++ [] ++ [0]) with ((pre ++ [c]) ++ [0])
        by (rewrite <- app_assoc; reflexivity).
      replace ((pre ++ [c]) ++ [] ++ [0]) with ((pre ++ [c]) ++ [0])
        by reflexivity.
      assert (text (pre ++ [c])) as Ht' by (rewrite app_nil_r in Ht; exact Ht).
      assert (pre ++ [c] <> []) as Hne'
        by (intros H; apply app_eq_nil in H as [_ H]; discriminate).
      assert (Z.of_nat (List.length (pre ++ [c])) < 4294967296) as Hn'
        by (rewrite app_nil_r in Hn; exact Hn).
      rewrite (loop_done (pre ++ [c]) _ (Z.of_nat (List.length pre)) _
                 eq_refl Ht' Hne') by lia.
      rewrite (loop_done (pre ++ [c]) _ (Z.of_nat (List.length (pre ++ [c]))) _
                 eq_refl Ht' Hne') by lia.
      reflexivity.
    + destruct (next_of ws rest 0 Hcons) as [l Hl].
      rewrite (loop_iter (pre ++ (c :: ws) ++ rest) _
                 (pre ++ (c :: ws) ++ rest ++ [0])); try assumption.
      * rewrite <- El.
        replace (pre ++ (c :: ws) ++ rest ++ [0])
          with ((pre ++ [c]) ++ ws ++ rest ++ [0])
          by (rewrite <- app_assoc; reflexivity).
        rewrite IH.
        -- replace ((pre ++ [c]) ++ ws) with (pre ++ c :: ws)
             by (rewrite <- app_assoc; reflexivity).
           reflexivity.
        -- rewrite <- E. exact Ht.
        -- rewrite <- E. exact Hne.
        -- rewrite <- E. exact Hn.
        -- exact Hr.
      * assert (0 < Z.of_nat (List.length (ws ++ rest))).
        { destruct (ws ++ rest); [contradiction|simpl; lia]. }
        lia.
      * cbn [app]. rewrite Hl. apply step_inert, Hc.
Qed.

Lemma loop_token (pat out pre rest : list Z) (fuel : nat) :
  toString_step stray dt hourReformatted isPM (Z.of_nat (List.length pre))
    (pre ++ pat ++ rest ++ [0])
  = Ok (pre ++ out ++ rest ++ [0]) ->
  (2 <= List.length pat)%nat -> List.length out = List.length pat ->
  text (pre ++ pat ++ rest) -> text out ->
  Z.of_nat (List.length (pre ++ pat ++ rest)) < 4294967296 ->
  inert_run (tl out) (hd 0 rest) = true ->
  toString_loop stray (List.length out + S fuel) dt hourReformatted isPM
    (Z.of_nat (List.length pre)) (pre ++ pat ++ rest ++ [0])
  = toString_loop stray (S fuel) dt hourReformatted isPM
      (Z.of_nat (List.length (pre ++ out))) ((pre ++ out) ++ rest ++ [0]).
Proof.
  intros Hstep Hp Hl Ht Ho Hn Hr.
  destruct out as [|o out]; [simpl in Hl; lia|].
  cbn [tl] in Hr. cbn [List.length Nat.add].
  apply text_app in Ht as [Hpre Ht]. apply text_app in Ht as [Hpat Hrest].
  apply text_cons in Ho as [Ho1 Ho].
  assert (List.length (pre ++ pat ++ rest)
          = List.length ((pre ++ [o]) ++ out ++ rest)) as En.
  { rewrite !length_app. simpl in *. lia. }
  rewrite (loop_iter (pre ++ pat ++ rest) _ (pre ++ (o :: out) ++ rest ++ [0])).
  - replace (Z.of_nat (List.length pre) + 1)
      with (Z.of_nat (List.length (pre ++ [o])))
      by (rewrite length_app; simpl; lia).
    replace (pre ++ (o :: out) ++ rest ++ [0])
      with ((pre ++ [o]) ++ out ++ rest ++ [0])
      by (rewrite <- app_assoc; reflexivity).
    rewrite loop_skip.
    + replace ((pre ++ [o]) ++ out) with (pre ++ o :: out)
        by (rewrite <- app_assoc; reflexivity).
      reflexivity.
    + apply text_app. split.
      * apply text_app. split; [exact Hpre|].
        apply text_cons. split; [exact Ho1|apply text_nil].
      * apply text_app. split; assumption.
    + intros H. apply app_eq_nil in H as [H _].
      apply app_eq_nil in H as [_ H]. discriminate.
    + rewrite <- En. exact Hn.
    + exact Hr.
  - rewrite <- !app_assoc. reflexivity.
  - apply text_app. split; [exact Hpre|]. apply text_app. split; assumption.
  - rewrite !length_app. lia.
  - exact Hn.
  - exact Hstep.
Qed.

End ScanLoop.

Lemma name_inert_grid (stray : table -> Z -> Z) :
  zall 0 7 (name_inert_ok stray DayNamesTab)
  && zall 0 12 (name_inert_ok stray MonthNamesTab) = true.
Proof. vm_compute. reflexivity. Qed.

Lemma dayOfTheWeek_range (stray : table -> Z -> Z) (dt : DateTime) :
  0 <= dayOfTheWeek stray dt < 7.
Proof.
  unfold dayOfTheWeek.
  pose proof (Z.mod_pos_bound
                (date2days stray (yOff dt) (m dt) (d dt) + 6) 7 ltac:(lia)).
  rewrite u8_small by lia. lia.
Qed.

Lemma day_name_inert (stray : table -> Z -> Z) (dt : DateTime) :
  name_inert_ok stray DayNamesTab (dayOfTheWeek stray dt) = true.
Proof.
  pose proof (name_inert_grid stray) as G. apply andb_true_iff in G as [G _].
  apply zall_spec with (x := dayOfTheWeek stray dt) in G; [exact G|].
  pose proof (dayOfTheWeek_range stray dt). lia.
Qed.

Lemma month_name_inert (stray : table -> Z -> Z) (k : Z) :
  1 <= k <= 12 -> name_inert_ok stray MonthNamesTab (k - 1) = true.
Proof.
  intros Hk.
  pose proof (name_inert_grid stray) as G. apply andb_true_iff in G as [_ G].
  apply zall_spec with (x := k - 1) in G; [exact G|lia].
Qed.

Lemma two_digits_text (v x : Z) :
  0 <= v <= 99 ->
  text (two_digits v) /\ inert_run (tl (two_digits v)) x = true.
Proof.
  intros Hv. destruct (digits_range v Hv) as [R1 R0].
  unfold two_digits. chr_nums. split.
  - apply text_cons. split; [lia|]. apply text_cons. split; [lia|apply text_nil].
  - cbn [tl inert_run hd]. rewrite (plain_inert _ _ (digit_plain _ R0)).
    reflexivity.
Qed.

Lemma year_digits_text (y x : Z) :
  text (year_digits y) /\ inert_run (tl (year_digits y)) x = true /\
  inert_run (tl (chars "20" ++ year_digits y)) x = true.
Proof.
  destruct (year_digits_range y) as [R1 R0].
  unfold year_digits. chr_nums. split; [|split].
  - apply text_cons. split; [lia|]. apply text_cons. split; [lia|apply text_nil].
  - cbn [tl inert_run hd]. rewrite (plain_inert _ _ (digit_plain _ R0)).
    reflexivity.
  - cbn [tl inert_run hd chars app].
    rewrite (plain_inert _ _ (digit_plain _ R0)).
    rewrite (plain_inert _ _ (digit_plain _ R1)).
    reflexivity.
Qed.

Lemma name3_text (stray : table -> Z -> Z) (t : table) (k x : Z) :
  name_inert_ok stray t k = true ->
  text (name3 stray t (3 * k)) /\
  inert_run (tl (name3 stray t (3 * k))) x = true.
Proof.
  intros H. apply name_inert_facts in H. cbv zeta in H.
  destruct H as ((R0 & R1 & R2) & _ & H12 & H2). unfold name3. split.
  - repeat (apply text_cons; split; [assumption|]). apply text_nil.
  - cbn [tl inert_run hd]. rewrite H12, (plain_inert _ _ H2). reflexivity.
Qed.

Lemma hour12_range (h : Z) (ap : bool) :
  0 <= h <= 99 -> 0 <= (if ap then hour12 h else h) <= 99.
Proof.
  intros Hh. destruct ap; [|exact Hh]. unfold hour12.
  destruct (Z.eqb_spec h 0); [lia|]. destruct (Z.ltb_spec 12 h); lia.
Qed.

Lemma head_terminator (rest : list Z) :
  rest ++ [0] = hd 0 rest :: tl (rest ++ [0]).
Proof. destruct rest; reflexivity. Qed.

Lemma render_item_text (t : item) :
  match t with
  | Lit c => 1 <= c <= 255
  | _ => True
  end -> text (render_item t).
Proof.
  destruct t; intros H; cbn [render_item chars]; chr_nums;
    repeat (apply text_cons; split; [lia|]); apply text_nil.
Qed.

Lemma well_separated_lit (c : Z) (r : list item) :
  well_separated (Lit c :: r) = true ->
  1 <= c <= 255 /\ plain_char c = true /\ well_separated r = true.
Proof.
  cbn [well_separated]. intros H.
  repeat (apply andb_true_iff in H; destruct H as [H ?]). bools. tauto.
Qed.

Lemma well_separated_tail (t : item) (r : list item) :
  well_separated (t :: r) = true -> well_separated r = true.
Proof.
  cbn [well_separated]. intros H. apply andb_true_iff in H. tauto.
Qed.

Lemma render_text (ts : list item) :
  well_separated ts = true -> text (render ts).
Proof.
  induction ts as [|t r IH]; intros H; [apply text_nil|].
  cbn [render flat_map]. apply text_app. split.
  - apply render_item_text. destruct t; try exact I.
    apply well_separated_lit in H. tauto.
  - apply IH. eapply well_separated_tail, H.
Qed.

Section Items.

Variable stray : table -> Z -> Z.
Variables (dt : DateTime) (ap : bool).
Hypothesis fields : two_digit_fields dt.

Lemma token_case (pat out pre : list Z) (r : list item) (fuel : nat) :
  toString_step stray dt (if ap then hour12 (hh dt) else hh dt)
    (ap && (12 <=? hh dt)) (Z.of_nat (List.length pre))
    (pre ++ pat ++ render r ++ [0])
  = Ok (pre ++ out ++ render r ++ [0]) ->
  (2 <= List.length pat)%nat -> List.length out = List.length pat ->
  text pat -> text out /\ inert_run (tl out) (next_char r) = true ->
  well_separated r = true -> text pre ->
  Z.of_nat (List.length (pre ++ pat ++ render r)) < 4294967296 ->
  toString_loop stray (List.length out + S fuel) dt
    (if ap then hour12 (hh dt) else hh dt) (ap && (12 <=? hh dt))
    (Z.of_nat (List.length pre)) (pre ++ pat ++ render r ++ [0])
  = toString_loop stray (S fuel) dt
      (if ap then hour12 (hh dt) else hh dt) (ap && (12 <=? hh dt))
      (Z.of_nat (List.length (pre ++ out))) ((pre ++ out) ++ render r ++ [0])
  /\ text out /\ List.length out = List.length pat.
Proof.
  intros Hstep Hp Hl Hpat [Hout Hrun] Hr Hpre Hn.
  split; [|split; assumption].
  apply loop_token; try assumption.
  apply text_app. split; [exact Hpre|]. apply text_app. split; [exact Hpat|].
  apply render_text, Hr.
Qed.

Lemma item_advance (t : item) (r : list item) (pre : list Z) (fuel : nat) :
  (is_ampm t = true -> ap = true) ->
  well_separated (t :: r) = true -> text pre ->
  Z.of_nat (List.length (pre ++ render_item t ++ render r)) < 4294967296 ->
  toString_loop stray (List.length (expand_item stray dt ap t) + S fuel) dt
    (if ap then hour12 (hh dt) else hh dt) (ap && (12 <=? hh dt))
    (Z.of_nat (List.length pre)) (pre ++ render_item t ++ render r ++ [0])
  = toString_loop stray (S fuel) dt
      (if ap then hour12 (hh dt) else hh dt) (ap && (12 <=? hh dt))
      (Z.of_nat (List.length (pre ++ expand_item stray dt ap t)))
      ((pre ++ expand_item stray dt ap t) ++ render r ++ [0])
  /\ text (expand_item stray dt ap t)
  /\ List.length (expand_item stray dt ap t) = List.length (render_item t).
Proof.
  intros Hap Hw Hpre Hn.
  destruct fields as (Fy & Fm & Fd & Fh & Fmi & Fs).
  pose proof (well_separated_tail _ _ Hw) as Hr.
  pose proof (hour12_range (hh dt) ap Fh) as Fhr.
  destruct t; cbn [expand_item render_item] in *.
  - (* a single character *)
    apply well_separated_lit in Hw as (Hc & Hpl & _).
    assert (text [c]) as Hc1
      by (apply text_cons; split; [exact Hc|apply text_nil]).
    split; [|split; [exact Hc1|reflexivity]].
    apply loop_skip.
    + apply text_app. split; [exact Hpre|]. apply text_app.
      split; [exact Hc1|apply render_text, Hr].
    + intros H. apply app_eq_nil in H as [_ H]. discriminate.
    + exact Hn.
    + cbn [inert_run hd]. rewrite (plain_inert _ _ Hpl). reflexivity.
  - apply token_case; try assumption; try reflexivity; try (simpl; lia).
    + apply step_Thh, Fhr.
    + apply (render_item_text Thh I).
    + apply two_digits_text, Fhr.
  - apply token_case; try assumption; try reflexivity; try (simpl; lia).
    + apply step_Tmm, Fmi.
    + apply (render_item_text Tmm I).
    + apply two_digits_text, Fmi.
  - apply token_case; try assumption; try reflexivity; try (simpl; lia).
    + apply step_Tss, Fs.
    + apply (render_item_text Tss I).
    + apply two_digits_text, Fs.
  - apply token_case; try assumption; try reflexivity; try (simpl; lia).
    + rewrite (head_terminator (render r)). apply step_TDD; [exact Fd|].
      cbn [well_separated] in Hw. apply andb_true_iff in Hw as [Hw _].
      apply negb_true_iff in Hw. exact Hw.
    + apply (render_item_text TDD I).
    + apply two_digits_text, Fd.
  - apply token_case; try assumption; try reflexivity; try (simpl; lia).
    + apply step_TDDD, day_name_inert.
    + apply (render_item_text TDDD I).
    + apply name3_text, day_name_inert.
  - apply token_case; try assumption; try reflexivity; try (simpl; lia).
    + rewrite (head_terminator (render r)). apply step_TMM; [lia|].
      cbn [well_separated] in Hw. apply andb_true_iff in Hw as [Hw _].
      apply negb_true_iff in Hw. exact Hw.
    + apply (render_item_text TMM I).
    + apply two_digits_text. lia.
  - apply token_case; try assumption; try reflexivity; try (simpl; lia).
    + apply step_TMMM, month_name_inert, Fm.
    + apply (render_item_text TMMM I).
    + apply name3_text, month_name_inert, Fm.
  - apply token_case; try assumption; try reflexivity; try (simpl; lia).
    + rewrite (head_terminator (render r)). apply step_TYY.
      cbn [well_separated] in Hw. apply andb_true_iff in Hw as [Hw _].
      apply negb_true_iff in Hw. exact Hw.
    + apply (render_item_text TYY I).
    + destruct (year_digits_text (yOff dt) (next_char r)) as (H1 & H2 & _).
      split; assumption.
  - apply token_case; try assumption; try reflexivity; try (simpl; lia).
    + apply step_TYYYY.
    + apply (render_item_text TYYYY I).
    + destruct (year_digits_text (yOff dt) (next_char r)) as (H1 & _ & H2).
      split; [|exact H2].
      apply text_app. split; [|exact H1]. cbn [chars]. chr_nums.
      repeat (apply text_cons; split; [lia|]). apply text_nil.
  - pose proof (Hap eq_refl) as Eap.
    cbn [well_separated] in Hw. apply andb_true_iff in Hw as [Hw _].
    apply negb_true_iff in Hw.
    apply token_case; try assumption; try reflexivity; try (simpl; lia).
    + rewrite Eap. cbn [andb].
      apply (step_TAP stray dt (hour12 (hh dt)) (12 <=? hh dt)).
    + destruct (12 <=? hh dt); reflexivity.
    + apply (render_item_text TAP I).
    + split.
      * destruct (12 <=? hh dt); cbn [chars]; chr_nums;
          repeat (apply text_cons; split; [lia|]); apply text_nil.
      * assert (inert (chr "M") (next_char r) = true) as Hi.
        { unfold inert. chr_nums. rewrite Hw.
          cbn [Z.eqb Pos.eqb andb orb negb]. rewrite ?andb_false_r.
          reflexivity. }
        destruct (12 <=? hh dt); cbn [chars tl inert_run hd]; rewrite Hi;
          reflexivity.
  - pose proof (Hap eq_refl) as Eap.
    cbn [well_separated] in Hw. apply andb_true_iff in Hw as [Hw _].
    apply negb_true_iff in Hw.
    apply token_case; try assumption; try reflexivity; try (simpl; lia).
    + rewrite Eap. cbn [andb].
      apply (step_Tap stray dt (hour12 (hh dt)) (12 <=? hh dt)).
    + destruct (12 <=? hh dt); reflexivity.
    + apply (render_item_text Tap I).
    + split.
      * destruct (12 <=? hh dt); cbn [chars]; chr_nums;
          repeat (apply text_cons; split; [lia|]); apply text_nil.
      * assert (inert (chr "m") (next_char r) = true) as Hi.
        { unfold inert. chr_nums. rewrite Hw.
          cbn [Z.eqb Pos.eqb andb orb negb]. rewrite ?andb_false_r.
          reflexivity. }
        destruct (12 <=? hh dt); cbn [chars tl inert_run hd]; rewrite Hi;
          reflexivity.
Qed.

End Items.

Section WholeTemplate.

Variable stray : table -> Z -> Z.

Lemma loop_items (dt : DateTime) (ap : bool) :
  two_digit_fields dt ->
  forall (ts : list item) (pre : list Z) (fuel : nat),
    (existsb is_ampm ts = true -> ap = true) ->
    well_separated ts = true -> text pre -> pre ++ render ts <> [] ->
    Z.of_nat (List.length (pre ++ render ts)) < 4294967296 ->
    (List.length (render ts) < fuel)%nat ->
    toString_loop stray fuel dt (if ap then hour12 (hh dt) else hh dt)
      (ap && (12 <=? hh dt)) (Z.of_nat (List.length pre))
      (pre ++ render ts ++ [0])
    = Ok (pre ++ flat_map (expand_item stray dt ap) ts ++ [0]).
Proof.
  intros Hf. induction ts as [|t r IH]; intros pre fuel Hap Hw Hpre Hne Hn Hfuel.
  - change (render []) with (@nil Z) in *. cbn [flat_map app].
    rewrite app_nil_r in Hne, Hn.
    destruct fuel as [|fuel]; [lia|].
    apply (loop_done stray dt _ _ pre); try assumption; [reflexivity|lia].
  - change (render (t :: r)) with (render_item t ++ render r) in *.
    cbn [flat_map].
    assert (is_ampm t = true -> ap = true) as Hap1
      by (intros E; apply Hap; cbn [existsb]; rewrite E; reflexivity).
    assert (existsb is_ampm r = true -> ap = true) as Hap2
      by (intros E; apply Hap; cbn [existsb]; rewrite E; apply orb_true_r).
    destruct (item_advance stray dt ap Hf t r pre
                (fuel - List.length (expand_item stray dt ap t) - 1)
                Hap1 Hw Hpre Hn) as (Hadv & Hout & Hlen).
    rewrite length_app in Hfuel.
    replace fuel
      with (List.length (expand_item stray dt ap t)
            + S (fuel - List.length (expand_item stray dt ap t) - 1))%nat
      by lia.
    rewrite <- !app_assoc. rewrite Hadv.
    rewrite IH.
    + rewrite <- !app_assoc. reflexivity.
    + exact Hap2.
    + eapply well_separated_tail, Hw.
    + apply text_app. split; assumption.
    + intros H. apply app_eq_nil in H as [H _].
      apply app_eq_nil in H as [_ H].
      rewrite H in Hlen. destruct t; discriminate.
    + rewrite !length_app in *. lia.
    + lia.
Qed.

Lemma strstr_render_item (t : item) (R : list Z) :
  match t with
  | Lit c => 1 <= c /\ plain_char c = true
  | _ => True
  end ->
  strstr (render_item t ++ R) (chars "ap")
  || strstr (render_item t ++ R) (chars "AP")
  = is_ampm t || (strstr R (chars "ap") || strstr R (chars "AP")).
Proof.
  destruct t; intros H; cbn [render_item chars app is_ampm]; chr_nums.
  - destruct H as [Hc Hp]. apply plain_char_tests in Hp. chr_nums.
    destruct Hp as (_ & _ & _ & _ & _ & _ & HA & Ha).
    cbn [strstr starts_with].
    rewrite (Z.eqb_sym 97 c), (Z.eqb_sym 65 c), HA, Ha.
    destruct (Z.eqb_spec c 0); [lia|]. reflexivity.
  - cbn [strstr starts_with Z.eqb Pos.eqb andb orb]. reflexivity.
  - cbn [strstr starts_with Z.eqb Pos.eqb andb orb]. reflexivity.
  - cbn [strstr starts_with Z.eqb Pos.eqb andb orb]. reflexivity.
  - cbn [strstr starts_with Z.eqb Pos.eqb andb orb]. reflexivity.
  - cbn [strstr starts_with Z.eqb Pos.eqb andb orb]. reflexivity.
  - cbn [strstr starts_with Z.eqb Pos.eqb andb orb]. reflexivity.
  - cbn [strstr starts_with Z.eqb Pos.eqb andb orb]. reflexivity.
  - cbn [strstr starts_with Z.eqb Pos.eqb andb orb]. reflexivity.
  - cbn [strstr starts_with Z.eqb Pos.eqb andb orb]. reflexivity.
  - cbn [strstr starts_with Z.eqb Pos.eqb andb orb]. apply orb_true_r.
  - cbn [strstr starts_with Z.eqb Pos.eqb andb orb]. reflexivity.
Qed.

Lemma strstr_render (ts : list item) :
  well_separated ts = true ->
  strstr (render ts ++ [0]) (chars "ap")
  || strstr (render ts ++ [0]) (chars "AP")
  = existsb is_ampm ts.
Proof.
  induction ts as [|t r IH]; intros Hw; [reflexivity|].
  change (render (t :: r)) with (render_item t ++ render r).
  cbn [existsb]. rewrite <- !app_assoc.
  rewrite strstr_render_item.
  - rewrite IH; [reflexivity|].
    eapply well_separated_tail, Hw.
  - destruct t; try exact I. apply well_separated_lit in Hw.
    destruct Hw as (Hc & Hp & _). split; [lia|exact Hp].
Qed.

Lemma hour_mode (h : Z) (ap : bool) :
  0 <= h <= 255 ->
  (if ap then
     if h =? 0 then (12, false)
     else if h =? 12 then (h, true)
     else if 12 <? h then (u8 (h - 12), true)
     else (h, false)
   else (h, false))
  = (if ap then hour12 h else h, ap && (12 <=? h)).
Proof.
  intros Hh. destruct ap; [|reflexivity]. unfold hour12. cbn [andb].
  destruct (Z.eqb_spec h 0) as [->|]; [reflexivity|].
  destruct (Z.eqb_spec h 12) as [->|]; [reflexivity|].
  destruct (Z.ltb_spec 12 h); destruct (Z.leb_spec 12 h); try lia.
  - rewrite u8_small by lia. reflexivity.
  - reflexivity.
Qed.

Lemma toString_expand (dt : DateTime) (ts : list item) (ap : bool) :
  two_digit_fields dt -> ts <> [] -> well_separated ts = true ->
  Z.of_nat (List.length (render ts)) < 4294967296 ->
  existsb is_ampm ts = ap ->
  toString stray dt (render ts ++ [0])
  = Ok (flat_map (expand_item stray dt ap) ts ++ [0]).
Proof.
  intros Hf Hne Hw Hn <-. unfold toString.
  rewrite (strstr_render ts Hw).
  assert (0 <= hh dt <= 255) as Hh by (unfold two_digit_fields in Hf; lia).
  rewrite (hour_mode (hh dt) (existsb is_ampm ts) Hh).
  apply (loop_items dt (existsb is_ampm ts) Hf ts [] _).
  - tauto.
  - exact Hw.
  - apply text_nil.
  - cbn [app]. destruct ts as [|t r]; [contradiction|].
    change (render (t :: r)) with (render_item t ++ render r).
    destruct t; discriminate.
  - exact Hn.
  - rewrite length_app. simpl. lia.
Qed.

(** X27: [toString] on a template of tokens and other characters, the fields
    of the DateTime of at most two digits: every token is replaced by
    what it stands for, the other characters are kept, and the hour is
    that of the 12-hour clock exactly when the template holds AP or ap. *)
Theorem toString_tokens (dt : DateTime) (ts : list item) :
  two_digit_fields dt -> ts <> [] -> well_separated ts = true ->
  Z.of_nat (List.length (render ts)) < 4294967296 ->
  toString stray dt (render ts ++ [0]) = Ok (expand stray dt ts ++ [0]).
Proof.
  intros Hf Hne Hw Hn. apply toString_expand; auto.
Qed.

Lemma valid_two_digit_fields (dt : DateTime) :
  valid_DateTime dt = true ->
  two_digit_fields dt /\ 0 <= yOff dt <= 99 /\ 1 <= m dt <= 12 /\
  1 <= d dt <= 31 /\ 0 <= hh dt <= 23 /\ 0 <= mm dt <= 59 /\
  0 <= ss dt <= 59.
Proof.
  unfold valid_DateTime, year, month, day, hour, minute, second.
  intros Hv. apply valid_tuple_inv in Hv as (Hy & Hmd & Hh & Hmi & Hs).
  unfold valid_month_day in Hmd. bools.
  pose proof (month_length_le (yOff dt mod 4 =? 0) (m dt)).
  unfold two_digit_fields. lia.
Qed.

(** X28: For a valid DateTime, [toString] with the template
    YYYY-MM-DDThh:mm:ss gives the text of [timestamp(TIMESTAMP_FULL)]. *)
Theorem toString_timestamp (dt : DateTime) :
  valid_DateTime dt = true ->
  toString stray dt (cstr "YYYY-MM-DDThh:mm:ss")
  = Ok (timestamp TIMESTAMP_FULL dt ++ [0]).
Proof.
  intros Hv.
  destruct (valid_two_digit_fields dt Hv) as (Hf & Hy & Hm & Hd & Hh & Hmi & Hs).
  change (cstr "YYYY-MM-DDThh:mm:ss")
    with (render [TYYYY; Lit (chr "-"); TMM; Lit (chr "-"); TDD; Lit (chr "T");
                  Thh; Lit (chr ":"); Tmm; Lit (chr ":"); Tss] ++ [0]).
  rewrite (toString_expand dt _ false Hf);
    [|discriminate|reflexivity|vm_compute; reflexivity|reflexivity].
  unfold timestamp.
  rewrite (fmt_year_digits _ Hy), !fmt_02d_digits by lia.
  cbn [flat_map expand_item app chars]. unfold two_digits, year_digits.
  rewrite (Z.mod_small (yOff dt / 10) 10) by (Z.div_mod_to_equations; lia).
  reflexivity.
Qed.

Lemma hour12_twelveHour (dt : DateTime) :
  0 <= hh dt <= 255 -> hour12 (hh dt) = twelveHour dt.
Proof.
  intros Hh. unfold hour12, twelveHour.
  destruct (Z.eqb_spec (hh dt) 0); [reflexivity|].
  destruct (Z.eqb_spec (hh dt) 12) as [->|]; [reflexivity|]. cbn [orb].
  destruct (Z.ltb_spec 12 (hh dt)); [|reflexivity].
  rewrite u8_small by lia. reflexivity.
Qed.

(** X29: In a template that holds AP or ap, the token hh is replaced by the
    two digits of [twelveHour()]. *)
Theorem toString_twelveHour (dt : DateTime) (ts1 ts2 : list item) :
  two_digit_fields dt -> well_separated (ts1 ++ Thh :: ts2) = true ->
  Z.of_nat (List.length (render (ts1 ++ Thh :: ts2))) < 4294967296 ->
  existsb is_ampm (ts1 ++ ts2) = true ->
  toString stray dt (render (ts1 ++ Thh :: ts2) ++ [0])
  = Ok ((flat_map (expand_item stray dt true) ts1 ++ two_digits (twelveHour dt)
         ++ flat_map (expand_item stray dt true) ts2) ++ [0]).
Proof.
  intros Hf Hw Hn Hap.
  rewrite (toString_expand dt _ true Hf); try assumption.
  - rewrite flat_map_app. cbn [flat_map expand_item].
    rewrite hour12_twelveHour by (unfold two_digit_fields in Hf; lia).
    reflexivity.
  - destruct ts1; discriminate.
  - rewrite existsb_app in *. cbn [existsb is_ampm orb]. exact Hap.
Qed.

(** X30: For a valid DateTime, the build-time constructor reads back what
    [toString] prints in the layouts of [__DATE__] and [__TIME__]. *)
Theorem DateTime_of_date_time_toString (dt : DateTime) :
  valid_DateTime dt = true ->
  exists date time : list Z,
    toString stray dt (cstr "MMM DD YYYY") = Ok date /\
    toString stray dt (cstr "hh:mm:ss") = Ok time /\
    DateTime_of_date_time date time = dt.
Proof.
  intros Hv.
  destruct (valid_two_digit_fields dt Hv) as (Hf & Hy & Hm & Hd & Hh & Hmi & Hs).
  change (cstr "MMM DD YYYY")
    with (render [TMMM; Lit (chr " "); TDD; Lit (chr " "); TYYYY] ++ [0]).
  change (cstr "hh:mm:ss")
    with (render [Thh; Lit (chr ":"); Tmm; Lit (chr ":"); Tss] ++ [0]).
  rewrite !(toString_expand dt _ false Hf);
    try discriminate; try reflexivity; try (vm_compute; reflexivity).
  eexists. eexists. split; [reflexivity|]. split; [reflexivity|].
  cbn [flat_map expand_item app chars]. unfold two_digits, year_digits, name3.
  unfold DateTime_of_date_time. cbn [app skipn].
  rewrite !conv2d_digits by (Z.div_mod_to_equations; lia).
  pose proof (decodeMonth_grid stray) as G.
  apply zall_spec with (x := m dt) in G; [|lia]. apply Z.eqb_eq in G.
  change (decodeMonth (month_name stray (m dt)) = m dt) in G.
  unfold month_name in G.
  match goal with
  | |- mkDateTime _ (decodeMonth (?a :: ?b :: ?c :: ?l)) _ _ _ _ = _ =>
      change (decodeMonth (a :: b :: c :: l)) with (decodeMonth [a; b; c])
  end.
  rewrite G. destruct dt as [y1 m1 d1 h1 i1 s1]. cbn [yOff m d hh mm ss] in *.
  f_equal; Z.div_mod_to_equations; lia.
Qed.

End WholeTemplate.

Lemma toString_tokens_witness :
  toString zero_flash (mkDateTime 20 4 16 18 34 56)
    (cstr "DDD, DD MMM YYYY hh:mm AP")
  = Ok (cstr "Thu, 16 Apr 2020 06:34 PM").
Proof.
  apply (toString_tokens zero_flash (mkDateTime 20 4 16 18 34 56)
           [TDDD; Lit (chr ","); Lit (chr " "); TDD; Lit (chr " "); TMMM;
            Lit (chr " "); TYYYY; Lit (chr " "); Thh; Lit (chr ":"); Tmm;
            Lit (chr " "); TAP]).
  - unfold two_digit_fields. simpl. lia.
  - discriminate.
  - reflexivity.
  - vm_compute. reflexivity.
Defined.

Lemma toString_timestamp_witness :
  toString zero_flash (mkDateTime 20 4 16 18 34 56)
    (cstr "YYYY-MM-DDThh:mm:ss")
  = Ok (cstr "2020-04-16T18:34:56").
Proof.
  apply (toString_timestamp zero_flash (mkDateTime 20 4 16 18 34 56)).
  reflexivity.
Defined.

Lemma toString_twelveHour_witness :
  toString zero_flash (mkDateTime 20 4 16 0 5 0) (cstr "hh:mm ap")
  = Ok (cstr "12:05 am").
Proof.
  apply (toString_twelveHour zero_flash (mkDateTime 20 4 16 0 5 0) []
           [Lit (chr ":"); Tmm; Lit (chr " "); Tap]).
  - unfold two_digit_fields. simpl. lia.
  - reflexivity.
  - vm_compute. reflexivity.
  - reflexivity.
Defined.

Lemma DateTime_of_date_time_toString_witness :
  exists date time : list Z,
    toString zero_flash (mkDateTime 20 4 16 18 34 56) (cstr "MMM DD YYYY")
    = Ok date /\
    toString zero_flash (mkDateTime 20 4 16 18 34 56) (cstr "hh:mm:ss")
    = Ok time /\
    DateTime_of_date_time date time = mkDateTime 20 4 16 18 34 56.
Proof.
  apply (DateTime_of_date_time_toString zero_flash
           (mkDateTime 20 4 16 18 34 56)).
  reflexivity.
Defined.
